(** * control-resource: start, stop and status of tagged AWS resources

    A shallow embedding of [src/aws/lamdba/control-resource.py] and the
    properties of its Lambda handler.

    Python values that arrive in the event are [pyval]; a Python [str] is a
    [string] holding its UTF-8 bytes; a [dict] is an association list in
    insertion order.  The handler runs in a state-and-exception monad over
    the process environment, the provider's state, and the log of SDK
    calls issued so far. *)

From Stdlib Require Import String Ascii List ZArith NArith Bool.
From Stdlib Require Import DecimalString.
From Corelib Require Import PrimFloat.
Import ListNotations.
Local Open Scope string_scope.
Local Open Scope Z_scope.

Set Implicit Arguments.

(** ** Python values *)

Definition pydict (V : Type) := list (string * V).

(** Values of a JSON-decoded event: [None], [bool], [int], [float], [str],
    [list], [dict]. *)
#[warnings="-register-all"]
Inductive pyval : Type :=
| PNone
| PBool (b : bool)
| PInt (z : Z)
| PFloat (f : float)
| PStr (s : string)
| PList (l : list pyval)
| PDict (d : list (string * pyval)).

(** [bool(v)]: the truth value Python's [if v] and [not v] test. *)
Definition truthy (v : pyval) : bool :=
  match v with
  | PNone => false
  | PBool b => b
  | PInt z => negb (z =? 0)
  | PFloat f => negb (PrimFloat.eqb f PrimFloat.zero)
  | PStr s => negb (s =? "")%string
  | PList l => match l with [] => false | _ => true end
  | PDict d => match d with [] => false | _ => true end
  end.

Definition isinstance_list (v : pyval) : bool :=
  match v with PList _ => true | _ => false end.

Definition isinstance_dict (v : pyval) : bool :=
  match v with PDict _ => true | _ => false end.

Definition isinstance_str (v : pyval) : bool :=
  match v with PStr _ => true | _ => false end.

(** [s == v] for a [str] s: equal only to the same [str]. *)
Definition str_eq (s : string) (v : pyval) : bool :=
  match v with PStr s' => (s =? s')%string | _ => false end.

(** ** Dicts *)

Fixpoint dict_get {V} (d : pydict V) (k : string) : option V :=
  match d with
  | [] => None
  | (k', v) :: d' => if (k' =? k)%string then Some v else dict_get d' k
  end.

(** [k in d] *)
Definition dict_has {V} (d : pydict V) (k : string) : bool :=
  match dict_get d k with Some _ => true | None => false end.

(** [d[k] = v]: replaces in place, or appends a new key at the end. *)
Fixpoint dict_set {V} (d : pydict V) (k : string) (v : V) : pydict V :=
  match d with
  | [] => [(k, v)]
  | (k', v') :: d' =>
      if (k' =? k)%string then (k, v) :: d' else (k', v') :: dict_set d' k v
  end.

(** ** json.dumps

    The encoder with its defaults: [ensure_ascii=True], item separator
    [", "], key separator [": "].  Only the shapes the handler serialises
    are needed: [str], [int], [list], [dict] with [str] keys. *)

Definition dquote : ascii := "034"%char.
Definition newline : ascii := "010"%char.

(** The code points of a [str], decoded from its UTF-8 bytes. *)
Fixpoint code_points (s : string) : list N :=
  let cont (a : ascii) := (N_of_ascii a mod 64)%N in
  match s with
  | EmptyString => []
  | String a0 s1 =>
      let b0 := N_of_ascii a0 in
      if (b0 <? 0xC0)%N then b0 :: code_points s1
      else
        match s1 with
        | EmptyString => [b0]
        | String a1 s2 =>
            if (b0 <? 0xE0)%N then
              ((b0 mod 32) * 64 + cont a1)%N :: code_points s2
            else
              match s2 with
              | EmptyString => [b0]
              | String a2 s3 =>
                  if (b0 <? 0xF0)%N then
                    ((b0 mod 16) * 4096 + cont a1 * 64 + cont a2)%N
                      :: code_points s3
                  else
                    match s3 with
                    | EmptyString => [b0]
                    | String a3 s4 =>
                        ((b0 mod 8) * 262144 + cont a1 * 4096
                         + cont a2 * 64 + cont a3)%N :: code_points s4
                    end
              end
        end
  end.

Definition hex_digit (d : N) : ascii :=
  match String.get (N.to_nat d) "0123456789abcdef" with
  | Some c => c
  | None => "0"%char
  end.

(** ['\\u{0:04x}'.format(n)] *)
Definition u_escape (n : N) : string :=
  String "\" (String "u"
    (String (hex_digit (n / 4096 mod 16))
    (String (hex_digit (n / 256 mod 16))
    (String (hex_digit (n / 16 mod 16))
    (String (hex_digit (n mod 16)) EmptyString))))).

(** One character under [ESCAPE_ASCII]: printable ASCII is kept, the
    short escapes are used where they exist, anything else becomes
    [\uXXXX], as a surrogate pair above the basic plane. *)
Definition escape_code_point (c : N) : string :=
  if (c =? 34)%N then String "\" (String dquote EmptyString)
  else if (c =? 92)%N then "\\"
  else if (c =? 10)%N then "\n"
  else if (c =? 13)%N then "\r"
  else if (c =? 9)%N then "\t"
  else if (c =? 12)%N then "\f"
  else if (c =? 8)%N then "\b"
  else if ((32 <=? c) && (c <=? 126))%N then String (ascii_of_N c) EmptyString
  else if (c <? 0x10000)%N then u_escape c
  else
    let n := (c - 0x10000)%N in
    u_escape (0xD800 + n / 1024 mod 1024) ++ u_escape (0xDC00 + n mod 1024).

Definition encode_basestring_ascii (s : string) : string :=
  String dquote (String.concat "" (map escape_code_point (code_points s)))
  ++ String dquote EmptyString.

#[warnings="-register-all"]
Inductive jval : Type :=
| JStr (s : string)
| JInt (z : Z)
| JList (l : list jval)
| JDict (d : list (string * jval)).

Fixpoint json_dumps (v : jval) : string :=
  match v with
  | JStr s => encode_basestring_ascii s
  | JInt z => NilZero.string_of_int (Z.to_int z)
  | JList l => "[" ++ String.concat ", " (map json_dumps l) ++ "]"
  | JDict d =>
      "{" ++ String.concat ", "
               (map (fun kv => match kv with
                               | (k, x) => encode_basestring_ascii k ++ ": " ++ json_dumps x
                               end) d) ++ "}"
  end.

(** ** What the provider returns

    The keys the source reads are the fields.  An instance that has no
    tags is listed without the ["Tags"] key, and only a spot or scheduled
    instance has ["InstanceLifecycle"], so these two are optional: [None]
    is the absent key.  [instance["State"]["Name"]] is the field
    [State_Name].  A group always comes with its ["Tags"] list. *)

Record Tag : Type := { Key : string; Value : string }.

Module EC2.
Record Instance : Type := {
  InstanceId : string;
  InstanceType : string;
  State_Name : string;
  Tags : option (list Tag);
  InstanceLifecycle : option string }.
Record Reservation : Type := { Instances : list Instance }.
End EC2.

Module ASG.
Record Group : Type := {
  AutoScalingGroupName : string;
  DesiredCapacity : Z;
  Tags : list Tag }.
End ASG.

(** The SDK operations the source calls, as they are recorded in the log. *)
Inductive Call : Type :=
| DescribeInstances
| StartInstances (InstanceIds : list string)
| StopInstances (InstanceIds : list string)
| DescribeAutoScalingGroups (AutoScalingGroupNames : option (list string))
| UpdateAutoScalingGroup (AutoScalingGroupName : string) (MinSize MaxSize DesiredCapacity : Z).

(** What [boto3.client] raises when it gives no client: botocore's
    [UnknownServiceError] for a name it has no service for,
    [AttributeError] for a name that is not a [str], [ValueError] for a
    region it cannot build an endpoint for, such as the empty string.
    It is never the [ResourceNotExistsError] of [boto3.resource]. *)
Inductive client_failure : Type :=
| UnknownServiceError
| AttributeError
| ValueError.

(** The SDK and the control plane behind it, for a provider state [P].
    [client_exists name region] tells whether
    [boto3.client(name, region_name=region)] returns a client; when it
    does not, [client_error name region] is what it raises.
    The describe operations read the state, the others change it; the
    ["Reservations"] and ["AutoScalingGroups"] wrappers of the responses
    are left out.  Calls that fail at the provider are not modelled. *)
Class Provider (P : Type) : Type := {
  client_exists : pyval -> string -> bool;
  client_error : pyval -> string -> client_failure;
  ec2_describe_instances : P -> list EC2.Reservation;
  ec2_start_instances : list string -> P -> P;
  ec2_stop_instances : list string -> P -> P;
  asg_describe_auto_scaling_groups : option (list string) -> P -> list ASG.Group;
  asg_update_auto_scaling_group : string -> Z -> Z -> Z -> P -> P }.

(** ** The monad *)

Inductive exn : Type :=
| KeyError (key : string)
| IndexError
| TypeError
| ResourceNotExistsError
| ClientFailure (failure : client_failure).

Inductive outcome (A : Type) : Type :=
| Ret (a : A)
| Raise (e : exn).
Arguments Raise {A} e.

Record World (P : Type) : Type := {
  environ : pydict string;
  provider : P;
  calls : list Call }.

Definition M (P A : Type) : Type := World P -> outcome A * World P.

Definition ret {P A} (a : A) : M P A := fun w => (Ret a, w).

Definition raise {P A} (e : exn) : M P A := fun w => (Raise e, w).

Definition lift {P A} (o : outcome A) : M P A := fun w => (o, w).

Definition bind {P A B} (m : M P A) (k : A -> M P B) : M P B :=
  fun w =>
    match m w with
    | (Ret a, w') => k a w'
    | (Raise e, w') => (Raise e, w')
    end.

Notation "x <- m ;; k" := (bind m (fun x => k))
  (at level 61, m at next level, right associativity).
Notation "m ;; k" := (bind m (fun _ => k))
  (at level 61, right associativity).

(** [for a in l: body(a)] *)
Fixpoint for_each {P A} (l : list A) (body : A -> M P unit) : M P unit :=
  match l with
  | [] => ret tt
  | a :: l' => body a ;; for_each l' body
  end.

(** A [for] loop that updates a local variable [s]. *)
Fixpoint for_fold {P A S} (l : list A) (s : S) (body : S -> A -> M P S) : M P S :=
  match l with
  | [] => ret s
  | a :: l' => s' <- body s a ;; for_fold l' s' body
  end.

(** [d[k]] *)
Definition subscript {V} (d : pydict V) (k : string) : outcome V :=
  match dict_get d k with
  | Some v => Ret v
  | None => Raise (KeyError k)
  end.

(** [l[0]] *)
Definition first_item {A} (l : list A) : outcome A :=
  match l with
  | a :: _ => Ret a
  | [] => Raise IndexError
  end.

Definition nonempty (s : string) : bool := negb (s =? "")%string.

(** ** The program *)

Definition EXEC_ENV : string := "EXEC_ENV".

Record ControlService : Type := {
  aws_service : option (list pyval);
  target_service : option (pydict pyval);
  action : option string;
  exec_env : string }.

Inductive boto_client : Type :=
| BotoClient (service_name : pyval) (region_name : string).

Record AWSClient : Type := {
  aws_service_name : pyval;
  service : boto_client }.

Record Response : Type := { statusCode : Z; body : string }.

Section Program.

Context {P : Type} `{Provider P}.

Definition log (c : Call) (w : World P) : World P :=
  {| environ := environ w; provider := provider w; calls := (calls w ++ [c])%list |}.

Definition sdk_describe_instances (client : boto_client) : M P (list EC2.Reservation) :=
  fun w => (Ret (ec2_describe_instances (provider w)), log DescribeInstances w).

Definition sdk_start_instances (client : boto_client) (InstanceIds : list string) : M P unit :=
  fun w =>
    (Ret tt,
     {| environ := environ w;
        provider := ec2_start_instances InstanceIds (provider w);
        calls := (calls w ++ [StartInstances InstanceIds])%list |}).

Definition sdk_stop_instances (client : boto_client) (InstanceIds : list string) : M P unit :=
  fun w =>
    (Ret tt,
     {| environ := environ w;
        provider := ec2_stop_instances InstanceIds (provider w);
        calls := (calls w ++ [StopInstances InstanceIds])%list |}).

Definition sdk_describe_auto_scaling_groups (client : boto_client)
    (AutoScalingGroupNames : option (list string)) : M P (list ASG.Group) :=
  fun w =>
    (Ret (asg_describe_auto_scaling_groups AutoScalingGroupNames (provider w)),
     log (DescribeAutoScalingGroups AutoScalingGroupNames) w).

Definition sdk_update_auto_scaling_group (client : boto_client)
    (AutoScalingGroupName : string) (MinSize MaxSize DesiredCapacity : Z) : M P unit :=
  fun w =>
    (Ret tt,
     {| environ := environ w;
        provider := asg_update_auto_scaling_group AutoScalingGroupName
                      MinSize MaxSize DesiredCapacity (provider w);
        calls := (calls w ++ [UpdateAutoScalingGroup AutoScalingGroupName
                               MinSize MaxSize DesiredCapacity])%list |}).

(** [os.environ[k]] *)
Definition environ_subscript (k : string) : M P string :=
  fun w => (subscript (environ w) k, w).

(** [os.environ[EXEC_ENV] if EXEC_ENV in os.environ else ""] *)
Definition environ_exec_env (env : pydict string) : string :=
  if dict_has env EXEC_ENV
  then match dict_get env EXEC_ENV with
       | Some v => v
       | None => ""
       end
  else "".

(** [ControlService.__init__] *)
Definition ControlService_init (aws_service : option (list pyval))
    (target_service : option (pydict pyval)) (action : option string) : M P ControlService :=
  fun w =>
    (Ret {| aws_service := aws_service;
            target_service := target_service;
            action := action;
            exec_env := environ_exec_env (environ w) |}, w).

(** [AWSClient.__init__]: the region is read before [boto3.client] runs. *)
Definition AWSClient_init (aws_service_name : pyval) : M P AWSClient :=
  region <- environ_subscript "AWS_REGION" ;;
  if client_exists aws_service_name region
  then ret {| aws_service_name := aws_service_name;
              service := BotoClient aws_service_name region |}
  else raise (ClientFailure (client_error aws_service_name region)).

(** [return ControlService(), {'statusCode': 400, 'body': json.dumps(msg)}] *)
Definition invalid_request (msg : string) : M P (ControlService * option Response) :=
  cs <- ControlService_init None None None ;;
  ret (cs, Some {| statusCode := 400; body := json_dumps (JStr msg) |}).

Definition validate_params (event : pydict pyval) : M P (ControlService * option Response) :=
  aws_service <- lift (subscript event "aws_service") ;;
  target_service <- lift (subscript event "target_service") ;;
  action <- lift (subscript event "action") ;;
  if negb (truthy aws_service) then invalid_request "aws_service is required!"
  else
    match aws_service with
    | PList aws_service =>
        if negb (truthy target_service) then invalid_request "target_service is required!"
        else
          match target_service with
          | PDict target_service =>
              if negb (truthy action) then invalid_request "action is required!"
              else
                match action with
                | PStr action =>
                    cs <- ControlService_init (Some aws_service) (Some target_service)
                            (Some action) ;;
                    ret (cs, None)
                | _ => invalid_request "action is invalid!"
                end
          | _ => invalid_request "target_service is invalid!"
          end
    | _ => invalid_request "aws_service is invalid!"
    end.

Definition get_resource (aws_service_name : pyval) : M P (option AWSClient) :=
  fun w =>
    match AWSClient_init aws_service_name w with
    | (Ret c, w') => (Ret (Some c), w')
    | (Raise ResourceNotExistsError, w') => (Ret None, w')
    | (Raise e, w') => (Raise e, w')
    end.

(** [control_service.target_service[k]] *)
Definition target_service_subscript (control_service : ControlService) (k : string) : M P pyval :=
  match target_service control_service with
  | Some d => lift (subscript d k)
  | None => raise TypeError
  end.

(** [control_service.action == s] *)
Definition action_is (control_service : ControlService) (s : string) : bool :=
  match action control_service with
  | Some a => (a =? s)%string
  | None => false
  end.

(** [tag["Key"] == "Service" and
     tag["Value"] == control_service.target_service["service"]] *)
Definition service_tag_matches (tag : Tag) (control_service : ControlService) : M P bool :=
  if (Key tag =? "Service")%string then
    v <- target_service_subscript control_service "service" ;;
    ret (str_eq (Value tag) v)
  else ret false.

(** ["InstanceLifecycle" in instance and instance["InstanceLifecycle"] == "spot"] *)
Definition is_spot (instance : EC2.Instance) : bool :=
  match EC2.InstanceLifecycle instance with
  | Some l => (l =? "spot")%string
  | None => false
  end.

(** [instance["Tags"]] *)
Definition instance_tags (instance : EC2.Instance) : outcome (list Tag) :=
  match EC2.Tags instance with
  | Some tags => Ret tags
  | None => Raise (KeyError "Tags")
  end.

Definition update_ec2 (ec2_client : boto_client) (control_service : ControlService) : M P unit :=
  response <- sdk_describe_instances ec2_client ;;
  for_each response (fun reservation =>
    for_each (EC2.Instances reservation) (fun instance =>
      tags <- lift (instance_tags instance) ;;
      for_each tags (fun tag =>
        matches <- service_tag_matches tag control_service ;;
        if matches then
          if action_is control_service "start" then
            if (EC2.State_Name instance =? "stopped")%string
            then sdk_start_instances ec2_client [EC2.InstanceId instance]
            else ret tt
          else if action_is control_service "stop" then
            if (EC2.State_Name instance =? "running")%string then
              if is_spot instance then ret tt
              else sdk_stop_instances ec2_client [EC2.InstanceId instance]
            else ret tt
          else ret tt
        else ret tt))).

Definition get_ec2_status (ec2_client : boto_client) (control_service : ControlService)
    : M P (list (pydict jval)) :=
  response <- sdk_describe_instances ec2_client ;;
  for_fold response [] (fun result reservation =>
    for_fold (EC2.Instances reservation) result (fun result instance =>
      tags <- lift (instance_tags instance) ;;
      info <- for_fold tags [] (fun info tag =>
        if (Key tag =? "Name")%string then
          ret (dict_set info "Name" (JStr (Value tag)))
        else if (Key tag =? "Service")%string then
          v <- target_service_subscript control_service "service" ;;
          if str_eq (Value tag) v && (EC2.State_Name instance =? "running")%string then
            ret (dict_set (dict_set info "InstanceId" (JStr (EC2.InstanceId instance)))
                   "InstanceType" (JStr (EC2.InstanceType instance)))
          else ret info
        else ret info) ;;
      if match info with [] => false | _ => true end && dict_has info "InstanceId" then
        ret (result ++ [if negb (dict_has info "Name")
                        then dict_set info "Name" (JStr "")
                        else info])%list
      else ret result)).

Definition update_auto_scaling_group (autoscaling_clinet : boto_client)
    (control_service : ControlService) : M P unit :=
  response <- sdk_describe_auto_scaling_groups autoscaling_clinet None ;;
  for_each response (fun group =>
    for_each (ASG.Tags group) (fun tag =>
      matches <- service_tag_matches tag control_service ;;
      if matches then
        if action_is control_service "start" then
          sdk_update_auto_scaling_group autoscaling_clinet
            (ASG.AutoScalingGroupName group) 1 1 1
        else if action_is control_service "stop" then
          sdk_update_auto_scaling_group autoscaling_clinet
            (ASG.AutoScalingGroupName group) 0 0 0
        else ret tt
      else ret tt)).

Definition get_auto_scaling_group_status (autoscaling_clinet : boto_client)
    (control_service : ControlService) : M P (list (pydict jval)) :=
  response <- sdk_describe_auto_scaling_groups autoscaling_clinet None ;;
  for_fold response [] (fun result group =>
    for_fold (ASG.Tags group) result (fun result tag =>
      matches <- service_tag_matches tag control_service ;;
      if matches then
        res <- sdk_describe_auto_scaling_groups autoscaling_clinet
                 (Some [ASG.AutoScalingGroupName group]) ;;
        _group <- lift (first_item res) ;;
        ret (result ++ [[("AutoScalingGroupName", JStr (ASG.AutoScalingGroupName _group));
                         ("Size", JInt (ASG.DesiredCapacity _group))]])%list
      else ret result)).

Definition get_aws_service_status (aws_clients : list AWSClient)
    (control_service : ControlService) : M P (list (list (pydict jval))) :=
  for_fold aws_clients [] (fun res _aws_client =>
    if str_eq "autoscaling" (aws_service_name _aws_client) then
      r <- get_auto_scaling_group_status (service _aws_client) control_service ;;
      ret (res ++ [r])%list
    else if str_eq "ec2" (aws_service_name _aws_client) then
      r <- get_ec2_status (service _aws_client) control_service ;;
      ret (res ++ [r])%list
    else ret res).

Definition update_aws_service (aws_clients : list AWSClient)
    (control_service : ControlService) : M P unit :=
  for_each aws_clients (fun _aws_client =>
    if str_eq "autoscaling" (aws_service_name _aws_client) then
      update_auto_scaling_group (service _aws_client) control_service
    else if str_eq "ec2" (aws_service_name _aws_client) then
      update_ec2 (service _aws_client) control_service
    else ret tt).

(** The loop of [lambda_handler] that builds the clients: [inl] is the
    response it returns from inside the loop, [inr] the finished list. *)
Fixpoint build_clients (names : list pyval) (aws_clients : list AWSClient)
    : M P (Response + list AWSClient) :=
  match names with
  | [] => ret (inr aws_clients)
  | service_name :: names' =>
      _s <- get_resource service_name ;;
      match _s with
      | None => ret (inl {| statusCode := 400;
                            body := json_dumps (JStr "aws_service is invalid!") |})
      | Some c => build_clients names' (aws_clients ++ [c])%list
      end
  end.

(** [json.dumps(res)] for the list of lists of dicts the status gives. *)
Definition status_json (res : list (list (pydict jval))) : jval :=
  JList (map (fun r => JList (map JDict r)) res).

Definition lambda_handler (event : pydict pyval) : M P Response :=
  validated <- validate_params event ;;
  let control_service := fst validated in
  match snd validated with
  | Some validate_result => ret validate_result
  | None =>
      names <- match aws_service control_service with
               | Some l => ret l
               | None => raise TypeError
               end ;;
      built <- build_clients names [] ;;
      match built with
      | inl response => ret response
      | inr aws_clients =>
          let msg := if nonempty (exec_env control_service)
                     then "実行環境: " ++ exec_env control_service ++ String newline ""
                     else "" in
          if action_is control_service "status" then
            res <- get_aws_service_status aws_clients control_service ;;
            let body := json_dumps (status_json res) in
            ret {| statusCode := 200;
                   body := if nonempty body
                           then msg ++ "次のサービスが稼働しています"
                                    ++ String newline body
                           else msg ++ "停止しています" |}
          else if action_is control_service "start" || action_is control_service "stop" then
            update_aws_service aws_clients control_service ;;
            ret {| statusCode := 200;
                   body := if action_is control_service "start"
                           then msg ++ "起動リクエストの受付を開始しました"
                           else if action_is control_service "stop"
                           then msg ++ "停止リクエストの受付を開始しました"
                           else msg |}
          else ret {| statusCode := 404; body := "Not Found!" |}
      end
  end.

End Program.

(** ** A provider for running the handler on concrete inputs

    A small in-memory control plane: starting an instance moves it to
    ["pending"], stopping it to ["stopping"], a capacity update sets the
    desired capacity.  [live_groups] is what a lookup by name finds, so a
    group deleted after it was listed is in [listed_groups] only. *)

Module Fake.

Record Cloud : Type := {
  reservations : list EC2.Reservation;
  listed_groups : list ASG.Group;
  live_groups : list ASG.Group }.

Definition mem (s : string) (l : list string) : bool := existsb (String.eqb s) l.

Definition set_state (ids : list string) (st : string) (i : EC2.Instance) : EC2.Instance :=
  if mem (EC2.InstanceId i) ids
  then {| EC2.InstanceId := EC2.InstanceId i;
          EC2.InstanceType := EC2.InstanceType i;
          EC2.State_Name := st;
          EC2.Tags := EC2.Tags i;
          EC2.InstanceLifecycle := EC2.InstanceLifecycle i |}
  else i.

Definition set_states (ids : list string) (st : string) (c : Cloud) : Cloud :=
  {| reservations :=
       map (fun r => {| EC2.Instances := map (set_state ids st) (EC2.Instances r) |})
         (reservations c);
     listed_groups := listed_groups c;
     live_groups := live_groups c |}.

Definition set_capacity (name : string) (n : Z) (g : ASG.Group) : ASG.Group :=
  if (ASG.AutoScalingGroupName g =? name)%string
  then {| ASG.AutoScalingGroupName := name;
          ASG.DesiredCapacity := n;
          ASG.Tags := ASG.Tags g |}
  else g.

#[global] Instance cloud_provider : Provider Cloud := {|
  client_exists := fun name region =>
    (str_eq "ec2" name || str_eq "autoscaling" name || str_eq "s3" name) && nonempty region;
  client_error := fun name region =>
    match name with
    | PStr _ =>
        if str_eq "ec2" name || str_eq "autoscaling" name || str_eq "s3" name
        then ValueError
        else UnknownServiceError
    | _ => AttributeError
    end;
  ec2_describe_instances := reservations;
  ec2_start_instances := fun ids => set_states ids "pending";
  ec2_stop_instances := fun ids => set_states ids "stopping";
  asg_describe_auto_scaling_groups := fun names c =>
    match names with
    | None => listed_groups c
    | Some l => filter (fun g => mem (ASG.AutoScalingGroupName g) l) (live_groups c)
    end;
  asg_update_auto_scaling_group := fun name _ _ desired c =>
    {| reservations := reservations c;
       listed_groups := map (set_capacity name desired) (listed_groups c);
       live_groups := map (set_capacity name desired) (live_groups c) |} |}.

Definition instance (id type state : string) (tags : list (string * string))
    (lifecycle : option string) : EC2.Instance :=
  {| EC2.InstanceId := id;
     EC2.InstanceType := type;
     EC2.State_Name := state;
     EC2.Tags := Some (map (fun kv => {| Key := fst kv; Value := snd kv |}) tags);
     EC2.InstanceLifecycle := lifecycle |}.

(** An instance that has no tags: it is listed without the ["Tags"] key. *)
Definition untagged_instance (id type state : string) : EC2.Instance :=
  {| EC2.InstanceId := id;
     EC2.InstanceType := type;
     EC2.State_Name := state;
     EC2.Tags := None;
     EC2.InstanceLifecycle := None |}.

Definition group (name : string) (desired : Z) (tags : list (string * string)) : ASG.Group :=
  {| ASG.AutoScalingGroupName := name;
     ASG.DesiredCapacity := desired;
     ASG.Tags := map (fun kv => {| Key := fst kv; Value := snd kv |}) tags |}.

Definition world (env : pydict string) (c : Cloud) : World Cloud :=
  {| environ := env; provider := c; calls := [] |}.

Definition request (aws_service target_service action : pyval) : pydict pyval :=
  [("aws_service", aws_service); ("target_service", target_service); ("action", action)].

Definition lambda_env : pydict string := [("AWS_REGION", "ap-northeast-1")].

Definition empty_cloud : Cloud :=
  {| reservations := []; listed_groups := []; live_groups := [] |}.

Definition web_cloud : Cloud :=
  {| reservations :=
       [ {| EC2.Instances :=
              [ instance "i-1" "t3.micro" "running" [("Name", "web-1"); ("Service", "web")] None;
                instance "i-2" "t3.micro" "stopped" [("Service", "web")] None ] |};
         {| EC2.Instances :=
              [ instance "i-3" "m5.large" "running" [("Service", "web")] (Some "spot");
                instance "i-4" "m5.large" "running" [("Service", "db"); ("Name", "db-1")] None;
                instance "i-5" "m5.large" "pending" [("Service", "web")] (Some "scheduled") ] |} ];
     listed_groups :=
       [ group "asg-web" 3 [("Service", "web")]; group "asg-db" 2 [("Service", "db")] ];
     live_groups :=
       [ group "asg-web" 3 [("Service", "web")]; group "asg-db" 2 [("Service", "db")] ] |}.

(** An untagged instance is listed before the instances of service [web]. *)
Definition mixed_cloud : Cloud :=
  {| reservations :=
       [ {| EC2.Instances :=
              [ untagged_instance "i-0" "t3.nano" "running";
                instance "i-1" "t3.micro" "running" [("Name", "web-1"); ("Service", "web")] None;
                instance "i-2" "t3.micro" "stopped" [("Service", "web")] None ] |} ];
     listed_groups := [];
     live_groups := [] |}.

Definition web_target : pydict pyval := [("service", PStr "web")].

Definition control (act : string) : ControlService :=
  {| aws_service := Some [PStr "ec2"; PStr "autoscaling"];
     target_service := Some web_target;
     action := Some act;
     exec_env := "" |}.

Definition ec2 : boto_client := BotoClient (PStr "ec2") "ap-northeast-1".

Definition autoscaling : boto_client := BotoClient (PStr "autoscaling") "ap-northeast-1".

Definition web_world : World Cloud := world lambda_env web_cloud.

Definition mixed_world : World Cloud := world lambda_env mixed_cloud.

(** The group ["asg-web"] is listed but is gone when looked up by name. *)
Definition vanished_cloud : Cloud :=
  {| reservations := [];
     listed_groups := [ group "asg-web" 3 [("Service", "web")] ];
     live_groups := [] |}.

(** The target of the sample event in the docstring of [lambda_handler]. *)
Definition sample_target : pydict pyval := [("tag_name", PStr "your_service_name")].

Definition sample_control (act : string) : ControlService :=
  {| aws_service := Some [PStr "ec2"; PStr "autoscaling"];
     target_service := Some sample_target;
     action := Some act;
     exec_env := "" |}.

(** An environment that names the execution environment. *)
Definition staging_env : pydict string :=
  [("AWS_REGION", "ap-northeast-1"); ("EXEC_ENV", "staging")].

End Fake.

(** ** Vocabulary of the properties *)

(** The request carries the three keys with values of the expected types,
    none of them empty: the requests [validate_params] accepts. *)
Definition valid_request (event : pydict pyval) (names : list pyval)
    (target : pydict pyval) (act : string) : Prop :=
  dict_get event "aws_service" = Some (PList names) /\ names <> []
  /\ dict_get event "target_service" = Some (PDict target) /\ target <> []
  /\ dict_get event "action" = Some (PStr act) /\ act <> "".

(** The request lacks one of the three keys. *)
Definition missing_field (event : pydict pyval) : Prop :=
  dict_get event "aws_service" = None
  \/ dict_get event "target_service" = None
  \/ dict_get event "action" = None.

Definition bad_request (msg : string) : Response :=
  {| statusCode := 400; body := String dquote (msg ++ String dquote "") |}.

(** A tag with key ["Service"] whose value is [v]. *)
Definition tag_matches (v : pyval) (tag : Tag) : bool :=
  (Key tag =? "Service")%string && str_eq (Value tag) v.

Definition has_service_tag (v : pyval) (tags : list Tag) : bool :=
  existsb (tag_matches v) tags.

Definition all_instances (response : list EC2.Reservation) : list EC2.Instance :=
  flat_map EC2.Instances response.

(** The instance is listed with the ["Tags"] key. *)
Definition has_tags (i : EC2.Instance) : bool :=
  match EC2.Tags i with
  | Some _ => true
  | None => false
  end.

(** The elements of [l] a loop reaches when it stops at the first one
    that is not [ok]: those before it and that one. *)
Fixpoint upto {A} (ok : A -> bool) (l : list A) : list A :=
  match l with
  | [] => []
  | a :: l' => if ok a then a :: upto ok l' else [a]
  end.

(** The tags of an instance, none when the key is absent. *)
Definition tags_of (i : EC2.Instance) : list Tag :=
  match EC2.Tags i with
  | Some tags => tags
  | None => []
  end.

Definition is_describe (c : Call) : bool :=
  match c with
  | DescribeInstances | DescribeAutoScalingGroups _ => true
  | _ => false
  end.

Definition is_start (c : Call) : bool :=
  match c with
  | StartInstances _ => true
  | _ => false
  end.

Section Vocabulary.

Context {P : Type} `{Provider P}.

(** [m] returns normally and appends exactly the calls [h] to the log. *)
Definition emits (m : M P unit) (h : list Call) : Prop :=
  forall w, exists w',
    m w = (Ret tt, w') /\ calls w' = (calls w ++ h)%list /\ environ w' = environ w.

(** [m] appends exactly the calls [h] to the log and then returns, when
    [ok], or raises [e]. *)
Definition runs (m : M P unit) (ok : bool) (e : exn) (h : list Call) : Prop :=
  forall w, exists w',
    m w = (if ok then Ret tt else Raise e, w')
    /\ calls w' = (calls w ++ h)%list /\ environ w' = environ w.

(** The calls one tag of one instance gives rise to in [update_ec2]. *)
Definition ec2_tag_calls (cs : ControlService) (v : pyval) (i : EC2.Instance) (tag : Tag)
    : list Call :=
  if tag_matches v tag then
    if action_is cs "start" then
      if (EC2.State_Name i =? "stopped")%string then [StartInstances [EC2.InstanceId i]] else []
    else if action_is cs "stop" then
      if (EC2.State_Name i =? "running")%string && negb (is_spot i)
      then [StopInstances [EC2.InstanceId i]] else []
    else []
  else [].

(** The calls one tag of one group gives rise to in
    [update_auto_scaling_group]. *)
Definition asg_tag_calls (cs : ControlService) (v : pyval) (g : ASG.Group) (tag : Tag)
    : list Call :=
  if tag_matches v tag then
    if action_is cs "start" then [UpdateAutoScalingGroup (ASG.AutoScalingGroupName g) 1 1 1]
    else if action_is cs "stop" then [UpdateAutoScalingGroup (ASG.AutoScalingGroupName g) 0 0 0]
    else []
  else [].

(** Whatever [m] returns or raises, it leaves the provider's state and
    the environment as they were and logs describe calls only. *)
Definition read_only {A} (m : M P A) : Prop :=
  forall w,
    provider (snd (m w)) = provider w
    /\ environ (snd (m w)) = environ w
    /\ exists l, calls (snd (m w)) = (calls w ++ l)%list
                 /\ Forall (fun c => is_describe c = true) l.

Definition group_entry (g : ASG.Group) : pydict jval :=
  [("AutoScalingGroupName", JStr (ASG.AutoScalingGroupName g));
   ("Size", JInt (ASG.DesiredCapacity g))].

(** What looking [g] up by its name returns in provider state [p]. *)
Definition refetch (p : P) (g : ASG.Group) : list ASG.Group :=
  asg_describe_auto_scaling_groups (Some [ASG.AutoScalingGroupName g]) p.

(** The body of the loop over the tags of [group], as in
    [get_auto_scaling_group_status]. *)
Definition asg_status_tag client cs (group : ASG.Group)
    (result : list (pydict jval)) (tag : Tag) : M P (list (pydict jval)) :=
  matches <- service_tag_matches tag cs ;;
  if matches then
    res <- sdk_describe_auto_scaling_groups client (Some [ASG.AutoScalingGroupName group]) ;;
    _group <- lift (first_item res) ;;
    ret (result ++ [group_entry _group])%list
  else ret result.

(** The body of the loop over the tags of [instance], as in
    [get_ec2_status]. *)
Definition ec2_status_tag cs (instance : EC2.Instance) (info : pydict jval) (tag : Tag)
    : M P (pydict jval) :=
  if (Key tag =? "Name")%string then
    ret (dict_set info "Name" (JStr (Value tag)))
  else if (Key tag =? "Service")%string then
    v <- target_service_subscript cs "service" ;;
    if str_eq (Value tag) v && (EC2.State_Name instance =? "running")%string then
      ret (dict_set (dict_set info "InstanceId" (JStr (EC2.InstanceId instance)))
             "InstanceType" (JStr (EC2.InstanceType instance)))
    else ret info
  else ret info.

(** The instance carries the service tag and is running. *)
Definition matching_running (v : pyval) (i : EC2.Instance) : bool :=
  has_service_tag v (tags_of i) && (EC2.State_Name i =? "running")%string.

End Vocabulary.

(** ** Vocabulary of the further properties *)

(** The line [lambda_handler] puts before its 200 messages when the
    environment names an execution environment. *)
Definition exec_env_line (env : pydict string) : string :=
  if nonempty (environ_exec_env env)
  then "実行環境: " ++ environ_exec_env env ++ String newline ""
  else "".

(** The acknowledgement of a start or stop request. *)
Definition accepted_msg (act : string) : string :=
  if (act =? "start")%string
  then "起動リクエストの受付を開始しました"
  else "停止リクエストの受付を開始しました".

Definition running_header : string := "次のサービスが稼働しています".

(** A kind the dispatch on [aws_service_name] knows. *)
Definition dispatched (name : pyval) : bool :=
  str_eq "autoscaling" name || str_eq "ec2" name.

(** The calls a start request may give rise to: listings, the start of
    one instance, a capacity update to 1. *)
Definition start_call (c : Call) : bool :=
  match c with
  | DescribeInstances | DescribeAutoScalingGroups None | StartInstances [_] => true
  | UpdateAutoScalingGroup _ a b n => (a =? 1) && (b =? 1) && (n =? 1)
  | _ => false
  end.

(** The calls a stop request may give rise to: listings, the stop of one
    instance, a capacity update to 0. *)
Definition stop_call (c : Call) : bool :=
  match c with
  | DescribeInstances | DescribeAutoScalingGroups None | StopInstances [_] => true
  | UpdateAutoScalingGroup _ a b n => (a =? 0) && (b =? 0) && (n =? 0)
  | _ => false
  end.

(** The instance, or group, has a tag whose key is ["Service"]. *)
Definition has_service_key (tags : list Tag) : bool :=
  existsb (fun tag => (Key tag =? "Service")%string) tags.

(** The first exception [f] finds going through [l]. *)
Fixpoint first_failure {A} (f : A -> option exn) (l : list A) : option exn :=
  match l with
  | [] => None
  | a :: l' =>
      match f a with
      | Some e => Some e
      | None => first_failure f l'
      end
  end.

(** The key an instance makes [update_ec2] miss when the target has no
    ["service"] key: its own ["Tags"], or ["service"] at a tag with key
    ["Service"]. *)
Definition ec2_key_failure (i : EC2.Instance) : option exn :=
  match EC2.Tags i with
  | None => Some (KeyError "Tags")
  | Some tags => if has_service_key tags then Some (KeyError "service") else None
  end.

Section MoreVocabulary.

Context {P : Type} `{Provider P}.

(** Whatever [m] returns or raises, the calls it logs are all [allowed]. *)
Definition logs_only {A} (allowed : Call -> bool) (m : M P A) : Prop :=
  forall w, exists l,
    calls (snd (m w)) = (calls w ++ l)%list /\ Forall (fun c => allowed c = true) l.

(** The first group of the answer to looking [g] up by name. *)
Definition refetched (p : P) (g : ASG.Group) : ASG.Group := hd g (refetch p g).

(** What [m] returns and what it does to the environment and to the
    provider do not depend on the calls logged before. *)
Definition log_blind {A} (m : M P A) : Prop :=
  forall w1 w2,
    environ w1 = environ w2 -> provider w1 = provider w2 ->
    fst (m w1) = fst (m w2)
    /\ environ (snd (m w1)) = environ (snd (m w2))
    /\ provider (snd (m w1)) = provider (snd (m w2)).

End MoreVocabulary.

(** What one tag does to the [info] dict of [get_ec2_status], once the
    target value [v] is known. *)
Definition ec2_info_step (v : pyval) (i : EC2.Instance) (info : pydict jval) (tag : Tag)
    : pydict jval :=
  if (Key tag =? "Name")%string then dict_set info "Name" (JStr (Value tag))
  else if tag_matches v tag && (EC2.State_Name i =? "running")%string then
    dict_set (dict_set info "InstanceId" (JStr (EC2.InstanceId i)))
      "InstanceType" (JStr (EC2.InstanceType i))
  else info.

(** The value of the last tag with key ["Name"], if any, after [n]. *)
Definition name_tag (tags : list Tag) (n : option string) : option string :=
  fold_left (fun n tag => if (Key tag =? "Name")%string then Some (Value tag) else n) tags n.

(** The name the status shows: the ["Name"] tag, empty without one. *)
Definition display_name (tags : list Tag) : string :=
  match name_tag tags None with
  | Some n => n
  | None => ""
  end.

(** The keys of an entry of the status of the instances. *)
Definition ec2_keys (k : string) : Prop :=
  k = "Name" \/ k = "InstanceId" \/ k = "InstanceType".

(** The messages of the 400 responses. *)
Definition bad_request_messages : list string :=
  ["aws_service is required!"; "aws_service is invalid!";
   "target_service is required!"; "target_service is invalid!";
   "action is required!"; "action is invalid!"].

(** [entry] is the status entry of instance [i]: its id, its type, its
    name, and nothing else. *)
Definition ec2_entry_of (i : EC2.Instance) (entry : pydict jval) : Prop :=
  dict_get entry "InstanceId" = Some (JStr (EC2.InstanceId i))
  /\ dict_get entry "InstanceType" = Some (JStr (EC2.InstanceType i))
  /\ dict_get entry "Name" = Some (JStr (display_name (tags_of i)))
  /\ forall k, dict_has entry k = true -> ec2_keys k.

Ltac nodup_strings :=
  repeat (constructor; [cbn; intuition discriminate|]); constructor.

(** * Properties *)

Example truthy_float_zero : truthy (PFloat PrimFloat.zero) = false.
Proof. reflexivity. Qed.


Example dumps_msg :
  json_dumps (JStr "aws_service is required!")
  = String dquote ("aws_service is required!" ++ String dquote EmptyString).
Proof. reflexivity. Qed.

Example dumps_nested :
  json_dumps (JList [JList [JDict [("Name", JStr "web-1"); ("Size", JInt 2)]]; JList []; JInt (-5); JInt 0])
  = "[[{" ++ String dquote ("Name" ++ String dquote (": " ++ String dquote ("web-1" ++ String dquote (", "
      ++ String dquote ("Size" ++ String dquote ": 2}], [], -5, 0]"))))).
Proof. reflexivity. Qed.

Example dumps_kanji : json_dumps (JStr "停a") = String dquote ("\u505ca" ++ String dquote EmptyString).
Proof. reflexivity. Qed.

Example code_points_emoji : code_points (String (ascii_of_N 0xF0) (String (ascii_of_N 0x9F) (String (ascii_of_N 0x98) (String (ascii_of_N 0x80) EmptyString)))) = [0x1F600%N].
Proof. reflexivity. Qed.

Example dumps_emoji : escape_code_point 0x1F600 = "\ud83d\ude00".
Proof. reflexivity. Qed.

Unset Implicit Arguments.

Section Properties.

Context {P : Type} `{Provider P}.

Lemma bind_ret {A B} {m : M P A} (k : A -> M P B) {w w' : World P} {a : A} :
  m w = (Ret a, w') -> bind m k w = k a w'.
Proof. intros E. unfold bind. now rewrite E. Qed.

Lemma bind_raise {A B} {m : M P A} (k : A -> M P B) {w w' : World P} {e : exn} :
  m w = (Raise e, w') -> bind m k w = (Raise e, w').
Proof. intros E. unfold bind. now rewrite E. Qed.

Lemma validate_params_valid event names target act (w : World P) :
  valid_request event names target act ->
  validate_params event w
  = (Ret ({| aws_service := Some names;
             target_service := Some target;
             action := Some act;
             exec_env := environ_exec_env (environ w) |}, None), w).
Proof.
  intros (Ea & Hn & Et & Hd & Ec & Hs).
  unfold validate_params, bind, lift, subscript. rewrite Ea, Et, Ec.
  destruct names as [|n names]; [congruence|].
  destruct target as [|kv target]; [congruence|].
  destruct act as [|c act]; [congruence|].
  reflexivity.
Qed.

Lemma get_resource_known name region (w : World P) :
  dict_get (environ w) "AWS_REGION" = Some region ->
  client_exists name region = true ->
  get_resource name w
  = (Ret (Some {| aws_service_name := name; service := BotoClient name region |}), w).
Proof.
  intros Er Hk. unfold get_resource, AWSClient_init, bind, environ_subscript, subscript.
  rewrite Er, Hk. reflexivity.
Qed.

Lemma get_resource_unknown name region (w : World P) :
  dict_get (environ w) "AWS_REGION" = Some region ->
  client_exists name region = false ->
  get_resource name w = (Raise (ClientFailure (client_error name region)), w).
Proof.
  intros Er Hk. unfold get_resource, AWSClient_init, bind, environ_subscript, subscript.
  rewrite Er, Hk. reflexivity.
Qed.

Lemma build_clients_unknown names region (w : World P) :
  dict_get (environ w) "AWS_REGION" = Some region ->
  (exists n, In n names /\ client_exists n region = false) ->
  forall aws_clients,
    exists n, In n names /\ client_exists n region = false
              /\ build_clients names aws_clients w
                 = (Raise (ClientFailure (client_error n region)), w).
Proof.
  intros Er. induction names as [|n names IH]; intros (x & Hin & Hx) acc.
  - destruct Hin.
  - cbn [build_clients]. destruct (client_exists n region) eqn:Hn.
    + rewrite (bind_ret _ (get_resource_known n region w Er Hn)).
      assert (Hu : exists n', In n' names /\ client_exists n' region = false).
      { destruct Hin as [-> | Hin]; [congruence | now exists x]. }
      destruct (IH Hu (acc ++ [{| aws_service_name := n;
                                  service := BotoClient n region |}])%list)
        as (n0 & Hin0 & Hn0 & E).
      exists n0. split; [now right|]. split; [exact Hn0 | exact E].
    + exists n. split; [now left|]. split; [exact Hn|].
      now rewrite (bind_raise _ (get_resource_unknown n region w Er Hn)).
Qed.

Lemma build_clients_known names region (w : World P) :
  dict_get (environ w) "AWS_REGION" = Some region ->
  Forall (fun n => client_exists n region = true) names ->
  forall aws_clients,
    build_clients names aws_clients w
    = (Ret (inr (aws_clients
                 ++ map (fun n => {| aws_service_name := n;
                                     service := BotoClient n region |}) names)%list), w).
Proof.
  intros Er. induction names as [|n names IH]; intros Hk acc.
  - cbn. now rewrite app_nil_r.
  - inversion Hk as [|? ? Hn Hns]; subst. cbn [build_clients].
    rewrite (bind_ret _ (get_resource_known n region w Er Hn)).
    rewrite (IH Hns). cbn [map]. now rewrite <- app_assoc.
Qed.

(** C1 (as the code behaves): a request that lacks one of the three keys
    makes the handler raise [KeyError] for a key it lacks, before any
    check and without any provider call; no response is returned. *)
Theorem C1_missing_key_raises (event : pydict pyval) (w : World P) :
  missing_field event ->
  exists k,
    In k ["aws_service"; "target_service"; "action"]
    /\ dict_get event k = None
    /\ lambda_handler event w = (Raise (KeyError k), w).
Proof.
  intros Hm. unfold lambda_handler, validate_params, bind, lift, subscript.
  destruct (dict_get event "aws_service") as [a|] eqn:Ea.
  2:{ exists "aws_service". cbn. auto. }
  destruct (dict_get event "target_service") as [t|] eqn:Et.
  2:{ exists "target_service". cbn. auto. }
  destruct (dict_get event "action") as [c|] eqn:Ec.
  2:{ exists "action". cbn. auto 6. }
  destruct Hm as [Hm | [Hm | Hm]]; congruence.
Qed.

(** X2: With all three keys present, the first field that is empty or of the
    wrong type, when it is empty, gets its ["is required!"] message. *)
Lemma empty_field_is_required (event : pydict pyval) (a t c : pyval) (w : World P) :
  dict_get event "aws_service" = Some a ->
  dict_get event "target_service" = Some t ->
  dict_get event "action" = Some c ->
  (truthy a = false ->
   lambda_handler event w = (Ret (bad_request "aws_service is required!"), w))
  /\ (truthy a = true -> isinstance_list a = true -> truthy t = false ->
      lambda_handler event w = (Ret (bad_request "target_service is required!"), w))
  /\ (truthy a = true -> isinstance_list a = true ->
      truthy t = true -> isinstance_dict t = true -> truthy c = false ->
      lambda_handler event w = (Ret (bad_request "action is required!"), w)).
Proof.
  intros Ea Et Ec.
  unfold lambda_handler, validate_params, bind, lift, subscript. rewrite Ea, Et, Ec.
  repeat split.
  - intros Ha. rewrite Ha. reflexivity.
  - intros Ha Hl Ht. rewrite Ha. destruct a; try discriminate.
    cbn [negb]. rewrite Ht. reflexivity.
  - intros Ha Hl Ht Hd Hc. rewrite Ha. destruct a; try discriminate.
    cbn [negb]. rewrite Ht. destruct t; try discriminate.
    cbn [negb]. rewrite Hc. reflexivity.
Qed.

(** C6 (amended): when all three keys are present and the first field, in
    the order [aws_service], [target_service], [action], that is empty or
    of the wrong type is non-empty and of the wrong type, the handler
    returns 400 with that field's ["is invalid!"] message and calls no
    provider. *)
Theorem C6_wrong_type_is_invalid (event : pydict pyval) (a t c : pyval) (w : World P) :
  dict_get event "aws_service" = Some a ->
  dict_get event "target_service" = Some t ->
  dict_get event "action" = Some c ->
  (truthy a = true -> isinstance_list a = false ->
   lambda_handler event w = (Ret (bad_request "aws_service is invalid!"), w))
  /\ (truthy a = true -> isinstance_list a = true ->
      truthy t = true -> isinstance_dict t = false ->
      lambda_handler event w = (Ret (bad_request "target_service is invalid!"), w))
  /\ (truthy a = true -> isinstance_list a = true ->
      truthy t = true -> isinstance_dict t = true ->
      truthy c = true -> isinstance_str c = false ->
      lambda_handler event w = (Ret (bad_request "action is invalid!"), w)).
Proof.
  intros Ea Et Ec.
  unfold lambda_handler, validate_params, bind, lift, subscript. rewrite Ea, Et, Ec.
  repeat split.
  - intros Ha Hl. rewrite Ha. destruct a; try discriminate; reflexivity.
  - intros Ha Hl Ht Hd. rewrite Ha. destruct a; try discriminate.
    cbn [negb]. rewrite Ht. destruct t; try discriminate; reflexivity.
  - intros Ha Hl Ht Hd Hc Hs. rewrite Ha. destruct a; try discriminate.
    cbn [negb]. rewrite Ht. destruct t; try discriminate.
    cbn [negb]. rewrite Hc. destruct c; try discriminate; reflexivity.
Qed.

(** C7 (as the code behaves): for an otherwise valid request that names
    a kind the SDK has no client for, [boto3.client] raises an exception
    [get_resource] does not handle, so the handler raises it and returns
    no response; no provider call has been issued. *)
Theorem C7_unknown_kind_raises (event : pydict pyval) names target act region
    (w : World P) :
  valid_request event names target act ->
  dict_get (environ w) "AWS_REGION" = Some region ->
  (exists n, In n names /\ client_exists n region = false) ->
  exists n,
    In n names /\ client_exists n region = false
    /\ lambda_handler event w = (Raise (ClientFailure (client_error n region)), w).
Proof.
  intros Hv Er Hu. unfold lambda_handler.
  rewrite (bind_ret _ (validate_params_valid _ _ _ _ w Hv)). cbn [fst snd aws_service].
  rewrite (bind_ret (m:=ret names) _ (w:=w) (w':=w) (a:=names) eq_refl).
  destruct (build_clients_unknown names region w Er Hu []) as (n & Hin & Hn & E).
  exists n. split; [exact Hin|]. split; [exact Hn|].
  now rewrite (bind_raise _ E).
Qed.

(** C8: a request that passes validation and client construction and whose
    action is none of start, stop, status gets 404 ["Not Found!"], with no
    provider call. *)
Theorem C8_unrecognized_action_not_found (event : pydict pyval) names target act region
    (w : World P) :
  valid_request event names target act ->
  dict_get (environ w) "AWS_REGION" = Some region ->
  Forall (fun n => client_exists n region = true) names ->
  act <> "start" -> act <> "stop" -> act <> "status" ->
  lambda_handler event w = (Ret {| statusCode := 404; body := "Not Found!" |}, w).
Proof.
  intros Hv Er Hk H1 H2 H3. unfold lambda_handler.
  rewrite (bind_ret _ (validate_params_valid _ _ _ _ w Hv)). cbn [fst snd aws_service].
  rewrite (bind_ret (m:=ret names) _ (w:=w) (w':=w) (a:=names) eq_refl).
  rewrite (bind_ret _ (build_clients_known names region w Er Hk [])).
  unfold action_is. cbn [action].
  apply String.eqb_neq in H1, H2, H3. rewrite H1, H2, H3. reflexivity.
Qed.

(** *** Commands issued by the update operations *)

Lemma emits_ret : emits (P:=P) (ret tt) [].
Proof. intros w. exists w. now rewrite app_nil_r. Qed.

Lemma emits_seq (m k : M P unit) (h1 h2 : list Call) :
  emits m h1 -> emits k h2 -> emits (m ;; k) (h1 ++ h2).
Proof.
  intros Hm Hk w. destruct (Hm w) as (w1 & E1 & C1 & V1).
  destruct (Hk w1) as (w2 & E2 & C2 & V2). exists w2.
  rewrite (bind_ret _ E1). rewrite E2, C2, C1, V2, V1. now rewrite app_assoc.
Qed.

Lemma emits_for_each {A} (l : list A) (body : A -> M P unit) (h : A -> list Call) :
  (forall a, In a l -> emits (body a) (h a)) ->
  emits (for_each l body) (flat_map h l).
Proof.
  induction l as [|a l IH]; intros Hb; cbn [for_each flat_map].
  - apply emits_ret.
  - apply emits_seq; [apply Hb; now left|]. apply IH. intros x Hx. apply Hb. now right.
Qed.

Lemma emits_start_instances client ids : emits (sdk_start_instances client ids) [StartInstances ids].
Proof. intros w. eexists. repeat split. Qed.

Lemma emits_stop_instances client ids : emits (sdk_stop_instances client ids) [StopInstances ids].
Proof. intros w. eexists. repeat split. Qed.

Lemma emits_update_auto_scaling_group client name a b c :
  emits (sdk_update_auto_scaling_group client name a b c) [UpdateAutoScalingGroup name a b c].
Proof. intros w. eexists. repeat split. Qed.

Lemma service_tag_matches_ok tag cs d v (w : World P) :
  target_service cs = Some d -> dict_get d "service" = Some v ->
  service_tag_matches tag cs w = (Ret (tag_matches v tag), w).
Proof.
  intros Ht Hv. unfold service_tag_matches, tag_matches, target_service_subscript.
  rewrite Ht. destruct (Key tag =? "Service")%string; [|reflexivity].
  unfold bind, lift, subscript. now rewrite Hv.
Qed.

Lemma runs_emits (m : M P unit) (e : exn) (h : list Call) :
  emits m h -> runs m true e h.
Proof. intros Hm w. exact (Hm w). Qed.

Lemma runs_for_each {A} (e : exn) (ok : A -> bool) (h : A -> list Call)
    (l : list A) (body : A -> M P unit) :
  (forall a, In a l -> runs (body a) (ok a) e (h a)) ->
  runs (for_each l body) (forallb ok l) e (flat_map h (upto ok l)).
Proof.
  induction l as [|a l IH]; intros Hb; cbn [for_each forallb upto flat_map].
  - intros w. exists w. now rewrite app_nil_r.
  - intros w. destruct (Hb a (or_introl eq_refl) w) as (w1 & E1 & C1 & V1).
    destruct (ok a); cbn [andb flat_map].
    + rewrite (bind_ret _ E1).
      destruct (IH (fun x Hx => Hb x (or_intror Hx)) w1) as (w2 & E2 & C2 & V2).
      exists w2. rewrite E2, C2, C1, V2, V1. now rewrite app_assoc.
    + rewrite (bind_raise _ E1). exists w1. now rewrite app_nil_r.
Qed.

Lemma upto_all {A} (ok : A -> bool) (l : list A) :
  forallb ok l = true -> upto ok l = l.
Proof.
  induction l as [|a l IH]; cbn [forallb upto]; [reflexivity|].
  intros Hl. apply andb_prop in Hl. destruct Hl as [Ha Hl]. now rewrite Ha, IH.
Qed.

Lemma upto_app {A} (ok : A -> bool) (l1 l2 : list A) :
  upto ok (l1 ++ l2) = if forallb ok l1 then (l1 ++ upto ok l2)%list else upto ok l1.
Proof.
  induction l1 as [|a l1 IH]; cbn [app forallb upto]; [reflexivity|].
  destruct (ok a); cbn [andb]; [|reflexivity]. rewrite IH.
  destruct (forallb ok l1); reflexivity.
Qed.

Lemma forallb_flat_map {A B} (ok : B -> bool) (g : A -> list B) (l : list A) :
  forallb ok (flat_map g l) = forallb (fun a => forallb ok (g a)) l.
Proof.
  induction l as [|a l IH]; [reflexivity|].
  cbn [flat_map forallb]. now rewrite forallb_app, IH.
Qed.

Lemma upto_flat_map {A B} (ok : B -> bool) (g : A -> list B) (l : list A) :
  flat_map (fun a => upto ok (g a)) (upto (fun a => forallb ok (g a)) l)
  = upto ok (flat_map g l).
Proof.
  induction l as [|a l IH]; [reflexivity|].
  cbn [flat_map upto]. rewrite upto_app.
  destruct (forallb ok (g a)) eqn:Ha; cbn [flat_map].
  - now rewrite (upto_all ok (g a) Ha), IH.
  - now rewrite app_nil_r.
Qed.

(** The calls of [update_ec2]: the listing, then the calls for the tags
    of the instances the loop reaches; it raises at the first instance
    listed without tags. *)
Lemma update_ec2_calls client cs d v (w : World P) :
  target_service cs = Some d -> dict_get d "service" = Some v ->
  let instances := all_instances (ec2_describe_instances (provider w)) in
  exists w',
    update_ec2 client cs w
    = (if forallb has_tags instances then Ret tt else Raise (KeyError "Tags"), w')
    /\ calls w'
       = (calls w ++ DescribeInstances
            :: flat_map (fun i => flat_map (ec2_tag_calls cs v i) (tags_of i))
                 (upto has_tags instances))%list.
Proof.
  intros Ht Hv instances. unfold update_ec2, bind at 1, sdk_describe_instances.
  set (response := ec2_describe_instances (provider w)) in *.
  assert (E : runs
    (for_each response (fun reservation =>
       for_each (EC2.Instances reservation) (fun instance =>
         tags <- lift (instance_tags instance) ;;
         for_each tags (fun tag =>
           matches <- service_tag_matches tag cs ;;
           if matches then
             if action_is cs "start" then
               if (EC2.State_Name instance =? "stopped")%string
               then sdk_start_instances client [EC2.InstanceId instance]
               else ret tt
             else if action_is cs "stop" then
               if (EC2.State_Name instance =? "running")%string then
                 if is_spot instance then ret tt
                 else sdk_stop_instances client [EC2.InstanceId instance]
               else ret tt
             else ret tt
           else ret tt))))
    (forallb (fun r => forallb has_tags (EC2.Instances r)) response)
    (KeyError "Tags")
    (flat_map (fun r => flat_map (fun i => flat_map (ec2_tag_calls cs v i) (tags_of i))
                          (upto has_tags (EC2.Instances r)))
       (upto (fun r => forallb has_tags (EC2.Instances r)) response))).
  { apply runs_for_each. intros r _. apply runs_for_each. intros i _.
    unfold has_tags, tags_of, instance_tags. destruct (EC2.Tags i) as [tags|].
    2:{ intros w0. exists w0. cbn. now rewrite app_nil_r. }
    apply runs_emits. intros w0. unfold bind at 1, lift.
    revert w0. apply emits_for_each. intros tag _ w0.
    rewrite (bind_ret _ (service_tag_matches_ok tag cs d v w0 Ht Hv)).
    unfold ec2_tag_calls. destruct (tag_matches v tag); [|apply emits_ret].
    destruct (action_is cs "start").
    { destruct (EC2.State_Name i =? "stopped")%string;
        [apply emits_start_instances | apply emits_ret]. }
    destruct (action_is cs "stop"); [|apply emits_ret].
    destruct (EC2.State_Name i =? "running")%string; [|apply emits_ret].
    destruct (is_spot i); [apply emits_ret | apply emits_stop_instances]. }
  destruct (E (log DescribeInstances w)) as (w' & E' & C' & _).
  exists w'. unfold instances, all_instances. rewrite forallb_flat_map. split; [exact E'|].
  rewrite C'. cbn [log calls]. rewrite <- app_assoc. cbn [app]. do 2 f_equal.
  rewrite <- upto_flat_map.
  generalize (upto (fun r => forallb has_tags (EC2.Instances r)) response).
  intros rs. induction rs as [|r rs IH]; [reflexivity|].
  cbn [flat_map]. now rewrite flat_map_app, IH.
Qed.

Lemma NoDup_map_eq {A B} (f : A -> B) (l : list A) (x y : A) :
  NoDup (map f l) -> In x l -> In y l -> f x = f y -> x = y.
Proof.
  induction l as [|a l IH]; intros Hn Hx Hy E; [destruct Hx|].
  cbn [map] in Hn. inversion Hn as [|? ? Hnot Hn']; subst.
  destruct Hx as [-> | Hx], Hy as [-> | Hy]; auto.
  - exfalso. apply Hnot. rewrite E. now apply in_map.
  - exfalso. apply Hnot. rewrite <- E. now apply in_map.
Qed.

Lemma has_service_tag_In v tags :
  has_service_tag v tags = true <-> exists tag, In tag tags /\ tag_matches v tag = true.
Proof. unfold has_service_tag. apply existsb_exists. Qed.

Lemma is_spot_iff i : is_spot i = true <-> EC2.InstanceLifecycle i = Some "spot".
Proof.
  unfold is_spot. destruct (EC2.InstanceLifecycle i) as [l|].
  - rewrite String.eqb_eq. split; congruence.
  - split; discriminate.
Qed.

(** With unique tag keys at most one tag is the service tag. *)
Lemma flat_map_unique_tag {A} v (x : list A) tags :
  NoDup (map Key tags) ->
  flat_map (fun tag => if tag_matches v tag then x else []) tags
  = if has_service_tag v tags then x else [].
Proof.
  induction tags as [|t tags IH]; intros Hn; [reflexivity|].
  cbn [map] in Hn. inversion Hn as [|? ? Hnot Hn']; subst.
  cbn [flat_map has_service_tag existsb]. fold (has_service_tag v tags).
  destruct (tag_matches v t) eqn:Ht; cbn [orb app]; [|now apply IH].
  assert (E : flat_map (fun tag => if tag_matches v tag then x else []) tags = []).
  { clear IH Hn Hn'. induction tags as [|u tags IH]; [reflexivity|].
    cbn [flat_map]. destruct (tag_matches v u) eqn:Hu.
    - exfalso. apply Hnot. unfold tag_matches in Ht, Hu.
      apply andb_prop in Ht, Hu. destruct Ht as [Kt _], Hu as [Ku _].
      apply String.eqb_eq in Kt, Ku. cbn [map]. left. congruence.
    - cbn [app]. apply IH. intros Hin. apply Hnot. cbn [map]. now right. }
  rewrite E. now rewrite app_nil_r.
Qed.

Lemma flat_map_ext_In {A B} (f g : A -> list B) (l : list A) :
  (forall a, In a l -> f a = g a) -> flat_map f l = flat_map g l.
Proof.
  induction l as [|a l IH]; intros E; [reflexivity|].
  cbn [flat_map]. rewrite (E a (or_introl eq_refl)), IH; [reflexivity|].
  intros x Hx. apply E. now right.
Qed.

Lemma flat_map_filter_map {A B} (p : A -> bool) (f : A -> B) (l : list A) :
  flat_map (fun a => if p a then [f a] else []) l = map f (filter p l).
Proof.
  induction l as [|a l IH]; [reflexivity|].
  cbn [flat_map filter]. destruct (p a); cbn [app map]; now rewrite IH.
Qed.

Lemma NoDup_app_disjoint {A} (l1 l2 : list A) (x : A) :
  NoDup (l1 ++ l2) -> In x l1 -> In x l2 -> False.
Proof.
  induction l1 as [|a l1 IH]; cbn [app]; intros Hn H1 H2; [destruct H1|].
  inversion Hn as [|? ? Hnot Hn']; subst. destruct H1 as [-> | H1].
  - apply Hnot. apply in_or_app. now right.
  - exact (IH Hn' H1 H2).
Qed.

Lemma NoDup_map_NoDup {A B} (f : A -> B) (l : list A) :
  NoDup (map f l) -> NoDup l.
Proof.
  induction l as [|a l IH]; cbn [map]; intros Hn; [constructor|].
  inversion Hn as [|? ? Hnot Hn']; subst. constructor; [|now apply IH].
  intros Hin. apply Hnot. now apply in_map.
Qed.

Lemma upto_stops_at {A} (ok : A -> bool) (before after : list A) (u : A) :
  forallb ok before = true -> ok u = false ->
  upto ok (before ++ u :: after) = (before ++ [u])%list
  /\ forallb ok (before ++ u :: after) = false.
Proof.
  intros Hb Hu. rewrite upto_app, forallb_app, Hb. cbn [upto forallb andb].
  now rewrite Hu.
Qed.

(** After an instance listed without tags nothing is called: when the
    listing is [before ++ u :: after] with [u] the first instance without
    tags, [update_ec2] raises [KeyError] and every command it has issued
    names an instance of [before]. *)
Lemma update_ec2_aborts client cs d v (w : World P) before u after :
  target_service cs = Some d -> dict_get d "service" = Some v ->
  all_instances (ec2_describe_instances (provider w)) = (before ++ u :: after)%list ->
  forallb has_tags before = true -> EC2.Tags u = None ->
  exists w' issued,
    update_ec2 client cs w = (Raise (KeyError "Tags"), w')
    /\ calls w' = (calls w ++ DescribeInstances :: issued)%list
    /\ forall c, In c issued ->
         exists i, In i before
                   /\ (c = StartInstances [EC2.InstanceId i]
                       \/ c = StopInstances [EC2.InstanceId i]).
Proof.
  intros Ht Hv Hl Hb Hu.
  destruct (update_ec2_calls client cs d v w Ht Hv) as (w' & E & C).
  rewrite Hl in E, C.
  assert (Hnt : has_tags u = false) by (unfold has_tags; now rewrite Hu).
  destruct (upto_stops_at has_tags before after u Hb Hnt) as (Eu & Ef).
  rewrite Ef in E. rewrite Eu in C.
  exists w'. eexists. split; [exact E|]. split; [exact C|].
  intros c Hc. apply in_flat_map in Hc. destruct Hc as (i & Hi & Hc).
  apply in_app_or in Hi. destruct Hi as [Hi | [<- | []]].
  - exists i. split; [exact Hi|].
    apply in_flat_map in Hc. destruct Hc as (tag & _ & Hc). unfold ec2_tag_calls in Hc.
    destruct (tag_matches v tag); [|destruct Hc].
    destruct (action_is cs "start").
    { destruct (EC2.State_Name i =? "stopped")%string; [|destruct Hc].
      destruct Hc as [<- | []]. now left. }
    destruct (action_is cs "stop"); [|destruct Hc].
    destruct (_ && _); [|destruct Hc]. destruct Hc as [<- | []]. now right.
  - unfold tags_of in Hc. rewrite Hu in Hc. destruct Hc.
Qed.

(** C2 (as the code behaves): on a stop request, when an instance is
    listed without the ["Tags"] key, [update_ec2] raises [KeyError] at
    it, and no instance listed after it is sent a stop command, though
    it may carry the service tag, be running and not be a spot
    instance. *)
Theorem C2_untagged_instance_aborts_stop client cs d v (w : World P) before u after :
  target_service cs = Some d -> dict_get d "service" = Some v ->
  action cs = Some "stop" ->
  all_instances (ec2_describe_instances (provider w)) = (before ++ u :: after)%list ->
  forallb has_tags before = true -> EC2.Tags u = None ->
  NoDup (map EC2.InstanceId (before ++ u :: after)) ->
  exists w' issued,
    update_ec2 client cs w = (Raise (KeyError "Tags"), w')
    /\ calls w' = (calls w ++ DescribeInstances :: issued)%list
    /\ forall i, In i after -> ~ In (StopInstances [EC2.InstanceId i]) issued.
Proof.
  intros Ht Hv Ha Hl Hb Hu Hids.
  destruct (update_ec2_aborts client cs d v w before u after Ht Hv Hl Hb Hu)
    as (w' & issued & E & C & Hissued).
  exists w', issued. split; [exact E|]. split; [exact C|].
  intros i Hi Hc. destruct (Hissued _ Hc) as (j & Hj & [Ej | Ej]); [discriminate Ej|].
  injection Ej as Ej.
  assert (j = i).
  { apply (NoDup_map_eq EC2.InstanceId (before ++ u :: after)); auto.
    - apply in_or_app. now left.
    - apply in_or_app. right. now right. }
  subst j. apply NoDup_map_NoDup in Hids.
  apply (NoDup_app_disjoint before (u :: after) i Hids Hj). now right.
Qed.

(** C3 (as the code behaves): on a start request, when an instance is
    listed without the ["Tags"] key, [update_ec2] raises [KeyError] at
    it, and no instance listed after it is sent a start command, though
    it may carry the service tag and be stopped; the start calls are
    then fewer than the tagged stopped instances. *)
Theorem C3_untagged_instance_aborts_start client cs d v (w : World P) before u after :
  target_service cs = Some d -> dict_get d "service" = Some v ->
  action cs = Some "start" ->
  all_instances (ec2_describe_instances (provider w)) = (before ++ u :: after)%list ->
  forallb has_tags before = true -> EC2.Tags u = None ->
  NoDup (map EC2.InstanceId (before ++ u :: after)) ->
  exists w' issued,
    update_ec2 client cs w = (Raise (KeyError "Tags"), w')
    /\ calls w' = (calls w ++ DescribeInstances :: issued)%list
    /\ forall i, In i after -> ~ In (StartInstances [EC2.InstanceId i]) issued.
Proof.
  intros Ht Hv Ha Hl Hb Hu Hids.
  destruct (update_ec2_aborts client cs d v w before u after Ht Hv Hl Hb Hu)
    as (w' & issued & E & C & Hissued).
  exists w', issued. split; [exact E|]. split; [exact C|].
  intros i Hi Hc. destruct (Hissued _ Hc) as (j & Hj & [Ej | Ej]); [|discriminate Ej].
  injection Ej as Ej.
  assert (j = i).
  { apply (NoDup_map_eq EC2.InstanceId (before ++ u :: after)); auto.
    - apply in_or_app. now left.
    - apply in_or_app. right. now right. }
  subst j. apply NoDup_map_NoDup in Hids.
  apply (NoDup_app_disjoint before (u :: after) i Hids Hj). now right.
Qed.

Lemma update_auto_scaling_group_calls client cs d v (w : World P) :
  target_service cs = Some d -> dict_get d "service" = Some v ->
  exists w',
    update_auto_scaling_group client cs w = (Ret tt, w')
    /\ calls w'
       = (calls w ++ DescribeAutoScalingGroups None
            :: flat_map (fun g => flat_map (asg_tag_calls cs v g) (ASG.Tags g))
                 (asg_describe_auto_scaling_groups None (provider w)))%list.
Proof.
  intros Ht Hv. unfold update_auto_scaling_group, bind at 1, sdk_describe_auto_scaling_groups.
  set (response := asg_describe_auto_scaling_groups None (provider w)).
  assert (E : emits
    (for_each response (fun group =>
       for_each (ASG.Tags group) (fun tag =>
         matches <- service_tag_matches tag cs ;;
         if matches then
           if action_is cs "start" then
             sdk_update_auto_scaling_group client (ASG.AutoScalingGroupName group) 1 1 1
           else if action_is cs "stop" then
             sdk_update_auto_scaling_group client (ASG.AutoScalingGroupName group) 0 0 0
           else ret tt
         else ret tt)))
    (flat_map (fun g => flat_map (asg_tag_calls cs v g) (ASG.Tags g)) response)).
  { apply emits_for_each. intros g _. apply emits_for_each. intros tag _ w0.
    rewrite (bind_ret _ (service_tag_matches_ok tag cs d v w0 Ht Hv)).
    unfold asg_tag_calls. destruct (tag_matches v tag); [|apply emits_ret].
    destruct (action_is cs "start"); [apply emits_update_auto_scaling_group|].
    destruct (action_is cs "stop"); [apply emits_update_auto_scaling_group | apply emits_ret]. }
  destruct (E (log (DescribeAutoScalingGroups None) w)) as (w' & E' & C' & _).
  exists w'. split; [exact E'|]. rewrite C'. cbn [log calls].
  rewrite <- app_assoc. reflexivity.
Qed.

(** C4: on a start request every group that carries the service tag is
    sent a capacity update with min = max = desired = 1, whatever its
    current capacity, and on a stop request one with 0; every update sent
    is such an update of a tagged group, so a group without the tag gets
    none. *)
Theorem C4_asg_capacity_set client cs d v act (n : Z) (w : World P) :
  target_service cs = Some d -> dict_get d "service" = Some v ->
  action cs = Some act ->
  (act = "start" /\ n = 1) \/ (act = "stop" /\ n = 0) ->
  let groups := asg_describe_auto_scaling_groups None (provider w) in
  exists w' issued,
    update_auto_scaling_group client cs w = (Ret tt, w')
    /\ calls w' = (calls w ++ DescribeAutoScalingGroups None :: issued)%list
    /\ (forall g, In g groups -> has_service_tag v (ASG.Tags g) = true ->
          In (UpdateAutoScalingGroup (ASG.AutoScalingGroupName g) n n n) issued)
    /\ (forall c, In c issued ->
          exists g, In g groups /\ has_service_tag v (ASG.Tags g) = true
                    /\ c = UpdateAutoScalingGroup (ASG.AutoScalingGroupName g) n n n)
    /\ (forall g, In g groups -> has_service_tag v (ASG.Tags g) = false ->
          (forall g', In g' groups -> has_service_tag v (ASG.Tags g') = true ->
                      ASG.AutoScalingGroupName g' <> ASG.AutoScalingGroupName g) ->
          forall a b c, ~ In (UpdateAutoScalingGroup (ASG.AutoScalingGroupName g) a b c) issued).
Proof.
  intros Ht Hv Ha Hact groups.
  destruct (update_auto_scaling_group_calls client cs d v w Ht Hv) as (w' & E & C).
  fold groups in C. exists w'. eexists. split; [exact E|]. split; [exact C|].
  assert (Htag : forall g tag, tag_matches v tag = true ->
            asg_tag_calls cs v g tag
            = [UpdateAutoScalingGroup (ASG.AutoScalingGroupName g) n n n]).
  { intros g tag Hm. unfold asg_tag_calls, action_is. rewrite Hm, Ha.
    destruct Hact as [[-> ->] | [-> ->]]; reflexivity. }
  assert (Hsent : forall c,
            In c (flat_map (fun g => flat_map (asg_tag_calls cs v g) (ASG.Tags g)) groups) ->
            exists g, In g groups /\ has_service_tag v (ASG.Tags g) = true
                      /\ c = UpdateAutoScalingGroup (ASG.AutoScalingGroupName g) n n n).
  { intros c Hc. apply in_flat_map in Hc. destruct Hc as (g & Hg & Hc).
    apply in_flat_map in Hc. destruct Hc as (tag & Htg & Hc).
    destruct (tag_matches v tag) eqn:Hm.
    - rewrite (Htag g tag Hm) in Hc. destruct Hc as [<- | []].
      exists g. repeat split; auto. apply has_service_tag_In. eauto.
    - unfold asg_tag_calls in Hc. rewrite Hm in Hc. destruct Hc. }
  split; [|split].
  - intros g Hg Hm. apply has_service_tag_In in Hm. destruct Hm as (tag & Htg & Hm).
    apply in_flat_map. exists g. split; [exact Hg|].
    apply in_flat_map. exists tag. split; [exact Htg|]. rewrite (Htag g tag Hm). now left.
  - exact Hsent.
  - intros g Hg Hno Hnames a b c Hc. apply Hsent in Hc.
    destruct Hc as (g' & Hg' & Hm' & Hc). injection Hc as Hname _ _ _.
    apply (Hnames g' Hg' Hm'). now symmetry.
Qed.

(** *** Operations that only read the provider *)

Lemma read_only_pure {A} (f : World P -> outcome A) : read_only (P:=P) (fun w => (f w, w)).
Proof. intros w. cbn. repeat split. exists []. now rewrite app_nil_r. Qed.

Lemma read_only_ret {A} (a : A) : read_only (P:=P) (ret (P:=P) a).
Proof. apply (read_only_pure (fun _ => Ret a)). Qed.

Lemma read_only_raise {A} (e : exn) : read_only (P:=P) (raise (P:=P) (A:=A) e).
Proof. apply (read_only_pure (fun _ => Raise e)). Qed.

Lemma read_only_lift {A} (o : outcome A) : read_only (P:=P) (lift (P:=P) o).
Proof. apply (read_only_pure (fun _ => o)). Qed.

Lemma read_only_bind_run {A B} (m : M P A) (k : A -> M P B) :
  read_only (P:=P) m ->
  (forall a w w', m w = (Ret a, w') -> read_only (P:=P) (k a)) ->
  read_only (P:=P) (bind m k).
Proof.
  intros Hm Hk w. unfold bind. specialize (Hm w).
  destruct (m w) as [[a|e] w1] eqn:E; cbn [snd] in Hm; [|exact Hm].
  destruct Hm as (P1 & V1 & l1 & C1 & F1).
  destruct (Hk a w w1 E w1) as (P2 & V2 & l2 & C2 & F2).
  rewrite P2, V2, C2, P1, V1, C1. repeat split.
  exists (l1 ++ l2)%list. split; [now rewrite app_assoc|]. now apply Forall_app.
Qed.

Lemma read_only_bind {A B} (m : M P A) (k : A -> M P B) :
  read_only (P:=P) m -> (forall a, read_only (P:=P) (k a)) -> read_only (P:=P) (bind m k).
Proof. intros Hm Hk. apply read_only_bind_run; auto. Qed.

Lemma read_only_for_fold {A S} (l : list A) (body : S -> A -> M P S) :
  (forall s a, read_only (P:=P) (body s a)) -> forall s, read_only (P:=P) (for_fold l s body).
Proof.
  intros Hb. induction l as [|a l IH]; intros s; cbn [for_fold].
  - apply read_only_ret.
  - apply read_only_bind; auto.
Qed.

Lemma read_only_describe_instances client : read_only (P:=P) (sdk_describe_instances client).
Proof.
  intros w. cbn. repeat split. exists [DescribeInstances]. split; [reflexivity|].
  repeat constructor.
Qed.

Lemma read_only_describe_auto_scaling_groups client names :
  read_only (P:=P) (sdk_describe_auto_scaling_groups client names).
Proof.
  intros w. cbn. repeat split. exists [DescribeAutoScalingGroups names].
  split; [reflexivity|]. repeat constructor.
Qed.

Lemma read_only_target_service_subscript cs k : read_only (P:=P) (target_service_subscript cs k).
Proof.
  unfold target_service_subscript. destruct (target_service cs).
  - apply read_only_lift.
  - apply read_only_raise.
Qed.

Lemma read_only_service_tag_matches tag cs : read_only (P:=P) (service_tag_matches tag cs).
Proof.
  unfold service_tag_matches. destruct (Key tag =? "Service")%string.
  - apply read_only_bind; [apply read_only_target_service_subscript|].
    intros v. apply read_only_ret.
  - apply read_only_ret.
Qed.

Lemma read_only_get_ec2_status client cs : read_only (P:=P) (get_ec2_status client cs).
Proof.
  unfold get_ec2_status. apply read_only_bind; [apply read_only_describe_instances|].
  intros response. apply read_only_for_fold. intros result reservation.
  apply read_only_for_fold. intros result' instance.
  apply read_only_bind; [apply read_only_lift|]. intros tags.
  apply read_only_bind.
  - apply read_only_for_fold. intros info tag.
    destruct (Key tag =? "Name")%string; [apply read_only_ret|].
    destruct (Key tag =? "Service")%string; [|apply read_only_ret].
    apply read_only_bind; [apply read_only_target_service_subscript|].
    intros v. destruct (_ && _); apply read_only_ret.
  - intros info. destruct (_ && _); apply read_only_ret.
Qed.

Lemma read_only_get_auto_scaling_group_status client cs :
  read_only (P:=P) (get_auto_scaling_group_status client cs).
Proof.
  unfold get_auto_scaling_group_status.
  apply read_only_bind; [apply read_only_describe_auto_scaling_groups|].
  intros response. apply read_only_for_fold. intros result group.
  apply read_only_for_fold. intros result' tag.
  apply read_only_bind; [apply read_only_service_tag_matches|].
  intros [|]; [|apply read_only_ret].
  apply read_only_bind; [apply read_only_describe_auto_scaling_groups|].
  intros res. apply read_only_bind; [apply read_only_lift|].
  intros g. apply read_only_ret.
Qed.

Lemma read_only_get_aws_service_status aws_clients cs :
  read_only (P:=P) (get_aws_service_status aws_clients cs).
Proof.
  unfold get_aws_service_status. apply read_only_for_fold. intros res c.
  destruct (str_eq "autoscaling" (aws_service_name c)).
  { apply read_only_bind; [apply read_only_get_auto_scaling_group_status|].
    intros r. apply read_only_ret. }
  destruct (str_eq "ec2" (aws_service_name c)); [|apply read_only_ret].
  apply read_only_bind; [apply read_only_get_ec2_status|].
  intros r. apply read_only_ret.
Qed.

Lemma read_only_invalid_request msg : read_only (P:=P) (invalid_request msg).
Proof.
  unfold invalid_request. apply read_only_bind.
  - apply (read_only_pure (fun w => Ret _)).
  - intros cs. apply read_only_ret.
Qed.

Lemma read_only_validate_params event : read_only (P:=P) (validate_params event).
Proof.
  unfold validate_params.
  apply read_only_bind; [apply read_only_lift|]. intros a.
  apply read_only_bind; [apply read_only_lift|]. intros t.
  apply read_only_bind; [apply read_only_lift|]. intros c.
  destruct (negb (truthy a)); [apply read_only_invalid_request|].
  destruct a; try apply read_only_invalid_request.
  destruct (negb (truthy t)); [apply read_only_invalid_request|].
  destruct t; try apply read_only_invalid_request.
  destruct (negb (truthy c)); [apply read_only_invalid_request|].
  destruct c; try apply read_only_invalid_request.
  apply read_only_bind.
  - apply (read_only_pure (fun w => Ret _)).
  - intros cs. apply read_only_ret.
Qed.

Lemma read_only_get_resource name : read_only (P:=P) (get_resource name).
Proof.
  intros w.
  assert (E : snd (get_resource name w) = w).
  { unfold get_resource, AWSClient_init, bind, environ_subscript.
    destruct (subscript (environ w) "AWS_REGION") as [region|e].
    - destruct (client_exists name _); reflexivity.
    - destruct e; reflexivity. }
  rewrite E. repeat split. exists []. split; [now rewrite app_nil_r | constructor].
Qed.

Lemma read_only_build_clients names : forall acc, read_only (P:=P) (build_clients names acc).
Proof.
  induction names as [|n names IH]; intros acc; cbn [build_clients].
  - apply read_only_ret.
  - apply read_only_bind; [apply read_only_get_resource|].
    intros [c|]; [apply IH | apply read_only_ret].
Qed.

(** What an accepted request looks like. *)
Lemma validate_params_inv event cs (w w' : World P) :
  validate_params event w = (Ret (cs, None), w') ->
  exists names target act,
    valid_request event names target act
    /\ cs = {| aws_service := Some names;
               target_service := Some target;
               action := Some act;
               exec_env := environ_exec_env (environ w) |}
    /\ w' = w.
Proof.
  unfold validate_params, bind, lift, subscript, invalid_request, ControlService_init, ret.
  destruct (dict_get event "aws_service") as [a|] eqn:Ea; [|discriminate].
  destruct (dict_get event "target_service") as [t|] eqn:Et; [|discriminate].
  destruct (dict_get event "action") as [c|] eqn:Ec; [|discriminate].
  destruct (truthy a) eqn:Ta; cbn [negb]; [|discriminate].
  destruct a as [| | | | |names|]; try discriminate.
  destruct (truthy t) eqn:Tt; cbn [negb]; [|discriminate].
  destruct t as [| | | | | |target]; try discriminate.
  destruct (truthy c) eqn:Tc; cbn [negb]; [|discriminate].
  destruct c as [| | | |act| |]; try discriminate.
  intros E. injection E as <- <-. exists names, target, act.
  repeat split; auto.
  - intros ->. discriminate.
  - intros ->. discriminate.
  - intros ->. discriminate.
Qed.

(** C9: a request whose action is ["status"] makes the handler issue
    describe calls only; the provider's state after the invocation is the
    state before it. *)
Theorem C9_status_only_describes (event : pydict pyval) (w : World P) :
  dict_get event "action" = Some (PStr "status") ->
  let w' := snd (lambda_handler event w) in
  provider w' = provider w
  /\ exists l, calls w' = (calls w ++ l)%list
               /\ Forall (fun c => is_describe c = true) l
               /\ (forall c, In c l ->
                     (forall ids, c <> StartInstances ids /\ c <> StopInstances ids)
                     /\ (forall name a b n, c <> UpdateAutoScalingGroup name a b n)).
Proof.
  intros Hact.
  assert (R : read_only (P:=P) (lambda_handler event)).
  { unfold lambda_handler. apply read_only_bind_run; [apply read_only_validate_params|].
    intros [cs [r|]] w0 w1 E; cbn [fst snd]; [apply read_only_ret|].
    apply validate_params_inv in E.
    destruct E as (names & target & act & (_ & _ & _ & _ & Ec & _) & -> & _).
    rewrite Hact in Ec. injection Ec as <-. cbn [aws_service].
    apply read_only_bind; [apply read_only_ret|]. intros l.
    apply read_only_bind; [apply read_only_build_clients|].
    intros [response|aws_clients]; [apply read_only_ret|].
    unfold action_is at 1. cbn [action String.eqb Ascii.eqb Bool.eqb].
    apply read_only_bind; [apply read_only_get_aws_service_status|].
    intros res. apply read_only_ret. }
  destruct (R w) as (Hp & _ & l & Hc & Hl). split; [exact Hp|].
  exists l. split; [exact Hc|]. split; [exact Hl|].
  intros c Hin. rewrite Forall_forall in Hl. specialize (Hl c Hin).
  split; [intros ids; split | intros name a b n]; intros ->; discriminate.
Qed.

(** *** The status of auto scaling groups *)

Lemma asg_status_tags_found client cs d v g x xs :
  target_service cs = Some d -> dict_get d "service" = Some v ->
  forall tags result (w : World P),
    refetch (provider w) g = x :: xs ->
    exists result' w',
      for_fold tags result (asg_status_tag client cs g) w = (Ret result', w')
      /\ provider w' = provider w.
Proof.
  intros Ht Hv. induction tags as [|tag tags IH]; intros result w Hx; cbn [for_fold].
  - exists result, w. split; reflexivity.
  - unfold asg_status_tag at 1, bind at 1 2.
    rewrite (service_tag_matches_ok tag cs d v w Ht Hv).
    destruct (tag_matches v tag).
    + unfold bind at 1, sdk_describe_auto_scaling_groups. fold (refetch (provider w) g).
      rewrite Hx. cbn [lift first_item bind ret].
      exact (IH _ (log (DescribeAutoScalingGroups (Some [ASG.AutoScalingGroupName g])) w) Hx).
    + cbn [ret]. apply IH. exact Hx.
Qed.

Lemma asg_status_tags_untagged client cs d v g :
  target_service cs = Some d -> dict_get d "service" = Some v ->
  forall tags result (w : World P),
    has_service_tag v tags = false ->
    for_fold tags result (asg_status_tag client cs g) w = (Ret result, w).
Proof.
  intros Ht Hv. induction tags as [|tag tags IH]; intros result w Hno; cbn [for_fold].
  - reflexivity.
  - cbn [has_service_tag existsb] in Hno. apply orb_false_elim in Hno.
    destruct Hno as [Hm Hno].
    unfold asg_status_tag at 1, bind at 1 2.
    rewrite (service_tag_matches_ok tag cs d v w Ht Hv), Hm. cbn [ret].
    now apply IH.
Qed.

Lemma asg_status_tags_gone client cs d v g :
  target_service cs = Some d -> dict_get d "service" = Some v ->
  forall tags result (w : World P),
    refetch (provider w) g = [] ->
    has_service_tag v tags = true ->
    exists w', for_fold tags result (asg_status_tag client cs g) w = (Raise IndexError, w').
Proof.
  intros Ht Hv. induction tags as [|tag tags IH]; intros result w Hx Hm; cbn [for_fold].
  - discriminate.
  - unfold asg_status_tag at 1, bind at 1 2.
    rewrite (service_tag_matches_ok tag cs d v w Ht Hv).
    cbn [has_service_tag existsb] in Hm.
    destruct (tag_matches v tag).
    + unfold bind at 1, sdk_describe_auto_scaling_groups. fold (refetch (provider w) g).
      rewrite Hx. cbn [lift first_item bind]. eexists. reflexivity.
    + cbn [ret]. apply IH; assumption.
Qed.

(** C10: the status of the auto scaling groups returns a result exactly
    when every listed group that carries the service tag is still found
    when it is looked up by name; when one is not, taking the first
    element of the empty answer raises [IndexError]. *)
Theorem C10_asg_status_needs_refetch client cs d v (w : World P) :
  target_service cs = Some d -> dict_get d "service" = Some v ->
  let groups := asg_describe_auto_scaling_groups None (provider w) in
  let still_there :=
    forall g, In g groups -> has_service_tag v (ASG.Tags g) = true ->
              refetch (provider w) g <> [] in
  ((exists result w', get_auto_scaling_group_status client cs w = (Ret result, w'))
   <-> still_there)
  /\ (~ still_there ->
      exists w', get_auto_scaling_group_status client cs w = (Raise IndexError, w')).
Proof.
  intros Ht Hv groups still_there.
  set (w0 := log (DescribeAutoScalingGroups None) w).
  assert (Hp0 : provider w0 = provider w) by reflexivity.
  assert (Hrun : get_auto_scaling_group_status client cs w
                 = for_fold groups []
                     (fun result group =>
                        for_fold (ASG.Tags group) result (asg_status_tag client cs group)) w0)
    by reflexivity.
  rewrite Hrun. clear Hrun.
  assert (Hloop : forall gs result (w1 : World P),
    provider w1 = provider w ->
    (exists result' w',
       for_fold gs result
         (fun result group => for_fold (ASG.Tags group) result (asg_status_tag client cs group))
         w1 = (Ret result', w')
       /\ (forall g, In g gs -> has_service_tag v (ASG.Tags g) = true ->
                     refetch (provider w) g <> []))
    \/ (exists w',
          for_fold gs result
            (fun result group => for_fold (ASG.Tags group) result (asg_status_tag client cs group))
            w1 = (Raise IndexError, w')
          /\ exists g, In g gs /\ has_service_tag v (ASG.Tags g) = true
                       /\ refetch (provider w) g = [])).
  { induction gs as [|g gs IH]; intros result w1 Hp1; cbn [for_fold].
    - left. exists result, w1. split; [reflexivity|]. intros g [].
    - destruct (has_service_tag v (ASG.Tags g)) eqn:Hm.
      + destruct (refetch (provider w) g) as [|x xs] eqn:Hx.
        * right. rewrite <- Hp1 in Hx.
          destruct (asg_status_tags_gone client cs d v g Ht Hv (ASG.Tags g) result w1 Hx Hm)
            as (w' & E).
          exists w'. rewrite (bind_raise _ E). split; [reflexivity|].
          exists g. rewrite Hp1 in Hx. cbn [In]. auto.
        * assert (Hx1 : refetch (provider w1) g = x :: xs) by now rewrite Hp1.
          destruct (asg_status_tags_found client cs d v g x xs Ht Hv (ASG.Tags g) result w1 Hx1)
            as (r' & w' & E & Hp').
          rewrite (bind_ret _ E).
          destruct (IH r' w' (eq_trans Hp' Hp1)) as [(r2 & w2 & E2 & Hall) | (w2 & E2 & Hbad)].
          -- left. exists r2, w2. split; [exact E2|].
             intros g' [<- | Hin] Hm'; [now rewrite Hx | now apply Hall].
          -- right. exists w2. split; [exact E2|].
             destruct Hbad as (g' & Hin & Hb). exists g'. cbn [In]. auto.
      + rewrite (bind_ret _ (asg_status_tags_untagged client cs d v g Ht Hv
                               (ASG.Tags g) result w1 Hm)).
        destruct (IH result w1 Hp1) as [(r2 & w2 & E2 & Hall) | (w2 & E2 & Hbad)].
        * left. exists r2, w2. split; [exact E2|].
          intros g' [<- | Hin] Hm'; [congruence | now apply Hall].
        * right. exists w2. split; [exact E2|].
          destruct Hbad as (g' & Hin & Hb). exists g'. cbn [In]. auto. }
  destruct (Hloop groups [] w0 Hp0) as [(r & w' & E & Hall) | (w' & E & g & Hin & Hm & Hx)].
  - split; [split|].
    + intros _. exact Hall.
    + intros _. exists r, w'. exact E.
    + intros Hnot. exfalso. apply Hnot. exact Hall.
  - split; [split|].
    + intros (r & w2 & E2). rewrite E in E2. discriminate.
    + intros Hall. exfalso. exact (Hall g Hin Hm Hx).
    + intros _. exists w'. exact E.
Qed.

(** *** The status of EC2 instances when none is running *)

Lemma dict_has_set_other {V} (d : pydict V) (k k' : string) (x : V) :
  k <> k' -> dict_has (dict_set d k x) k' = dict_has d k'.
Proof.
  intros Hk. unfold dict_has. induction d as [|[k0 x0] d IH]; cbn [dict_set dict_get].
  - apply String.eqb_neq in Hk. now rewrite Hk.
  - destruct (k0 =? k)%string eqn:E0; cbn [dict_get].
    + apply String.eqb_eq in E0. subst k0.
      apply String.eqb_neq in Hk. now rewrite Hk.
    + destruct (k0 =? k')%string; [reflexivity | exact IH].
Qed.

Lemma ec2_status_tags_no_id cs d v i :
  target_service cs = Some d -> dict_get d "service" = Some v ->
  forall tags info (w : World P),
    has_service_tag v tags && (EC2.State_Name i =? "running")%string = false ->
    dict_has info "InstanceId" = false ->
    exists info',
      for_fold tags info (ec2_status_tag cs i) w = (Ret info', w)
      /\ dict_has info' "InstanceId" = false.
Proof.
  intros Ht Hv. induction tags as [|tag tags IH]; intros info w Hno Hid; cbn [for_fold].
  - exists info. split; [reflexivity | exact Hid].
  - cbn [has_service_tag existsb] in Hno. fold (has_service_tag v tags) in Hno.
    rewrite andb_orb_distrib_l in Hno. apply orb_false_elim in Hno. destruct Hno as [Hm Hno].
    unfold ec2_status_tag at 1. destruct (Key tag =? "Name")%string eqn:Kn.
    { unfold bind at 1. cbn [ret]. apply IH; [exact Hno|].
      rewrite dict_has_set_other; [exact Hid | discriminate]. }
    unfold tag_matches in Hm. destruct (Key tag =? "Service")%string eqn:Ks.
    + unfold target_service_subscript. rewrite Ht.
      unfold bind at 1 2, lift, subscript. rewrite Hv.
      cbn [andb] in Hm. rewrite Hm. cbn [ret]. now apply IH.
    + unfold bind at 1. cbn [ret]. now apply IH.
Qed.

Lemma get_ec2_status_none client cs d v (w : World P) :
  target_service cs = Some d -> dict_get d "service" = Some v ->
  (forall i, In i (all_instances (ec2_describe_instances (provider w))) ->
             matching_running v i = false) ->
  get_ec2_status client cs w
  = (if forallb has_tags (all_instances (ec2_describe_instances (provider w)))
     then Ret [] else Raise (KeyError "Tags"),
     log DescribeInstances w).
Proof.
  intros Ht Hv Hnone.
  set (w0 := log DescribeInstances w).
  set (instance_step := fun (result : list (pydict jval)) (instance : EC2.Instance) =>
    tags <- lift (instance_tags instance) ;;
    info <- for_fold tags [] (ec2_status_tag cs instance) ;;
    if match info with [] => false | _ => true end && dict_has info "InstanceId" then
      ret (P:=P) (result ++ [if negb (dict_has info "Name")
                             then dict_set info "Name" (JStr "")
                             else info])%list
    else ret result).
  assert (Hrun : get_ec2_status client cs w
                 = for_fold (ec2_describe_instances (provider w)) []
                     (fun result reservation =>
                        for_fold (EC2.Instances reservation) result instance_step) w0)
    by reflexivity.
  rewrite Hrun. clear Hrun.
  assert (Hinst : forall instances result (w1 : World P),
            (forall i, In i instances -> matching_running v i = false) ->
            for_fold instances result instance_step w1
            = (if forallb has_tags instances then Ret result else Raise (KeyError "Tags"),
               w1)).
  { induction instances as [|i instances IH]; intros result w1 Hi; cbn [for_fold forallb].
    - reflexivity.
    - pose proof (Hi i (or_introl eq_refl)) as Hm.
      unfold matching_running, tags_of in Hm.
      unfold instance_step at 1, instance_tags, has_tags.
      destruct (EC2.Tags i) as [tags|]; [|reflexivity].
      destruct (ec2_status_tags_no_id cs d v i Ht Hv tags [] w1 Hm eq_refl)
        as (info & E & Hid).
      unfold bind at 1 2 3, lift. unfold pydict in *.
      rewrite E, Hid, andb_false_r.
      cbn [ret andb]. apply IH. intros j Hj. apply Hi. now right. }
  generalize (@nil (pydict jval)) as result. revert Hnone. generalize w0. clear w0.
  unfold all_instances.
  induction (ec2_describe_instances (provider w)) as [|r rs IH]; intros w1 Hnone result;
    cbn [for_fold flat_map].
  - reflexivity.
  - unfold bind at 1. rewrite Hinst, forallb_app.
    + destruct (forallb has_tags (EC2.Instances r)); cbn [andb]; [|reflexivity].
      apply IH. intros i Hi. apply Hnone. cbn [flat_map]. apply in_or_app. now right.
    + intros i Hi. apply Hnone. cbn [flat_map]. apply in_or_app. now left.
Qed.

(** The text [json.dumps] gives for a status result starts with a bracket,
    so [if body:] in [lambda_handler] always takes its first branch. *)
Lemma status_json_nonempty (res : list (list (pydict jval))) :
  nonempty (json_dumps (status_json res)) = true.
Proof. reflexivity. Qed.

(** C5 (as the code behaves): for a valid status request over ["ec2"]
    when no instance both carries the service tag and is running, the
    handler answers 200 and the body is the "running" header followed by
    the JSON text [[[]]]; the "stopped" message is not produced, since the
    text [json.dumps] returns is never empty.  (When an instance is
    listed without the ["Tags"] key, the handler raises [KeyError]
    instead of answering.) *)
Theorem C5_status_none_running_body (event : pydict pyval) target v region (w : World P) :
  valid_request event [PStr "ec2"] target "status" ->
  dict_get target "service" = Some v ->
  dict_get (environ w) "AWS_REGION" = Some region ->
  client_exists (PStr "ec2") region = true ->
  (forall i, In i (all_instances (ec2_describe_instances (provider w))) ->
             matching_running v i = false) ->
  let msg := if nonempty (environ_exec_env (environ w))
             then "実行環境: " ++ environ_exec_env (environ w) ++ String newline ""
             else "" in
  lambda_handler event w
  = (if forallb has_tags (all_instances (ec2_describe_instances (provider w)))
     then Ret {| statusCode := 200;
                 body := msg ++ "次のサービスが稼働しています" ++ String newline "[[]]" |}
     else Raise (KeyError "Tags"),
     log DescribeInstances w).
Proof.
  intros Hvalid Hv Er Hk Hnone msg. unfold lambda_handler.
  rewrite (bind_ret _ (validate_params_valid _ _ _ _ w Hvalid)). cbn [fst snd aws_service].
  rewrite (bind_ret (m:=ret [PStr "ec2"]) _ (w:=w) (w':=w) (a:=[PStr "ec2"]) eq_refl).
  assert (Hall : Forall (fun n => client_exists n region = true) [PStr "ec2"]) by (repeat constructor; exact Hk).
  rewrite (bind_ret _ (build_clients_known [PStr "ec2"] region w Er Hall [])).
  unfold action_is at 1. cbn [action String.eqb Ascii.eqb Bool.eqb app map exec_env].
  unfold get_aws_service_status. cbn [for_fold aws_service_name service str_eq String.eqb Ascii.eqb Bool.eqb].
  unfold bind at 1 2 3.
  erewrite get_ec2_status_none; [| reflexivity | exact Hv | exact Hnone].
  destruct (forallb has_tags (all_instances (ec2_describe_instances (provider w))));
    reflexivity.
Qed.

End Properties.

(** * Further properties of the handler *)

Section Behaviour.

Context {P : Type} `{Provider P}.

(** ** Validation and client construction *)

(** X1: [validate_params] accepts a request exactly when it carries the three
    keys with a non-empty list, a non-empty dict and a non-empty string. *)
Theorem validate_params_accepts_iff (event : pydict pyval) (w : World P) :
  (exists cs w', validate_params event w = (Ret (cs, None), w'))
  <-> exists names target act, valid_request event names target act.
Proof.
  split.
  - intros (cs & w' & E). apply validate_params_inv in E.
    destruct E as (names & target & act & Hv & _). eauto.
  - intros (names & target & act & Hv). eexists. exists w.
    apply (validate_params_valid _ _ _ _ w Hv).
Qed.

Lemma get_resource_no_region name (w : World P) :
  dict_get (environ w) "AWS_REGION" = None ->
  get_resource name w = (Raise (KeyError "AWS_REGION"), w).
Proof.
  intros Er. unfold get_resource, AWSClient_init, bind, environ_subscript, subscript.
  now rewrite Er.
Qed.

(** X3: An accepted request in an environment without [AWS_REGION] makes the
    handler raise [KeyError] when it builds the first client; nothing is
    asked of the provider. *)
Theorem missing_region_raises (event : pydict pyval) names target act (w : World P) :
  valid_request event names target act ->
  dict_get (environ w) "AWS_REGION" = None ->
  lambda_handler event w = (Raise (KeyError "AWS_REGION"), w).
Proof.
  intros Hv Er. unfold lambda_handler.
  rewrite (bind_ret _ (validate_params_valid _ _ _ _ w Hv)). cbn [fst snd aws_service].
  rewrite (bind_ret (m:=ret names) _ (w:=w) (w':=w) (a:=names) eq_refl).
  destruct Hv as (_ & Hn & _). destruct names as [|n names]; [congruence|].
  cbn [build_clients]. unfold bind at 1 2.
  now rewrite (get_resource_no_region n w Er).
Qed.

(** ** Start and stop requests *)

Lemma update_aws_service_returns cs d v :
  target_service cs = Some d -> dict_get d "service" = Some v ->
  forall aws_clients (w : World P),
    Forall (fun c => str_eq "ec2" (aws_service_name c) = false) aws_clients ->
    exists w', update_aws_service aws_clients cs w = (Ret tt, w').
Proof.
  intros Ht Hv. unfold update_aws_service.
  induction aws_clients as [|c cl IH]; intros w Hne; cbn [for_each].
  - exists w. reflexivity.
  - inversion Hne as [|? ? Hc Hcl]; subst.
    destruct (str_eq "autoscaling" (aws_service_name c)).
    { destruct (update_auto_scaling_group_calls (service c) cs d v w Ht Hv) as (w1 & E & _).
      rewrite (bind_ret _ E). now apply IH. }
    rewrite Hc. unfold bind at 1. cbn [ret]. now apply IH.
Qed.

(** X4: A start or stop request that is accepted, names kinds the SDK has
    clients for and carries the ["service"] key is answered 200 with the
    acknowledgement of its action, after the execution-environment line
    when there is one, provided it either names no ["ec2"], or names
    ["ec2"] alone and every listed instance has the ["Tags"] key. *)
Theorem start_stop_acknowledged (event : pydict pyval) names target act v region
    (w : World P) :
  valid_request event names target act ->
  dict_get (environ w) "AWS_REGION" = Some region ->
  Forall (fun n => client_exists n region = true) names ->
  dict_get target "service" = Some v ->
  act = "start" \/ act = "stop" ->
  Forall (fun n => str_eq "ec2" n = false) names
  \/ (names = [PStr "ec2"]
      /\ forallb has_tags (all_instances (ec2_describe_instances (provider w))) = true) ->
  exists w',
    lambda_handler event w
    = (Ret {| statusCode := 200;
              body := exec_env_line (environ w) ++ accepted_msg act |}, w').
Proof.
  intros Hvalid Er Hk Hv Hact Hkinds. unfold lambda_handler.
  rewrite (bind_ret _ (validate_params_valid _ _ _ _ w Hvalid)). cbn [fst snd aws_service].
  rewrite (bind_ret (m:=ret names) _ (w:=w) (w':=w) (a:=names) eq_refl).
  rewrite (bind_ret _ (build_clients_known names region w Er Hk [])).
  set (cs := {| aws_service := Some names; target_service := Some target;
                action := Some act; exec_env := environ_exec_env (environ w) |}).
  assert (Hret : exists w',
            update_aws_service
              ([] ++ map (fun n => {| aws_service_name := n;
                                      service := BotoClient n region |}) names)%list cs w
            = (Ret tt, w')).
  { destruct Hkinds as [Hne | [-> Htags]].
    - apply (update_aws_service_returns cs target v eq_refl Hv).
      cbn [app]. clear -Hne. induction Hne; cbn [map]; constructor; auto.
    - cbn [app map]. unfold update_aws_service. cbn [for_each aws_service_name service str_eq].
      cbn [String.eqb Ascii.eqb Bool.eqb].
      destruct (update_ec2_calls (BotoClient (PStr "ec2") region) cs target v w eq_refl Hv)
        as (w1 & E & _).
      rewrite Htags in E. exists w1. now rewrite (bind_ret _ E). }
  destruct Hret as (w' & E).
  exists w'. unfold action_is. cbn [action cs].
  destruct Hact as [-> | ->]; cbn [String.eqb Ascii.eqb Bool.eqb orb];
    rewrite (bind_ret _ E); reflexivity.
Qed.

Lemma update_aws_service_not_dispatched cs :
  forall aws_clients (w : World P),
    Forall (fun c => dispatched (aws_service_name c) = false) aws_clients ->
    update_aws_service aws_clients cs w = (Ret tt, w).
Proof.
  unfold update_aws_service.
  induction aws_clients as [|c cl IH]; intros w Hd; cbn [for_each]; [reflexivity|].
  inversion Hd as [|? ? Hc Hcl]; subst. unfold dispatched in Hc.
  apply orb_false_elim in Hc. destruct Hc as [Ha He]. rewrite Ha, He.
  unfold bind at 1. cbn [ret]. now apply IH.
Qed.

Lemma get_aws_service_status_not_dispatched cs :
  forall aws_clients res (w : World P),
    Forall (fun c => dispatched (aws_service_name c) = false) aws_clients ->
    for_fold aws_clients res (fun res _aws_client =>
      if str_eq "autoscaling" (aws_service_name _aws_client) then
        r <- get_auto_scaling_group_status (service _aws_client) cs ;;
        ret (res ++ [r])%list
      else if str_eq "ec2" (aws_service_name _aws_client) then
        r <- get_ec2_status (service _aws_client) cs ;;
        ret (res ++ [r])%list
      else ret res) w = (Ret res, w).
Proof.
  induction aws_clients as [|c cl IH]; intros res w Hd; cbn [for_fold]; [reflexivity|].
  inversion Hd as [|? ? Hc Hcl]; subst. unfold dispatched in Hc.
  apply orb_false_elim in Hc. destruct Hc as [Ha He]. rewrite Ha, He.
  unfold bind at 1. cbn [ret]. now apply IH.
Qed.

(** X5: Kinds the SDK has clients for but that are neither ["ec2"] nor
    ["autoscaling"] are accepted and ignored: a start or stop request
    over such kinds only is acknowledged, a status request is answered
    with the empty list, and the provider is never called. *)
Theorem other_kinds_are_ignored (event : pydict pyval) names target act region
    (w : World P) :
  valid_request event names target act ->
  dict_get (environ w) "AWS_REGION" = Some region ->
  Forall (fun n => client_exists n region = true) names ->
  Forall (fun n => dispatched n = false) names ->
  (act = "start" \/ act = "stop" ->
   lambda_handler event w
   = (Ret {| statusCode := 200;
             body := exec_env_line (environ w) ++ accepted_msg act |}, w))
  /\ (act = "status" ->
      lambda_handler event w
      = (Ret {| statusCode := 200;
                body := exec_env_line (environ w) ++ running_header
                          ++ String newline "[]" |}, w)).
Proof.
  intros Hvalid Er Hk Hd.
  assert (Hc : Forall (fun c => dispatched (aws_service_name c) = false)
                 ([] ++ map (fun n => {| aws_service_name := n;
                                         service := BotoClient n region |}) names)%list).
  { cbn [app]. clear -Hd. induction Hd; cbn [map]; constructor; auto. }
  split; intros Hact; unfold lambda_handler;
    rewrite (bind_ret _ (validate_params_valid _ _ _ _ w Hvalid)); cbn [fst snd aws_service];
    rewrite (bind_ret (m:=ret names) _ (w:=w) (w':=w) (a:=names) eq_refl);
    rewrite (bind_ret _ (build_clients_known names region w Er Hk []));
    unfold action_is; cbn [action].
  - destruct Hact as [-> | ->]; cbn [String.eqb Ascii.eqb Bool.eqb orb];
      rewrite (bind_ret _ (update_aws_service_not_dispatched _ _ w Hc)); reflexivity.
  - subst act. cbn [String.eqb Ascii.eqb Bool.eqb].
    unfold get_aws_service_status.
    rewrite (bind_ret _ (get_aws_service_status_not_dispatched _ _ [] w Hc)). reflexivity.
Qed.

(** *** What a start and a stop request may call *)

Lemma read_only_logs_only {A} (allowed : Call -> bool) (m : M P A) :
  (forall c, is_describe c = true -> allowed c = true) ->
  read_only m -> logs_only allowed m.
Proof.
  intros Hd Hm w. destruct (Hm w) as (_ & _ & l & Hc & Hl).
  exists l. split; [exact Hc|]. eapply Forall_impl; [|exact Hl]. exact Hd.
Qed.

Lemma logs_only_ret {A} allowed (a : A) : logs_only (P:=P) allowed (ret a).
Proof. intros w. exists []. cbn. now rewrite app_nil_r. Qed.

Lemma logs_only_bind_run {A B} allowed (m : M P A) (k : A -> M P B) :
  logs_only allowed m ->
  (forall a w w', m w = (Ret a, w') -> logs_only allowed (k a)) ->
  logs_only allowed (bind m k).
Proof.
  intros Hm Hk w. unfold bind. specialize (Hm w).
  destruct (m w) as [[a|e] w1] eqn:E; cbn [snd] in Hm; [|exact Hm].
  destruct Hm as (l1 & C1 & F1). destruct (Hk a w w1 E w1) as (l2 & C2 & F2).
  exists (l1 ++ l2)%list. rewrite C2, C1. split; [now rewrite app_assoc|].
  now apply Forall_app.
Qed.

Lemma logs_only_bind {A B} allowed (m : M P A) (k : A -> M P B) :
  logs_only allowed m -> (forall a, logs_only allowed (k a)) ->
  logs_only allowed (bind m k).
Proof. intros Hm Hk. apply logs_only_bind_run; auto. Qed.

Lemma logs_only_for_each {A} allowed (l : list A) (body : A -> M P unit) :
  (forall a, logs_only allowed (body a)) -> logs_only allowed (for_each l body).
Proof.
  intros Hb. induction l as [|a l IH]; cbn [for_each].
  - apply logs_only_ret.
  - apply logs_only_bind; auto.
Qed.

Lemma logs_only_call allowed (m : M P unit) (c : Call) :
  allowed c = true ->
  (forall w, calls (snd (m w)) = (calls w ++ [c])%list) ->
  logs_only allowed m.
Proof. intros Hc Hm w. exists [c]. split; [apply Hm | repeat constructor; exact Hc]. Qed.

Lemma logs_only_pure {A} allowed (f : World P -> outcome A) :
  logs_only allowed (fun w => (f w, w)).
Proof. intros w. exists []. cbn. now rewrite app_nil_r. Qed.

Lemma service_tag_matches_silent tag cs (w : World P) :
  snd (service_tag_matches tag cs w) = w.
Proof.
  unfold service_tag_matches, target_service_subscript.
  destruct (Key tag =? "Service")%string; [|reflexivity].
  destruct (target_service cs) as [d|]; [|reflexivity].
  unfold bind, lift. destruct (subscript d "service"); reflexivity.
Qed.

(** The two update operations log the calls of the request's action
    only, whether they return or raise. *)
Lemma update_aws_service_logs allowed cs :
  allowed DescribeInstances = true ->
  allowed (DescribeAutoScalingGroups None) = true ->
  (action_is cs "start" = true ->
   (forall id, allowed (StartInstances [id]) = true)
   /\ (forall name, allowed (UpdateAutoScalingGroup name 1 1 1) = true)) ->
  (action_is cs "start" = false -> action_is cs "stop" = true ->
   (forall id, allowed (StopInstances [id]) = true)
   /\ (forall name, allowed (UpdateAutoScalingGroup name 0 0 0) = true)) ->
  forall aws_clients, logs_only allowed (update_aws_service aws_clients cs).
Proof.
  intros Hdi Hda Hstart Hstop aws_clients.
  assert (Hmatch : forall tag, logs_only (P:=P) allowed (service_tag_matches tag cs)).
  { intros tag w. exists []. rewrite service_tag_matches_silent, app_nil_r.
    split; [reflexivity | constructor]. }
  unfold update_aws_service. apply logs_only_for_each. intros c.
  destruct (str_eq "autoscaling" (aws_service_name c)).
  { unfold update_auto_scaling_group. apply logs_only_bind.
    - intros w. exists [DescribeAutoScalingGroups None]. split; [reflexivity|].
      repeat constructor. exact Hda.
    - intros response. apply logs_only_for_each. intros g.
      apply logs_only_for_each. intros tag.
      apply logs_only_bind; [apply Hmatch|]. intros [|]; [|apply logs_only_ret].
      destruct (action_is cs "start") eqn:Es.
      + apply logs_only_call with (c := UpdateAutoScalingGroup (ASG.AutoScalingGroupName g) 1 1 1);
          [apply Hstart; reflexivity | reflexivity].
      + destruct (action_is cs "stop") eqn:Ep; [|apply logs_only_ret].
        apply logs_only_call with (c := UpdateAutoScalingGroup (ASG.AutoScalingGroupName g) 0 0 0);
          [apply Hstop; reflexivity | reflexivity]. }
  destruct (str_eq "ec2" (aws_service_name c)); [|apply logs_only_ret].
  unfold update_ec2. apply logs_only_bind.
  - intros w. exists [DescribeInstances]. split; [reflexivity|].
    repeat constructor. exact Hdi.
  - intros response. apply logs_only_for_each. intros r.
    apply logs_only_for_each. intros i.
    apply logs_only_bind; [apply (logs_only_pure allowed (fun _ => _))|]. intros tags.
    apply logs_only_for_each. intros tag.
    apply logs_only_bind; [apply Hmatch|]. intros [|]; [|apply logs_only_ret].
    destruct (action_is cs "start") eqn:Es.
    + destruct (EC2.State_Name i =? "stopped")%string; [|apply logs_only_ret].
      apply logs_only_call with (c := StartInstances [EC2.InstanceId i]);
        [apply Hstart; reflexivity | reflexivity].
    + destruct (action_is cs "stop") eqn:Ep; [|apply logs_only_ret].
      destruct (EC2.State_Name i =? "running")%string; [|apply logs_only_ret].
      destruct (is_spot i); [apply logs_only_ret|].
      apply logs_only_call with (c := StopInstances [EC2.InstanceId i]);
        [apply Hstop; reflexivity | reflexivity].
Qed.

Lemma logs_only_invalid_request allowed msg : logs_only (P:=P) allowed (invalid_request msg).
Proof.
  unfold invalid_request. apply logs_only_bind.
  - apply (logs_only_pure allowed (fun w => Ret _)).
  - intros cs. apply logs_only_ret.
Qed.

Lemma logs_only_validate_params allowed event :
  logs_only (P:=P) allowed (validate_params event).
Proof.
  unfold validate_params.
  apply logs_only_bind; [apply (logs_only_pure allowed (fun _ => _))|]. intros a.
  apply logs_only_bind; [apply (logs_only_pure allowed (fun _ => _))|]. intros t.
  apply logs_only_bind; [apply (logs_only_pure allowed (fun _ => _))|]. intros c.
  destruct (negb (truthy a)); [apply logs_only_invalid_request|].
  destruct a; try apply logs_only_invalid_request.
  destruct (negb (truthy t)); [apply logs_only_invalid_request|].
  destruct t; try apply logs_only_invalid_request.
  destruct (negb (truthy c)); [apply logs_only_invalid_request|].
  destruct c; try apply logs_only_invalid_request.
  apply logs_only_bind.
  - apply (logs_only_pure allowed (fun w => Ret _)).
  - intros cs. apply logs_only_ret.
Qed.

Lemma get_resource_silent name (w : World P) : snd (get_resource name w) = w.
Proof.
  unfold get_resource, AWSClient_init, bind, environ_subscript.
  destruct (subscript (environ w) "AWS_REGION") as [region|e].
  - destruct (client_exists name _); reflexivity.
  - destruct e; reflexivity.
Qed.

Lemma logs_only_build_clients allowed names :
  forall acc, logs_only (P:=P) allowed (build_clients names acc).
Proof.
  induction names as [|n names IH]; intros acc; cbn [build_clients].
  - apply logs_only_ret.
  - apply logs_only_bind.
    + intros w. exists []. rewrite get_resource_silent, app_nil_r.
      split; [reflexivity | constructor].
    + intros [c|]; [apply IH | apply logs_only_ret].
Qed.

(** The handler logs, for a request whose action is [act], start or stop,
    the calls of that action only. *)
Lemma lambda_handler_update_logs allowed act (event : pydict pyval) :
  dict_get event "action" = Some (PStr act) ->
  (act =? "status")%string = false ->
  allowed DescribeInstances = true ->
  allowed (DescribeAutoScalingGroups None) = true ->
  ((act =? "start")%string = true ->
   (forall id, allowed (StartInstances [id]) = true)
   /\ (forall name, allowed (UpdateAutoScalingGroup name 1 1 1) = true)) ->
  ((act =? "start")%string = false -> (act =? "stop")%string = true ->
   (forall id, allowed (StopInstances [id]) = true)
   /\ (forall name, allowed (UpdateAutoScalingGroup name 0 0 0) = true)) ->
  logs_only (P:=P) allowed (lambda_handler event).
Proof.
  intros Hact Hns Hdi Hda Hstart Hstop.
  unfold lambda_handler. apply logs_only_bind_run; [apply logs_only_validate_params|].
  intros [cs [r|]] w0 w1 E; cbn [fst snd]; [apply logs_only_ret|].
  apply validate_params_inv in E.
  destruct E as (names & target & act' & (_ & _ & _ & _ & Ec & _) & -> & _).
  rewrite Hact in Ec. injection Ec as <-. cbn [aws_service].
  apply logs_only_bind; [apply logs_only_ret|]. intros l.
  apply logs_only_bind; [apply logs_only_build_clients|].
  intros [response|aws_clients]; [apply logs_only_ret|].
  unfold action_is at 1. cbn [action]. rewrite Hns.
  destruct (_ || _); [|apply logs_only_ret].
  apply logs_only_bind; [|intros; apply logs_only_ret].
  apply update_aws_service_logs; auto.
Qed.

(** X6: A start request, whatever else it holds, makes the handler call
    nothing but the two listings, the start of single instances and
    capacity updates to 1: it stops nothing and sets no capacity to 0. *)
Theorem start_request_calls (event : pydict pyval) (w : World P) :
  dict_get event "action" = Some (PStr "start") ->
  exists l,
    calls (snd (lambda_handler event w)) = (calls w ++ l)%list
    /\ forall c, In c l ->
         c = DescribeInstances \/ c = DescribeAutoScalingGroups None
         \/ (exists id, c = StartInstances [id])
         \/ (exists name, c = UpdateAutoScalingGroup name 1 1 1).
Proof.
  intros Hact.
  destruct (lambda_handler_update_logs start_call "start" event Hact eq_refl eq_refl eq_refl
              (fun _ => conj (fun _ => eq_refl) (fun _ => eq_refl))
              (fun E => ltac:(discriminate E)) w) as (l & Hc & Hl).
  exists l. split; [exact Hc|]. intros c Hin. rewrite Forall_forall in Hl.
  specialize (Hl c Hin). destruct c as [|ids|ids|[names|]|name a b n]; cbn in Hl;
    try discriminate; auto.
  - destruct ids as [|id [|]]; try discriminate. right. right. left. now exists id.
  - apply andb_prop in Hl. destruct Hl as [Hl Hn]. apply andb_prop in Hl.
    destruct Hl as [Ha Hb]. apply Z.eqb_eq in Ha, Hb, Hn. subst.
    right. right. right. now exists name.
Qed.

(** X7: A stop request, whatever else it holds, makes the handler call
    nothing but the two listings, the stop of single instances and
    capacity updates to 0: it starts nothing. *)
Theorem stop_request_calls (event : pydict pyval) (w : World P) :
  dict_get event "action" = Some (PStr "stop") ->
  exists l,
    calls (snd (lambda_handler event w)) = (calls w ++ l)%list
    /\ forall c, In c l ->
         c = DescribeInstances \/ c = DescribeAutoScalingGroups None
         \/ (exists id, c = StopInstances [id])
         \/ (exists name, c = UpdateAutoScalingGroup name 0 0 0).
Proof.
  intros Hact.
  destruct (lambda_handler_update_logs stop_call "stop" event Hact eq_refl eq_refl eq_refl
              (fun E => ltac:(discriminate E))
              (fun _ _ => conj (fun _ => eq_refl) (fun _ => eq_refl)) w) as (l & Hc & Hl).
  exists l. split; [exact Hc|]. intros c Hin. rewrite Forall_forall in Hl.
  specialize (Hl c Hin). destruct c as [|ids|ids|[names|]|name a b n]; cbn in Hl;
    try discriminate; auto.
  - destruct ids as [|id [|]]; try discriminate. right. right. left. now exists id.
  - apply andb_prop in Hl. destruct Hl as [Hl Hn]. apply andb_prop in Hl.
    destruct Hl as [Ha Hb]. apply Z.eqb_eq in Ha, Hb, Hn. subst.
    right. right. right. now exists name.
Qed.

(** *** The exact commands of a stop and of a capacity update *)

(** X8: On a stop request, when every listed instance has the ["Tags"]
    key, the commands after the listing are exactly one stop per instance
    that carries the service tag, is running and is not a spot instance,
    in listing order; an instance in any other state is sent nothing. *)
Theorem stop_commands_exact client cs d v (w : World P) :
  target_service cs = Some d -> dict_get d "service" = Some v ->
  action cs = Some "stop" ->
  let instances := all_instances (ec2_describe_instances (provider w)) in
  forallb has_tags instances = true ->
  (forall i, In i instances -> NoDup (map Key (tags_of i))) ->
  exists w',
    update_ec2 client cs w = (Ret tt, w')
    /\ calls w'
       = (calls w ++ DescribeInstances
            :: map (fun i => StopInstances [EC2.InstanceId i])
                 (filter (fun i => has_service_tag v (tags_of i)
                                   && ((EC2.State_Name i =? "running")%string
                                       && negb (is_spot i))) instances))%list.
Proof.
  intros Ht Hv Ha instances Hall Htags.
  destruct (update_ec2_calls client cs d v w Ht Hv) as (w' & E & C).
  fold instances in E, C. rewrite Hall in E. rewrite (upto_all _ _ Hall) in C.
  exists w'. split; [exact E|]. rewrite C. do 2 f_equal.
  rewrite <- flat_map_filter_map. apply flat_map_ext_In. intros i Hi.
  unfold ec2_tag_calls, action_is. rewrite Ha. cbn [String.eqb Ascii.eqb Bool.eqb].
  rewrite (flat_map_unique_tag v _ (tags_of i) (Htags i Hi)).
  destruct (has_service_tag v (tags_of i)); reflexivity.
Qed.

(** X18: On a start request, when every listed instance has the ["Tags"]
    key, the commands after the listing are exactly one start per
    instance that carries the service tag and is stopped, in listing
    order; so the start calls are as many as those instances, and an
    instance that is running gets none. *)
Theorem start_commands_exact client cs d v (w : World P) :
  target_service cs = Some d -> dict_get d "service" = Some v ->
  action cs = Some "start" ->
  let instances := all_instances (ec2_describe_instances (provider w)) in
  let stopped := filter (fun i => has_service_tag v (tags_of i)
                                  && (EC2.State_Name i =? "stopped")%string) instances in
  forallb has_tags instances = true ->
  (forall i, In i instances -> NoDup (map Key (tags_of i))) ->
  exists w',
    update_ec2 client cs w = (Ret tt, w')
    /\ calls w'
       = (calls w ++ DescribeInstances
            :: map (fun i => StartInstances [EC2.InstanceId i]) stopped)%list
    /\ length (filter is_start (calls w'))
       = (length (filter is_start (calls w)) + length stopped)%nat.
Proof.
  intros Ht Hv Ha instances stopped Hall Htags.
  destruct (update_ec2_calls client cs d v w Ht Hv) as (w' & E & C).
  fold instances in E, C. rewrite Hall in E. rewrite (upto_all _ _ Hall) in C.
  assert (Hissued :
    flat_map (fun i => flat_map (ec2_tag_calls cs v i) (tags_of i)) instances
    = map (fun i => StartInstances [EC2.InstanceId i]) stopped).
  { unfold stopped. rewrite <- flat_map_filter_map.
    apply flat_map_ext_In. intros i Hi.
    unfold ec2_tag_calls, action_is. rewrite Ha. cbn [String.eqb Ascii.eqb Bool.eqb].
    rewrite (flat_map_unique_tag v _ (tags_of i) (Htags i Hi)).
    destruct (has_service_tag v (tags_of i)); reflexivity. }
  rewrite Hissued in C.
  exists w'. split; [exact E|]. split; [exact C|].
  rewrite C, filter_app, length_app. f_equal. cbn [filter is_start].
  assert (F : forall l, filter is_start (map (fun i => StartInstances [EC2.InstanceId i]) l)
                        = map (fun i => StartInstances [EC2.InstanceId i]) l).
  { induction l as [|x l IH]; [reflexivity|]. cbn. now rewrite IH. }
  now rewrite F, length_map.
Qed.

(** X19: Whatever the listing and whether [update_ec2] returns or raises
    at an instance without tags, every stop it issues is for a listed
    instance that carries the service tag, is running and is not a spot
    instance; with distinct instance ids, a spot instance is never sent a
    stop. *)
Theorem spot_never_stopped client cs d v (w : World P) :
  target_service cs = Some d -> dict_get d "service" = Some v ->
  let instances := all_instances (ec2_describe_instances (provider w)) in
  NoDup (map EC2.InstanceId instances) ->
  exists issued,
    calls (snd (update_ec2 client cs w)) = (calls w ++ DescribeInstances :: issued)%list
    /\ (forall ids, In (StopInstances ids) issued ->
          exists i, In i instances /\ ids = [EC2.InstanceId i]
                    /\ has_service_tag v (tags_of i) = true
                    /\ EC2.State_Name i = "running"
                    /\ EC2.InstanceLifecycle i <> Some "spot")
    /\ (forall i, In i instances -> EC2.InstanceLifecycle i = Some "spot" ->
          ~ In (StopInstances [EC2.InstanceId i]) issued).
Proof.
  intros Ht Hv instances Hids.
  destruct (update_ec2_calls client cs d v w Ht Hv) as (w' & E & C).
  fold instances in E, C. rewrite E. cbn [snd]. eexists. split; [exact C|].
  assert (Hupto : forall i, In i (upto has_tags instances) -> In i instances).
  { clear. induction instances as [|a l IH]; cbn [upto]; [tauto|].
    destruct (has_tags a).
    - intros i [-> | Hi]; [now left | right; auto].
    - intros i [-> | []]. now left. }
  assert (Hstop : forall ids,
            In (StopInstances ids)
               (flat_map (fun i => flat_map (ec2_tag_calls cs v i) (tags_of i))
                  (upto has_tags instances)) ->
            exists i, In i instances /\ ids = [EC2.InstanceId i]
                      /\ has_service_tag v (tags_of i) = true
                      /\ EC2.State_Name i = "running"
                      /\ EC2.InstanceLifecycle i <> Some "spot").
  { intros ids Hc. apply in_flat_map in Hc. destruct Hc as (i & Hi & Hc).
    apply in_flat_map in Hc. destruct Hc as (tag & Htag & Hc).
    unfold ec2_tag_calls in Hc.
    destruct (tag_matches v tag) eqn:Hm; [|destruct Hc].
    destruct (action_is cs "start").
    { destruct (EC2.State_Name i =? "stopped")%string; [|destruct Hc].
      destruct Hc as [Hc | []]. discriminate Hc. }
    destruct (action_is cs "stop"); [|destruct Hc].
    destruct (EC2.State_Name i =? "running")%string eqn:Hr; [|destruct Hc].
    destruct (is_spot i) eqn:Hs; [destruct Hc|]. destruct Hc as [Hc | []].
    injection Hc as <-. exists i. split; [now apply Hupto|]. split; [reflexivity|].
    split; [apply has_service_tag_In; eauto|]. split; [now apply String.eqb_eq|].
    intros Hl. apply is_spot_iff in Hl. congruence. }
  split; [exact Hstop|].
  intros i Hi Hs Hc. destruct (Hstop _ Hc) as (j & Hj & Eid & _ & _ & Hns).
  injection Eid as Eid.
  assert (i = j) by (eapply NoDup_map_eq; eauto). subst j. contradiction.
Qed.

(** X9: On a start or stop request the commands after the listing of the
    groups are exactly one capacity update per group that carries the
    service tag, in listing order, to 1 on start and to 0 on stop. *)
Theorem capacity_updates_exact client cs d v act (n : Z) (w : World P) :
  target_service cs = Some d -> dict_get d "service" = Some v ->
  action cs = Some act ->
  (act = "start" /\ n = 1) \/ (act = "stop" /\ n = 0) ->
  let groups := asg_describe_auto_scaling_groups None (provider w) in
  (forall g, In g groups -> NoDup (map Key (ASG.Tags g))) ->
  exists w',
    update_auto_scaling_group client cs w = (Ret tt, w')
    /\ calls w'
       = (calls w ++ DescribeAutoScalingGroups None
            :: map (fun g => UpdateAutoScalingGroup (ASG.AutoScalingGroupName g) n n n)
                 (filter (fun g => has_service_tag v (ASG.Tags g)) groups))%list.
Proof.
  intros Ht Hv Ha Hact groups Htags.
  destruct (update_auto_scaling_group_calls client cs d v w Ht Hv) as (w' & E & C).
  fold groups in C. exists w'. split; [exact E|]. rewrite C. do 2 f_equal.
  rewrite <- flat_map_filter_map. apply flat_map_ext_In. intros g Hg.
  unfold asg_tag_calls, action_is. rewrite Ha.
  destruct Hact as [[-> ->] | [-> ->]]; cbn [String.eqb Ascii.eqb Bool.eqb];
    rewrite (flat_map_unique_tag v _ (ASG.Tags g) (Htags g Hg));
    destruct (has_service_tag v (ASG.Tags g)); reflexivity.
Qed.

(** *** A target without the ["service"] key *)

Lemma for_each_first_raise {A} (e : exn) (bad : A -> bool) (body : A -> M P unit) :
  (forall a w, body a w = (if bad a then Raise e else Ret tt, w)) ->
  forall l w, for_each l body w = (if existsb bad l then Raise e else Ret tt, w).
Proof.
  intros Hb. induction l as [|a l IH]; intros w; cbn [for_each existsb]; [reflexivity|].
  unfold bind. rewrite Hb. destruct (bad a); cbn [orb]; [reflexivity | apply IH].
Qed.

Lemma service_tag_matches_no_key tag cs d (w : World P) :
  target_service cs = Some d -> dict_get d "service" = None ->
  service_tag_matches tag cs w
  = (if (Key tag =? "Service")%string then Raise (KeyError "service") else Ret false, w).
Proof.
  intros Ht Hv. unfold service_tag_matches, target_service_subscript. rewrite Ht.
  destruct (Key tag =? "Service")%string; [|reflexivity].
  unfold bind, lift, subscript. now rewrite Hv.
Qed.

Lemma for_each_first_failure {A} (f : A -> option exn) (body : A -> M P unit) :
  (forall a w, body a w = (match f a with Some e => Raise e | None => Ret tt end, w)) ->
  forall l w,
    for_each l body w
    = (match first_failure f l with Some e => Raise e | None => Ret tt end, w).
Proof.
  intros Hb. induction l as [|a l IH]; intros w; cbn [for_each first_failure]; [reflexivity|].
  unfold bind. rewrite Hb. destruct (f a); [reflexivity | apply IH].
Qed.

Lemma first_failure_flat_map {A B} (f : B -> option exn) (g : A -> list B) (l : list A) :
  first_failure (fun a => first_failure f (g a)) l = first_failure f (flat_map g l).
Proof.
  induction l as [|a l IH]; [reflexivity|]. cbn [first_failure flat_map]. rewrite IH.
  induction (g a) as [|b bs IHb]; cbn [first_failure app]; [reflexivity|].
  destruct (f b); [reflexivity | exact IHb].
Qed.

(** X10: When the target dict has no ["service"] key, [update_ec2] stops
    at the first listed instance that has no ["Tags"] key, raising
    [KeyError] for ["Tags"], or that has a tag with key ["Service"],
    raising [KeyError] for ["service"], and returns if there is none; in
    every case it has issued the listing and no command. *)
Theorem update_ec2_without_service_key client cs d (w : World P) :
  target_service cs = Some d -> dict_get d "service" = None ->
  update_ec2 client cs w
  = (match first_failure ec2_key_failure
             (all_instances (ec2_describe_instances (provider w))) with
     | Some e => Raise e
     | None => Ret tt
     end,
     log DescribeInstances w).
Proof.
  intros Ht Hv. unfold update_ec2, bind at 1, sdk_describe_instances.
  unfold all_instances. rewrite <- first_failure_flat_map.
  apply (for_each_first_failure
           (fun r => first_failure ec2_key_failure (EC2.Instances r))).
  intros r w1. apply (for_each_first_failure ec2_key_failure).
  intros i w2. unfold ec2_key_failure, instance_tags, has_service_key.
  destruct (EC2.Tags i) as [tags|]; [|reflexivity].
  unfold bind at 1, lift.
  rewrite (for_each_first_raise (KeyError "service")
             (fun tag => (Key tag =? "Service")%string)).
  - destruct (existsb _ tags); reflexivity.
  - intros tag w3. unfold bind.
    rewrite (service_tag_matches_no_key tag cs d w3 Ht Hv).
    destruct (Key tag =? "Service")%string; reflexivity.
Qed.

(** X11: Likewise [update_auto_scaling_group] raises [KeyError] as soon as a
    listed group has a tag with key ["Service"], having issued the
    listing and no capacity update. *)
Theorem update_auto_scaling_group_without_service_key client cs d (w : World P) :
  target_service cs = Some d -> dict_get d "service" = None ->
  update_auto_scaling_group client cs w
  = (if existsb (fun g => has_service_key (ASG.Tags g))
          (asg_describe_auto_scaling_groups None (provider w))
     then Raise (KeyError "service") else Ret tt,
     log (DescribeAutoScalingGroups None) w).
Proof.
  intros Ht Hv. unfold update_auto_scaling_group, bind at 1, sdk_describe_auto_scaling_groups.
  apply (for_each_first_raise (KeyError "service") (fun g => has_service_key (ASG.Tags g))).
  intros g w2. unfold has_service_key.
  apply (for_each_first_raise (KeyError "service") (fun tag => (Key tag =? "Service")%string)).
  intros tag w3. unfold bind.
  rewrite (service_tag_matches_no_key tag cs d w3 Ht Hv).
  destruct (Key tag =? "Service")%string; reflexivity.
Qed.

(** ** What the status operations report *)

Lemma asg_status_tags_found_result client cs d v g x xs :
  target_service cs = Some d -> dict_get d "service" = Some v ->
  forall tags result (w : World P),
    refetch (provider w) g = x :: xs ->
    exists w',
      for_fold tags result (asg_status_tag client cs g) w
      = (Ret (result ++ flat_map (fun tag => if tag_matches v tag
                                             then [group_entry x] else []) tags)%list, w')
      /\ provider w' = provider w.
Proof.
  intros Ht Hv. induction tags as [|tag tags IH]; intros result w Hx; cbn [for_fold flat_map].
  - exists w. now rewrite app_nil_r.
  - unfold asg_status_tag at 1, bind at 1 2.
    rewrite (service_tag_matches_ok tag cs d v w Ht Hv).
    destruct (tag_matches v tag).
    + unfold bind at 1, sdk_describe_auto_scaling_groups. fold (refetch (provider w) g).
      rewrite Hx. cbn [lift first_item bind ret].
      destruct (IH (result ++ [group_entry x])%list
                  (log (DescribeAutoScalingGroups (Some [ASG.AutoScalingGroupName g])) w) Hx)
        as (w' & E & Hp).
      exists w'. rewrite E, <- app_assoc. split; [reflexivity | exact Hp].
    + cbn [ret app]. apply IH. exact Hx.
Qed.

(** X12: When every listed group that carries the service tag is found again
    by name, the status of the groups has one entry per such group, in
    listing order, with the name and the desired capacity of the group
    the lookup returned first; the provider's state is unchanged. *)
Theorem asg_status_entries client cs d v (w : World P) :
  target_service cs = Some d -> dict_get d "service" = Some v ->
  let groups := asg_describe_auto_scaling_groups None (provider w) in
  (forall g, In g groups -> NoDup (map Key (ASG.Tags g))) ->
  (forall g, In g groups -> has_service_tag v (ASG.Tags g) = true ->
             refetch (provider w) g <> []) ->
  exists w',
    get_auto_scaling_group_status client cs w
    = (Ret (map (fun g => group_entry (refetched (provider w) g))
              (filter (fun g => has_service_tag v (ASG.Tags g)) groups)), w')
    /\ provider w' = provider w.
Proof.
  intros Ht Hv groups Htags Hthere.
  set (w0 := log (DescribeAutoScalingGroups None) w).
  assert (Hrun : get_auto_scaling_group_status client cs w
                 = for_fold groups []
                     (fun result group =>
                        for_fold (ASG.Tags group) result (asg_status_tag client cs group)) w0)
    by reflexivity.
  rewrite Hrun. clear Hrun.
  assert (Hloop : forall gs result (w1 : World P),
    provider w1 = provider w ->
    (forall g, In g gs -> NoDup (map Key (ASG.Tags g))) ->
    (forall g, In g gs -> has_service_tag v (ASG.Tags g) = true ->
               refetch (provider w) g <> []) ->
    exists w',
      for_fold gs result
        (fun result group => for_fold (ASG.Tags group) result (asg_status_tag client cs group))
        w1
      = (Ret (result ++ map (fun g => group_entry (refetched (provider w) g))
                          (filter (fun g => has_service_tag v (ASG.Tags g)) gs))%list, w')
      /\ provider w' = provider w).
  { induction gs as [|g gs IH]; intros result w1 Hp1 Hk Hr; cbn [for_fold filter map].
    - exists w1. now rewrite app_nil_r.
    - assert (Hk' : forall g', In g' gs -> NoDup (map Key (ASG.Tags g')))
        by (intros g' Hg'; apply Hk; now right).
      assert (Hr' : forall g', In g' gs -> has_service_tag v (ASG.Tags g') = true ->
                               refetch (provider w) g' <> [])
        by (intros g' Hg'; apply Hr; now right).
      destruct (has_service_tag v (ASG.Tags g)) eqn:Hm.
      + specialize (Hr g (or_introl eq_refl) Hm).
        destruct (refetch (provider w) g) as [|x xs] eqn:Hx; [congruence|].
        assert (Hx1 : refetch (provider w1) g = x :: xs) by now rewrite Hp1.
        destruct (asg_status_tags_found_result client cs d v g x xs Ht Hv
                    (ASG.Tags g) result w1 Hx1) as (w2 & E & Hp2).
        rewrite (bind_ret _ E).
        rewrite (flat_map_unique_tag v _ (ASG.Tags g) (Hk g (or_introl eq_refl))), Hm.
        destruct (IH (result ++ [group_entry x])%list w2 (eq_trans Hp2 Hp1) Hk' Hr')
          as (w3 & E3 & Hp3).
        exists w3. rewrite E3. cbn [map]. unfold refetched at 2. rewrite Hx. cbn [hd].
        rewrite <- app_assoc. split; [reflexivity | exact Hp3].
      + rewrite (bind_ret _ (asg_status_tags_untagged client cs d v g Ht Hv
                               (ASG.Tags g) result w1 Hm)).
        apply IH; assumption. }
  destruct (Hloop groups [] w0 eq_refl Htags Hthere) as (w' & E & Hp).
  exists w'. split; [exact E | exact Hp].
Qed.

Lemma dict_get_set_same {V} (d : pydict V) (k : string) (x : V) :
  dict_get (dict_set d k x) k = Some x.
Proof.
  induction d as [|[k0 x0] d IH]; cbn [dict_set dict_get].
  - now rewrite String.eqb_refl.
  - destruct (k0 =? k)%string eqn:E0; cbn [dict_get].
    + now rewrite String.eqb_refl.
    + now rewrite E0.
Qed.

Lemma dict_get_set_other {V} (d : pydict V) (k k' : string) (x : V) :
  k <> k' -> dict_get (dict_set d k x) k' = dict_get d k'.
Proof.
  intros Hk. induction d as [|[k0 x0] d IH]; cbn [dict_set dict_get].
  - apply String.eqb_neq in Hk. now rewrite Hk.
  - destruct (k0 =? k)%string eqn:E0; cbn [dict_get].
    + apply String.eqb_eq in E0. subst k0.
      apply String.eqb_neq in Hk. now rewrite Hk.
    + destruct (k0 =? k')%string; [reflexivity | exact IH].
Qed.

Lemma dict_set_keys {V} (Q : string -> Prop) (d : pydict V) (k : string) (x : V) :
  Forall Q (map fst d) -> Q k -> Forall Q (map fst (dict_set d k x)).
Proof.
  intros Hd Hk. induction d as [|[k0 x0] d IH]; cbn [dict_set map fst].
  - repeat constructor. exact Hk.
  - cbn [map fst] in Hd. inversion Hd as [|? ? H0 Hd']; subst.
    destruct (k0 =? k)%string; cbn [map fst]; constructor; auto.
Qed.

Lemma dict_has_key {V} (d : pydict V) (k : string) :
  dict_has d k = true -> In k (map fst d).
Proof.
  unfold dict_has. induction d as [|[k0 x0] d IH]; cbn [dict_get map fst]; [discriminate|].
  destruct (k0 =? k)%string eqn:E0.
  - apply String.eqb_eq in E0. now left.
  - intros Hh. right. now apply IH.
Qed.

Lemma dict_has_nonempty {V} (d : pydict V) (k : string) :
  dict_has d k = true -> match d with [] => false | _ => true end = true.
Proof. destruct d; [discriminate | reflexivity]. Qed.

Lemma ec2_status_tags_run cs d v i :
  target_service cs = Some d -> dict_get d "service" = Some v ->
  forall tags info (w : World P),
    for_fold tags info (ec2_status_tag cs i) w
    = (Ret (fold_left (ec2_info_step v i) tags info), w).
Proof.
  intros Ht Hv. induction tags as [|tag tags IH]; intros info w; cbn [for_fold fold_left].
  - reflexivity.
  - unfold ec2_status_tag at 1, ec2_info_step at 2, tag_matches.
    destruct (Key tag =? "Name")%string.
    { unfold bind at 1. cbn [ret]. apply IH. }
    destruct (Key tag =? "Service")%string; cbn [andb].
    + unfold target_service_subscript. rewrite Ht.
      unfold bind at 1 2, lift, subscript. rewrite Hv.
      destruct (str_eq (Value tag) v && (EC2.State_Name i =? "running")%string);
        cbn [ret]; apply IH.
    + unfold bind at 1. cbn [ret]. apply IH.
Qed.

Lemma ec2_info_step_facts v i info tag n :
  dict_get info "Name" = option_map JStr n ->
  (dict_has info "InstanceId" = true ->
   dict_get info "InstanceId" = Some (JStr (EC2.InstanceId i))
   /\ dict_get info "InstanceType" = Some (JStr (EC2.InstanceType i))) ->
  Forall ec2_keys (map fst info) ->
  let info' := ec2_info_step v i info tag in
  dict_get info' "Name"
  = option_map JStr (if (Key tag =? "Name")%string then Some (Value tag) else n)
  /\ dict_has info' "InstanceId"
     = dict_has info "InstanceId"
       || (tag_matches v tag && (EC2.State_Name i =? "running")%string)
  /\ (dict_has info' "InstanceId" = true ->
      dict_get info' "InstanceId" = Some (JStr (EC2.InstanceId i))
      /\ dict_get info' "InstanceType" = Some (JStr (EC2.InstanceType i)))
  /\ Forall ec2_keys (map fst info').
Proof.
  intros Hn Hid Hk info'. unfold info', ec2_info_step.
  destruct (Key tag =? "Name")%string eqn:Kn.
  - assert (Hm : tag_matches v tag = false).
    { unfold tag_matches. apply String.eqb_eq in Kn. rewrite Kn. reflexivity. }
    rewrite Hm. cbn [andb]. rewrite orb_false_r. unfold dict_has in *.
    rewrite dict_get_set_same.
    rewrite (dict_get_set_other info "Name" "InstanceId") by discriminate.
    rewrite (dict_get_set_other info "Name" "InstanceType") by discriminate.
    repeat split; auto; try (now apply Hid). apply dict_set_keys; [exact Hk | now left].
  - destruct (tag_matches v tag && (EC2.State_Name i =? "running")%string).
    + rewrite orb_true_r. unfold dict_has in *.
      rewrite dict_get_set_same.
      rewrite (dict_get_set_other _ "InstanceType" "InstanceId") by discriminate.
      rewrite (dict_get_set_other _ "InstanceType" "Name") by discriminate.
      rewrite dict_get_set_same.
      rewrite (dict_get_set_other info "InstanceId" "Name") by discriminate.
      repeat split; auto.
      apply dict_set_keys; [apply dict_set_keys|]; unfold ec2_keys; auto.
    + rewrite orb_false_r. repeat split; auto; now apply Hid.
Qed.

(** What the [info] dict holds after the tags of an instance. *)
Lemma ec2_info_after_tags v i : forall tags info n,
  dict_get info "Name" = option_map JStr n ->
  (dict_has info "InstanceId" = true ->
   dict_get info "InstanceId" = Some (JStr (EC2.InstanceId i))
   /\ dict_get info "InstanceType" = Some (JStr (EC2.InstanceType i))) ->
  Forall ec2_keys (map fst info) ->
  dict_get (fold_left (ec2_info_step v i) tags info) "Name"
  = option_map JStr (name_tag tags n)
  /\ dict_has (fold_left (ec2_info_step v i) tags info) "InstanceId"
     = dict_has info "InstanceId"
       || (has_service_tag v tags && (EC2.State_Name i =? "running")%string)
  /\ (dict_has (fold_left (ec2_info_step v i) tags info) "InstanceId" = true ->
      dict_get (fold_left (ec2_info_step v i) tags info) "InstanceId"
      = Some (JStr (EC2.InstanceId i))
      /\ dict_get (fold_left (ec2_info_step v i) tags info) "InstanceType"
         = Some (JStr (EC2.InstanceType i)))
  /\ Forall ec2_keys (map fst (fold_left (ec2_info_step v i) tags info)).
Proof.
  induction tags as [|tag tags IH]; intros info n Hn Hid Hk.
  - cbn [fold_left has_service_tag existsb andb name_tag]. rewrite orb_false_r.
    split; [exact Hn|]. split; [reflexivity|]. split; [exact Hid | exact Hk].
  - change (fold_left (ec2_info_step v i) (tag :: tags) info)
      with (fold_left (ec2_info_step v i) tags (ec2_info_step v i info tag)).
    change (name_tag (tag :: tags) n)
      with (name_tag tags (if (Key tag =? "Name")%string then Some (Value tag) else n)).
    change (has_service_tag v (tag :: tags))
      with (tag_matches v tag || has_service_tag v tags).
    destruct (ec2_info_step_facts v i info tag n Hn Hid Hk) as (S1 & S2 & S3 & S4).
    destruct (IH _ _ S1 S3 S4) as (I1 & I2 & I3 & I4).
    split; [exact I1|]. split; [|split; [exact I3 | exact I4]]. rewrite I2, S2.
    destruct (dict_has info "InstanceId"), (tag_matches v tag),
      (has_service_tag v tags), (EC2.State_Name i =? "running")%string; reflexivity.
Qed.

Lemma get_ec2_status_run client cs d v (w : World P) :
  target_service cs = Some d -> dict_get d "service" = Some v ->
  get_ec2_status client cs w
  = (if forallb has_tags (all_instances (ec2_describe_instances (provider w)))
     then Ret (map (fun i =>
                      let info := fold_left (ec2_info_step v i) (tags_of i) [] in
                      if negb (dict_has info "Name")
                      then dict_set info "Name" (JStr "") else info)
                 (filter (matching_running v)
                    (all_instances (ec2_describe_instances (provider w)))))
     else Raise (KeyError "Tags"),
     log DescribeInstances w).
Proof.
  intros Ht Hv.
  set (entry := fun i : EC2.Instance =>
         let info := fold_left (ec2_info_step v i) (tags_of i) [] in
         if negb (dict_has info "Name") then dict_set info "Name" (JStr "") else info).
  set (w0 := log DescribeInstances w).
  set (instance_step := fun (result : list (pydict jval)) (instance : EC2.Instance) =>
    tags <- lift (instance_tags instance) ;;
    info <- for_fold tags [] (ec2_status_tag cs instance) ;;
    if match info with [] => false | _ => true end && dict_has info "InstanceId" then
      ret (P:=P) (result ++ [if negb (dict_has info "Name")
                             then dict_set info "Name" (JStr "")
                             else info])%list
    else ret result).
  assert (Hrun : get_ec2_status client cs w
                 = for_fold (ec2_describe_instances (provider w)) []
                     (fun result reservation =>
                        for_fold (EC2.Instances reservation) result instance_step) w0)
    by reflexivity.
  rewrite Hrun. clear Hrun.
  assert (Hinst : forall instances result (w1 : World P),
            for_fold instances result instance_step w1
            = (if forallb has_tags instances
               then Ret (result ++ map entry (filter (matching_running v) instances))%list
               else Raise (KeyError "Tags"), w1)).
  { induction instances as [|i instances IH]; intros result w1;
      cbn [for_fold filter map forallb].
    - now rewrite app_nil_r.
    - unfold instance_step at 1, instance_tags.
      unfold entry at 1, matching_running at 1, has_tags at 1, tags_of.
      destruct (EC2.Tags i) as [tags|] eqn:Etags; [|reflexivity].
      unfold bind at 1 2 3, lift. unfold pydict in *.
      rewrite (ec2_status_tags_run cs d v i Ht Hv).
      assert (Hnil : dict_has (@nil (string * jval)) "InstanceId" = true ->
                     dict_get (@nil (string * jval)) "InstanceId"
                     = Some (JStr (EC2.InstanceId i))
                     /\ dict_get (@nil (string * jval)) "InstanceType"
                        = Some (JStr (EC2.InstanceType i)))
        by (intros E; cbn in E; discriminate E).
      destruct (ec2_info_after_tags v i tags [] None eq_refl Hnil (Forall_nil _))
        as (_ & I2 & _ & _).
      cbn [dict_has dict_get orb] in I2.
      unfold pydict in *. cbn [andb].
      destruct (has_service_tag v tags && (EC2.State_Name i =? "running")%string) eqn:Hm.
      + pose proof (dict_has_nonempty _ _ I2) as Hne.
        unfold pydict in *. rewrite Hne, I2. cbn [andb ret]. rewrite IH.
        destruct (forallb has_tags instances); [|reflexivity].
        cbn [map]. rewrite ?Etags. now rewrite <- app_assoc.
      + rewrite I2, andb_false_r. cbn [ret]. apply IH. }
  assert (Hres : forall rs result (w1 : World P),
            for_fold rs result
              (fun result reservation =>
                 for_fold (EC2.Instances reservation) result instance_step) w1
            = (if forallb has_tags (all_instances rs)
               then Ret (result ++ map entry (filter (matching_running v)
                                                (all_instances rs)))%list
               else Raise (KeyError "Tags"), w1)).
  { induction rs as [|r rs IH]; intros result w1; unfold all_instances;
      cbn [for_fold flat_map filter map forallb].
    - now rewrite app_nil_r.
    - unfold bind at 1. rewrite Hinst, forallb_app.
      destruct (forallb has_tags (EC2.Instances r)); cbn [andb]; [|reflexivity].
      rewrite IH. unfold all_instances.
      destruct (forallb has_tags (flat_map EC2.Instances rs)); [|reflexivity].
      now rewrite filter_app, map_app, app_assoc. }
  apply (Hres _ [] w0).
Qed.

Lemma ec2_entries_facts v (l : list EC2.Instance) :
  (forall i, In i l -> matching_running v i = true) ->
  Forall2 ec2_entry_of l
    (map (fun i =>
            let info := fold_left (ec2_info_step v i) (tags_of i) [] in
            if negb (dict_has info "Name") then dict_set info "Name" (JStr "") else info) l).
Proof.
  intros Hin. induction l as [|i l IH]; cbn [map]; constructor.
  2:{ apply IH. intros j Hj. apply Hin. now right. }
  specialize (Hin i (or_introl eq_refl)).
  assert (Hnil : dict_has (@nil (string * jval)) "InstanceId" = true ->
                 dict_get (@nil (string * jval)) "InstanceId"
                 = Some (JStr (EC2.InstanceId i))
                 /\ dict_get (@nil (string * jval)) "InstanceType"
                    = Some (JStr (EC2.InstanceType i)))
    by (intros E; cbn in E; discriminate E).
  destruct (ec2_info_after_tags v i (tags_of i) [] None eq_refl Hnil (Forall_nil _))
    as (I1 & I2 & I3 & I4).
  cbn [dict_has dict_get orb] in I2. fold (matching_running v i) in I2.
  rewrite Hin in I2. specialize (I3 I2). destruct I3 as (I3 & I3').
  cbv zeta. unfold ec2_entry_of, display_name.
  set (info := fold_left (ec2_info_step v i) (tags_of i) []) in *.
  assert (Hkeys : forall e : pydict jval, Forall ec2_keys (map fst e) ->
                    forall k, dict_has e k = true -> ec2_keys k).
  { intros e He k Hk. apply dict_has_key in Hk. rewrite Forall_forall in He.
    exact (He k Hk). }
  assert (Hname : dict_has info "Name"
                  = match name_tag (tags_of i) None with Some _ => true | None => false end).
  { unfold dict_has. rewrite I1. destruct (name_tag (tags_of i) None); reflexivity. }
  rewrite Hname.
  destruct (name_tag (tags_of i) None) as [n|]; cbn [option_map negb] in *.
  - split; [exact I3|]. split; [exact I3'|]. split; [exact I1|].
    apply (Hkeys info I4).
  - rewrite dict_get_set_same.
    rewrite (dict_get_set_other info "Name" "InstanceId") by discriminate.
    rewrite (dict_get_set_other info "Name" "InstanceType") by discriminate.
    split; [exact I3|]. split; [exact I3'|]. split; [reflexivity|].
    apply Hkeys. apply dict_set_keys; [exact I4 | now left].
Qed.

(** X13: When every listed instance has the ["Tags"] key, the status of
    the instances has one entry per listed instance that carries the
    service tag and is running, in listing order; the entry holds the
    instance's id and type and, under ["Name"], the value of its ["Name"]
    tag, or the empty string without one, and no other key.  When an
    instance is listed without ["Tags"], [get_ec2_status] raises
    [KeyError].  Only the listing is asked of the provider. *)
Theorem ec2_status_entries client cs d v (w : World P) :
  target_service cs = Some d -> dict_get d "service" = Some v ->
  let instances := all_instances (ec2_describe_instances (provider w)) in
  exists result,
    get_ec2_status client cs w
    = (if forallb has_tags instances then Ret result else Raise (KeyError "Tags"),
       log DescribeInstances w)
    /\ Forall2 ec2_entry_of (filter (matching_running v) instances) result.
Proof.
  intros Ht Hv instances. eexists.
  split; [apply (get_ec2_status_run client cs d v w Ht Hv)|].
  apply ec2_entries_facts. intros i Hi. apply filter_In in Hi. tauto.
Qed.

(** X14: A valid status request over ["ec2"] alone, when every listed
    instance has the ["Tags"] key, is answered 200; the body is the
    execution-environment line, when there is one, the "running" header,
    and the JSON text of a list holding one list, that of the entries of
    the tagged running instances.  When an instance is listed without
    ["Tags"], the handler raises [KeyError] and answers nothing.  Only
    the listing of the instances is asked of the provider. *)
Theorem ec2_status_response (event : pydict pyval) target v region (w : World P) :
  valid_request event [PStr "ec2"] target "status" ->
  dict_get target "service" = Some v ->
  dict_get (environ w) "AWS_REGION" = Some region ->
  client_exists (PStr "ec2") region = true ->
  let instances := all_instances (ec2_describe_instances (provider w)) in
  exists result,
    lambda_handler event w
    = (if forallb has_tags instances
       then Ret {| statusCode := 200;
                   body := exec_env_line (environ w) ++ running_header
                             ++ String newline
                                  (json_dumps (JList [JList (map JDict result)])) |}
       else Raise (KeyError "Tags"),
       log DescribeInstances w)
    /\ Forall2 ec2_entry_of (filter (matching_running v) instances) result.
Proof.
  intros Hvalid Hv Er Hk instances. eexists. split.
  - unfold lambda_handler.
    rewrite (bind_ret _ (validate_params_valid _ _ _ _ w Hvalid)). cbn [fst snd aws_service].
    rewrite (bind_ret (m:=ret [PStr "ec2"]) _ (w:=w) (w':=w) (a:=[PStr "ec2"]) eq_refl).
    assert (Hall : Forall (fun n => client_exists n region = true) [PStr "ec2"])
      by (repeat constructor; exact Hk).
    rewrite (bind_ret _ (build_clients_known [PStr "ec2"] region w Er Hall [])).
    unfold action_is at 1. cbn [action String.eqb Ascii.eqb Bool.eqb app map exec_env].
    unfold get_aws_service_status.
    cbn [for_fold aws_service_name service str_eq String.eqb Ascii.eqb Bool.eqb].
    unfold bind at 1 2 3.
    erewrite get_ec2_status_run; [| reflexivity | exact Hv].
    fold instances. destruct (forallb has_tags instances); reflexivity.
  - apply ec2_entries_facts. intros i Hi. apply filter_In in Hi. tauto.
Qed.

(** ** The responses of the handler *)

Lemma validate_params_rejects event cs r (w w' : World P) :
  validate_params event w = (Ret (cs, Some r), w') ->
  exists msg, In msg bad_request_messages /\ r = bad_request msg.
Proof.
  unfold validate_params, bind, lift, subscript, invalid_request, ControlService_init, ret.
  destruct (dict_get event "aws_service") as [a|]; [|discriminate].
  destruct (dict_get event "target_service") as [t|]; [|discriminate].
  destruct (dict_get event "action") as [c|]; [|discriminate].
  assert (Hmsg : forall msg cs0 (w0 : World P),
            In msg bad_request_messages ->
            (Ret (cs0, Some {| statusCode := 400; body := json_dumps (JStr msg) |}), w0)
            = (Ret (cs, Some r), w') ->
            exists msg, In msg bad_request_messages /\ r = bad_request msg).
  { intros msg cs0 w0 Hin E. injection E as _ <- _. exists msg. split; [exact Hin|].
    cbn in Hin. repeat (destruct Hin as [<- | Hin]; [reflexivity|]). destruct Hin. }
  destruct (truthy a); cbn [negb]; [|apply Hmsg; cbn; auto].
  destruct a; try (apply Hmsg; cbn; auto).
  destruct (truthy t); cbn [negb]; [|apply Hmsg; cbn; auto].
  destruct t; try (apply Hmsg; cbn; auto).
  destruct (truthy c); cbn [negb]; [|apply Hmsg; cbn; auto 6].
  destruct c; try (apply Hmsg; cbn; auto 7).
  discriminate.
Qed.

Lemma build_clients_rejects names : forall acc r (w w' : World P),
  build_clients names acc w = (Ret (inl r), w') ->
  r = bad_request "aws_service is invalid!".
Proof.
  induction names as [|n names IH]; intros acc r w w' E; cbn [build_clients] in E.
  - discriminate.
  - unfold bind in E. destruct (get_resource n w) as [[[c|]|e] w1].
    + exact (IH _ _ _ _ E).
    + injection E as <- _. reflexivity.
    + discriminate.
Qed.

(** X15: Every response the handler returns is one of four: 400 with one of
    the six JSON-quoted messages; 404 ["Not Found!"]; for a start or stop
    request, 200 with the acknowledgement of the action; for a status
    request, 200 with the "running" header and the JSON text of a list.
    The last two begin with the execution-environment line when there
    is one. *)
Theorem lambda_handler_responses (event : pydict pyval) r (w w' : World P) :
  lambda_handler event w = (Ret r, w') ->
  (exists msg, In msg bad_request_messages /\ r = bad_request msg)
  \/ r = {| statusCode := 404; body := "Not Found!" |}
  \/ (exists act,
        (act = "start" \/ act = "stop")
        /\ dict_get event "action" = Some (PStr act)
        /\ r = {| statusCode := 200;
                  body := exec_env_line (environ w) ++ accepted_msg act |})
  \/ (exists res,
        dict_get event "action" = Some (PStr "status")
        /\ r = {| statusCode := 200;
                  body := exec_env_line (environ w) ++ running_header
                            ++ String newline (json_dumps (status_json res)) |}).
Proof.
  unfold lambda_handler, bind at 1.
  destruct (validate_params event w) as [[[cs [r0|]]|e] w1] eqn:Ev; cbn [fst snd];
    [| |discriminate].
  { intros E. injection E as <- _. left. exact (validate_params_rejects _ _ _ _ _ Ev). }
  apply validate_params_inv in Ev.
  destruct Ev as (names & target & act & (_ & _ & _ & _ & Ec & _) & -> & ->).
  cbn [aws_service]. unfold bind at 1. cbn [ret]. unfold bind at 1.
  destruct (build_clients names [] w) as [[[r1|aws_clients]|e] w2] eqn:Eb; [| |discriminate].
  { intros E. injection E as <- _. left. exists "aws_service is invalid!".
    split; [cbn; auto | exact (build_clients_rejects _ _ _ _ _ Eb)]. }
  unfold action_is. cbn [action exec_env].
  destruct (act =? "status")%string eqn:Est.
  { apply String.eqb_eq in Est. subst act. unfold bind at 1.
    destruct (get_aws_service_status aws_clients _ w2) as [[res|e] w3]; [|discriminate].
    intros E. injection E as <- _. right. right. right. exists res. split; [exact Ec|].
    reflexivity. }
  destruct (act =? "start")%string eqn:Es.
  { apply String.eqb_eq in Es. subst act. cbn [orb]. unfold bind at 1.
    destruct (update_aws_service aws_clients _ w2) as [[u|e] w3]; [|discriminate].
    intros E. injection E as <- _. right. right. left. exists "start". auto. }
  destruct (act =? "stop")%string eqn:Ep; cbn [orb].
  { apply String.eqb_eq in Ep. subst act. unfold bind at 1.
    destruct (update_aws_service aws_clients _ w2) as [[u|e] w3]; [|discriminate].
    intros E. injection E as <- _. right. right. left. exists "stop". auto. }
  intros E. injection E as <- _. right. left. reflexivity.
Qed.

(** ** Asking for the status twice *)

Lemma log_blind_ret {A} (a : A) : log_blind (P:=P) (ret a).
Proof. intros w1 w2 He Hp. cbn. auto. Qed.

Lemma log_blind_lift {A} (o : outcome A) : log_blind (P:=P) (lift o).
Proof. intros w1 w2 He Hp. cbn. auto. Qed.

Lemma log_blind_bind {A B} (m : M P A) (k : A -> M P B) :
  log_blind m -> (forall a, log_blind (k a)) -> log_blind (bind m k).
Proof.
  intros Hm Hk w1 w2 He Hp. unfold bind. destruct (Hm w1 w2 He Hp) as (F & E' & P').
  destruct (m w1) as [[a1|e1] v1], (m w2) as [[a2|e2] v2]; cbn [fst snd] in *;
    try discriminate.
  - injection F as ->. now apply Hk.
  - injection F as ->. split; [reflexivity | split; [exact E' | exact P']].
Qed.

Lemma log_blind_for_each {A} (l : list A) (body : A -> M P unit) :
  (forall a, log_blind (body a)) -> log_blind (for_each l body).
Proof.
  intros Hb. induction l as [|a l IH]; cbn [for_each].
  - apply log_blind_ret.
  - apply log_blind_bind; auto.
Qed.

Lemma log_blind_for_fold {A S} (l : list A) (body : S -> A -> M P S) :
  (forall s a, log_blind (body s a)) -> forall s, log_blind (for_fold l s body).
Proof.
  intros Hb. induction l as [|a l IH]; intros s; cbn [for_fold].
  - apply log_blind_ret.
  - apply log_blind_bind; auto.
Qed.

Ltac log_blind_sdk :=
  let w1 := fresh "w" in let w2 := fresh "w" in
  let He := fresh "He" in let Hp := fresh "Hp" in
  intros w1 w2 He Hp; cbn; rewrite ?He, ?Hp; repeat split; auto.

Lemma log_blind_describe_instances client : log_blind (P:=P) (sdk_describe_instances client).
Proof. log_blind_sdk. Qed.

Lemma log_blind_start_instances client ids :
  log_blind (P:=P) (sdk_start_instances client ids).
Proof. log_blind_sdk. Qed.

Lemma log_blind_stop_instances client ids :
  log_blind (P:=P) (sdk_stop_instances client ids).
Proof. log_blind_sdk. Qed.

Lemma log_blind_describe_auto_scaling_groups client names :
  log_blind (P:=P) (sdk_describe_auto_scaling_groups client names).
Proof. log_blind_sdk. Qed.

Lemma log_blind_update client name a b c :
  log_blind (P:=P) (sdk_update_auto_scaling_group client name a b c).
Proof. log_blind_sdk. Qed.

Lemma log_blind_service_tag_matches tag cs : log_blind (P:=P) (service_tag_matches tag cs).
Proof.
  unfold service_tag_matches, target_service_subscript.
  destruct (Key tag =? "Service")%string; [|apply log_blind_ret].
  apply log_blind_bind; [|intros; apply log_blind_ret].
  destruct (target_service cs); [apply log_blind_lift | log_blind_sdk].
Qed.

Lemma log_blind_get_ec2_status client cs : log_blind (P:=P) (get_ec2_status client cs).
Proof.
  unfold get_ec2_status. apply log_blind_bind; [apply log_blind_describe_instances|].
  intros response. apply log_blind_for_fold. intros result reservation.
  apply log_blind_for_fold. intros result' instance.
  apply log_blind_bind; [apply log_blind_lift|]. intros tags.
  apply log_blind_bind.
  - apply log_blind_for_fold. intros info tag.
    destruct (Key tag =? "Name")%string; [apply log_blind_ret|].
    destruct (Key tag =? "Service")%string; [|apply log_blind_ret].
    apply log_blind_bind.
    + unfold target_service_subscript.
      destruct (target_service cs); [apply log_blind_lift | log_blind_sdk].
    + intros v. destruct (_ && _); apply log_blind_ret.
  - intros info. destruct (_ && _); apply log_blind_ret.
Qed.

Lemma log_blind_get_auto_scaling_group_status client cs :
  log_blind (P:=P) (get_auto_scaling_group_status client cs).
Proof.
  unfold get_auto_scaling_group_status.
  apply log_blind_bind; [apply log_blind_describe_auto_scaling_groups|].
  intros response. apply log_blind_for_fold. intros result group.
  apply log_blind_for_fold. intros result' tag.
  apply log_blind_bind; [apply log_blind_service_tag_matches|].
  intros [|]; [|apply log_blind_ret].
  apply log_blind_bind; [apply log_blind_describe_auto_scaling_groups|].
  intros res. apply log_blind_bind; [apply log_blind_lift|].
  intros g. apply log_blind_ret.
Qed.

Lemma log_blind_get_aws_service_status aws_clients cs :
  log_blind (P:=P) (get_aws_service_status aws_clients cs).
Proof.
  unfold get_aws_service_status. apply log_blind_for_fold. intros res c.
  destruct (str_eq "autoscaling" (aws_service_name c)).
  { apply log_blind_bind; [apply log_blind_get_auto_scaling_group_status|].
    intros r. apply log_blind_ret. }
  destruct (str_eq "ec2" (aws_service_name c)); [|apply log_blind_ret].
  apply log_blind_bind; [apply log_blind_get_ec2_status|].
  intros r. apply log_blind_ret.
Qed.

Lemma log_blind_update_aws_service aws_clients cs :
  log_blind (P:=P) (update_aws_service aws_clients cs).
Proof.
  unfold update_aws_service. apply log_blind_for_each. intros c.
  destruct (str_eq "autoscaling" (aws_service_name c)).
  { unfold update_auto_scaling_group.
    apply log_blind_bind; [apply log_blind_describe_auto_scaling_groups|].
    intros response. apply log_blind_for_each. intros g.
    apply log_blind_for_each. intros tag.
    apply log_blind_bind; [apply log_blind_service_tag_matches|].
    intros [|]; [|apply log_blind_ret].
    destruct (action_is cs "start"); [apply log_blind_update|].
    destruct (action_is cs "stop"); [apply log_blind_update | apply log_blind_ret]. }
  destruct (str_eq "ec2" (aws_service_name c)); [|apply log_blind_ret].
  unfold update_ec2. apply log_blind_bind; [apply log_blind_describe_instances|].
  intros response. apply log_blind_for_each. intros r.
  apply log_blind_for_each. intros i.
  apply log_blind_bind; [apply log_blind_lift|]. intros tags.
  apply log_blind_for_each. intros tag.
  apply log_blind_bind; [apply log_blind_service_tag_matches|].
  intros [|]; [|apply log_blind_ret].
  destruct (action_is cs "start").
  { destruct (EC2.State_Name i =? "stopped")%string;
      [apply log_blind_start_instances | apply log_blind_ret]. }
  destruct (action_is cs "stop"); [|apply log_blind_ret].
  destruct (EC2.State_Name i =? "running")%string; [|apply log_blind_ret].
  destruct (is_spot i); [apply log_blind_ret | apply log_blind_stop_instances].
Qed.

Lemma log_blind_invalid_request msg : log_blind (P:=P) (invalid_request msg).
Proof.
  unfold invalid_request. apply log_blind_bind; [log_blind_sdk|].
  intros cs. apply log_blind_ret.
Qed.

Lemma log_blind_validate_params event : log_blind (P:=P) (validate_params event).
Proof.
  unfold validate_params.
  apply log_blind_bind; [apply log_blind_lift|]. intros a.
  apply log_blind_bind; [apply log_blind_lift|]. intros t.
  apply log_blind_bind; [apply log_blind_lift|]. intros c.
  destruct (negb (truthy a)); [apply log_blind_invalid_request|].
  destruct a; try apply log_blind_invalid_request.
  destruct (negb (truthy t)); [apply log_blind_invalid_request|].
  destruct t; try apply log_blind_invalid_request.
  destruct (negb (truthy c)); [apply log_blind_invalid_request|].
  destruct c; try apply log_blind_invalid_request.
  apply log_blind_bind; [log_blind_sdk|]. intros cs. apply log_blind_ret.
Qed.

Lemma log_blind_get_resource name : log_blind (P:=P) (get_resource name).
Proof.
  intros w1 w2 He Hp.
  unfold get_resource, AWSClient_init, bind, environ_subscript. rewrite He.
  destruct (subscript (environ w2) "AWS_REGION") as [region|e].
  - destruct (client_exists name _); cbn; auto.
  - destruct e; cbn; auto.
Qed.

Lemma log_blind_build_clients names : forall acc, log_blind (P:=P) (build_clients names acc).
Proof.
  induction names as [|n names IH]; intros acc; cbn [build_clients].
  - apply log_blind_ret.
  - apply log_blind_bind; [apply log_blind_get_resource|].
    intros [c|]; [apply IH | apply log_blind_ret].
Qed.

Lemma log_blind_lambda_handler event : log_blind (P:=P) (lambda_handler event).
Proof.
  unfold lambda_handler. apply log_blind_bind; [apply log_blind_validate_params|].
  intros [cs [r|]]; cbn [fst snd]; [apply log_blind_ret|].
  apply log_blind_bind.
  { destruct (aws_service cs); [apply log_blind_ret | log_blind_sdk]. }
  intros names. apply log_blind_bind; [apply log_blind_build_clients|].
  intros [r|aws_clients]; [apply log_blind_ret|].
  destruct (action_is cs "status").
  { apply log_blind_bind; [apply log_blind_get_aws_service_status|].
    intros res. apply log_blind_ret. }
  destruct (_ || _); [|apply log_blind_ret].
  apply log_blind_bind; [apply log_blind_update_aws_service|].
  intros u. apply log_blind_ret.
Qed.

Lemma read_only_lambda_handler_status (event : pydict pyval) :
  dict_get event "action" = Some (PStr "status") ->
  read_only (P:=P) (lambda_handler event).
Proof.
  intros Hact. unfold lambda_handler.
  apply read_only_bind_run; [apply read_only_validate_params|].
  intros [cs [r|]] w0 w1 E; cbn [fst snd]; [apply read_only_ret|].
  apply validate_params_inv in E.
  destruct E as (names & target & act & (_ & _ & _ & _ & Ec & _) & -> & _).
  rewrite Hact in Ec. injection Ec as <-. cbn [aws_service].
  apply read_only_bind; [apply read_only_ret|]. intros l.
  apply read_only_bind; [apply read_only_build_clients|].
  intros [response|aws_clients]; [apply read_only_ret|].
  unfold action_is at 1. cbn [action String.eqb Ascii.eqb Bool.eqb].
  apply read_only_bind; [apply read_only_get_aws_service_status|].
  intros res. apply read_only_ret.
Qed.

(** X17: Asking for the status a second time, right after the first, gives
    the same answer (the same response or the same exception), and the
    provider is still in the state it was in before the first request. *)
Theorem status_twice_same (event : pydict pyval) (w : World P) :
  dict_get event "action" = Some (PStr "status") ->
  let w1 := snd (lambda_handler event w) in
  fst (lambda_handler event w1) = fst (lambda_handler event w)
  /\ provider (snd (lambda_handler event w1)) = provider w.
Proof.
  intros Hact w1.
  destruct (read_only_lambda_handler_status event Hact w) as (Hp & He & _).
  fold w1 in Hp, He.
  destruct (log_blind_lambda_handler event w1 w He Hp) as (F & _ & Hp').
  split; [exact F|]. now rewrite Hp'.
Qed.

End Behaviour.

(** * The theorems on concrete inputs *)

(** A status request without the [aws_service] key. *)
Lemma C1_missing_key_raises_witness :
  exists k,
    In k ["aws_service"; "target_service"; "action"]
    /\ dict_get [("target_service", PDict Fake.web_target); ("action", PStr "status")] k = None
    /\ lambda_handler [("target_service", PDict Fake.web_target); ("action", PStr "status")]
         Fake.web_world
       = (Raise (KeyError k), Fake.web_world).
Proof.
  apply (C1_missing_key_raises
           [("target_service", PDict Fake.web_target); ("action", PStr "status")]
           Fake.web_world).
  left. reflexivity.
Defined.

(** Stopping service [web] when the untagged [i-0] is listed first: the
    running instance [i-1] of the service, which is not a spot instance,
    is sent no stop. *)
Lemma C2_untagged_instance_aborts_stop_witness :
  exists w' issued,
    update_ec2 Fake.ec2 (Fake.control "stop") Fake.mixed_world = (Raise (KeyError "Tags"), w')
    /\ calls w' = (calls Fake.mixed_world ++ DescribeInstances :: issued)%list
    /\ forall i,
         In i [ Fake.instance "i-1" "t3.micro" "running" [("Name", "web-1"); ("Service", "web")]
                  None;
                Fake.instance "i-2" "t3.micro" "stopped" [("Service", "web")] None ] ->
         ~ In (StopInstances [EC2.InstanceId i]) issued.
Proof.
  refine (C2_untagged_instance_aborts_stop Fake.ec2 (Fake.control "stop") Fake.web_target
            (PStr "web") Fake.mixed_world []
            (Fake.untagged_instance "i-0" "t3.nano" "running")
            [ Fake.instance "i-1" "t3.micro" "running" [("Name", "web-1"); ("Service", "web")]
                None;
              Fake.instance "i-2" "t3.micro" "stopped" [("Service", "web")] None ]
            eq_refl eq_refl eq_refl eq_refl eq_refl eq_refl _).
  cbn. nodup_strings.
Defined.

(** Starting service [web] when the untagged [i-0] is listed first: the
    stopped instance [i-2] of the service is sent no start. *)
Lemma C3_untagged_instance_aborts_start_witness :
  exists w' issued,
    update_ec2 Fake.ec2 (Fake.control "start") Fake.mixed_world
    = (Raise (KeyError "Tags"), w')
    /\ calls w' = (calls Fake.mixed_world ++ DescribeInstances :: issued)%list
    /\ forall i,
         In i [ Fake.instance "i-1" "t3.micro" "running" [("Name", "web-1"); ("Service", "web")]
                  None;
                Fake.instance "i-2" "t3.micro" "stopped" [("Service", "web")] None ] ->
         ~ In (StartInstances [EC2.InstanceId i]) issued.
Proof.
  refine (C3_untagged_instance_aborts_start Fake.ec2 (Fake.control "start") Fake.web_target
            (PStr "web") Fake.mixed_world []
            (Fake.untagged_instance "i-0" "t3.nano" "running")
            [ Fake.instance "i-1" "t3.micro" "running" [("Name", "web-1"); ("Service", "web")]
                None;
              Fake.instance "i-2" "t3.micro" "stopped" [("Service", "web")] None ]
            eq_refl eq_refl eq_refl eq_refl eq_refl eq_refl _).
  cbn. nodup_strings.
Defined.

(** Starting service [web]: [asg-web] is set to 1, [asg-db] is untouched. *)
Lemma C4_asg_capacity_set_witness :
  exists w' issued,
    update_auto_scaling_group Fake.autoscaling (Fake.control "start") Fake.web_world
    = (Ret tt, w')
    /\ calls w' = (calls Fake.web_world ++ DescribeAutoScalingGroups None :: issued)%list
    /\ (forall g, In g (Fake.listed_groups Fake.web_cloud) ->
          has_service_tag (PStr "web") (ASG.Tags g) = true ->
          In (UpdateAutoScalingGroup (ASG.AutoScalingGroupName g) 1 1 1) issued)
    /\ (forall c, In c issued ->
          exists g, In g (Fake.listed_groups Fake.web_cloud)
                    /\ has_service_tag (PStr "web") (ASG.Tags g) = true
                    /\ c = UpdateAutoScalingGroup (ASG.AutoScalingGroupName g) 1 1 1)
    /\ (forall g, In g (Fake.listed_groups Fake.web_cloud) ->
          has_service_tag (PStr "web") (ASG.Tags g) = false ->
          (forall g', In g' (Fake.listed_groups Fake.web_cloud) ->
                      has_service_tag (PStr "web") (ASG.Tags g') = true ->
                      ASG.AutoScalingGroupName g' <> ASG.AutoScalingGroupName g) ->
          forall a b c, ~ In (UpdateAutoScalingGroup (ASG.AutoScalingGroupName g) a b c) issued).
Proof.
  refine (C4_asg_capacity_set Fake.autoscaling (Fake.control "start") Fake.web_target
            (PStr "web") "start" 1 Fake.web_world eq_refl eq_refl eq_refl _).
  left. split; reflexivity.
Defined.

(** The status of service [batch], of which nothing runs. *)
Lemma C5_status_none_running_body_witness :
  lambda_handler
    (Fake.request (PList [PStr "ec2"]) (PDict [("service", PStr "batch")]) (PStr "status"))
    Fake.web_world
  = (Ret {| statusCode := 200;
            body := "次のサービスが稼働しています" ++ String newline "[[]]" |},
     log DescribeInstances Fake.web_world).
Proof.
  refine (C5_status_none_running_body
            (Fake.request (PList [PStr "ec2"]) (PDict [("service", PStr "batch")]) (PStr "status"))
            [("service", PStr "batch")] (PStr "batch") "ap-northeast-1" Fake.web_world
            _ eq_refl eq_refl eq_refl _).
  - unfold valid_request. cbn. repeat split; try reflexivity; discriminate.
  - intros i Hi. cbn in Hi.
    repeat (destruct Hi as [<- | Hi]; [reflexivity|]). destruct Hi.
Defined.

(** C6 (as stated) fails: [aws_service] given as the number 0 is present
    and is not a sequence, and the answer is ["aws_service is required!"],
    not ["aws_service is invalid!"]. *)
Lemma C6_counterexample_zero :
  dict_get (Fake.request (PInt 0) (PDict Fake.web_target) (PStr "status")) "aws_service"
  = Some (PInt 0)
  /\ isinstance_list (PInt 0) = false
  /\ lambda_handler (Fake.request (PInt 0) (PDict Fake.web_target) (PStr "status"))
       Fake.web_world
     = (Ret (bad_request "aws_service is required!"), Fake.web_world)
  /\ fst (lambda_handler (Fake.request (PInt 0) (PDict Fake.web_target) (PStr "status"))
            Fake.web_world)
     <> Ret (bad_request "aws_service is invalid!").
Proof.
  repeat split. intros E. vm_compute in E. discriminate E.
Qed.

(** [aws_service] given as the string ["ec2"]. *)
Lemma C6_wrong_type_is_invalid_witness :
  lambda_handler (Fake.request (PStr "ec2") (PDict Fake.web_target) (PStr "status"))
    Fake.web_world
  = (Ret {| statusCode := 400;
            body := String dquote ("aws_service is invalid!" ++ String dquote "") |},
     Fake.web_world).
Proof.
  refine (proj1 (C6_wrong_type_is_invalid
                   (Fake.request (PStr "ec2") (PDict Fake.web_target) (PStr "status"))
                   (PStr "ec2") (PDict Fake.web_target) (PStr "status") Fake.web_world
                   eq_refl eq_refl eq_refl) eq_refl eq_refl).
Defined.

(** A stop request for [ec2] and a kind the SDK has no client for. *)
Lemma C7_unknown_kind_raises_witness :
  exists n,
    In n [PStr "ec2"; PStr "lambda-x"] /\ client_exists n "ap-northeast-1" = false
    /\ lambda_handler
         (Fake.request (PList [PStr "ec2"; PStr "lambda-x"]) (PDict Fake.web_target)
            (PStr "stop"))
         Fake.web_world
       = (Raise (ClientFailure (client_error n "ap-northeast-1")), Fake.web_world).
Proof.
  refine (C7_unknown_kind_raises
            (Fake.request (PList [PStr "ec2"; PStr "lambda-x"]) (PDict Fake.web_target)
               (PStr "stop"))
            [PStr "ec2"; PStr "lambda-x"] Fake.web_target "stop" "ap-northeast-1"
            Fake.web_world _ eq_refl _).
  - unfold valid_request. cbn. repeat split; try reflexivity; discriminate.
  - exists (PStr "lambda-x"). split; [right; left; reflexivity | reflexivity].
Defined.

(** The action ["restart"]. *)
Lemma C8_unrecognized_action_not_found_witness :
  lambda_handler
    (Fake.request (PList [PStr "ec2"; PStr "autoscaling"]) (PDict Fake.web_target)
       (PStr "restart"))
    Fake.web_world
  = (Ret {| statusCode := 404; body := "Not Found!" |}, Fake.web_world).
Proof.
  refine (C8_unrecognized_action_not_found
            (Fake.request (PList [PStr "ec2"; PStr "autoscaling"]) (PDict Fake.web_target)
               (PStr "restart"))
            [PStr "ec2"; PStr "autoscaling"] Fake.web_target "restart" "ap-northeast-1"
            Fake.web_world _ eq_refl _ _ _ _); try discriminate.
  - unfold valid_request. cbn. repeat split; try reflexivity; discriminate.
  - repeat constructor.
Defined.

(** A status request over both kinds. *)
Lemma C9_status_only_describes_witness :
  let event := Fake.request (PList [PStr "ec2"; PStr "autoscaling"]) (PDict Fake.web_target)
                 (PStr "status") in
  let w' := snd (lambda_handler event Fake.web_world) in
  provider w' = provider Fake.web_world
  /\ exists l, calls w' = (calls Fake.web_world ++ l)%list
               /\ Forall (fun c => is_describe c = true) l
               /\ (forall c, In c l ->
                     (forall ids, c <> StartInstances ids /\ c <> StopInstances ids)
                     /\ (forall name a b n, c <> UpdateAutoScalingGroup name a b n)).
Proof.
  refine (C9_status_only_describes
            (Fake.request (PList [PStr "ec2"; PStr "autoscaling"]) (PDict Fake.web_target)
               (PStr "status"))
            Fake.web_world eq_refl).
Defined.

(** A cloud whose only tagged group is gone when it is looked up. *)
Lemma C10_asg_status_needs_refetch_witness :
  let w := Fake.world Fake.lambda_env Fake.vanished_cloud in
  let still_there :=
    forall g, In g (Fake.listed_groups Fake.vanished_cloud) ->
              has_service_tag (PStr "web") (ASG.Tags g) = true ->
              refetch (provider w) g <> [] in
  ((exists result w',
      get_auto_scaling_group_status Fake.autoscaling (Fake.control "status") w
      = (Ret result, w'))
   <-> still_there)
  /\ (~ still_there ->
      exists w', get_auto_scaling_group_status Fake.autoscaling (Fake.control "status") w
                 = (Raise IndexError, w')).
Proof.
  refine (C10_asg_status_needs_refetch Fake.autoscaling (Fake.control "status")
            Fake.web_target (PStr "web") (Fake.world Fake.lambda_env Fake.vanished_cloud)
            eq_refl eq_refl).
Defined.

(** ** The handler on the scenarios of the specification *)

Example scenario_status_running :
  fst (lambda_handler
         (Fake.request (PList [PStr "ec2"; PStr "autoscaling"]) (PDict Fake.web_target)
            (PStr "status"))
         Fake.web_world)
  = Ret {| statusCode := 200;
           body := "次のサービスが稼働しています" ++ String newline
             (json_dumps (JList [
                JList [JDict [("Name", JStr "web-1"); ("InstanceId", JStr "i-1");
                              ("InstanceType", JStr "t3.micro")];
                       JDict [("InstanceId", JStr "i-3"); ("InstanceType", JStr "m5.large");
                              ("Name", JStr "")]];
                JList [JDict [("AutoScalingGroupName", JStr "asg-web"); ("Size", JInt 3)]]])) |}.
Proof. vm_compute. reflexivity. Qed.

Example scenario_stop_spot_only :
  calls (snd (lambda_handler
                (Fake.request (PList [PStr "ec2"]) (PDict Fake.web_target) (PStr "stop"))
                Fake.web_world))
  = [DescribeInstances; StopInstances ["i-1"]].
Proof. vm_compute. reflexivity. Qed.

Example scenario_vanished_group_raises :
  fst (lambda_handler
         (Fake.request (PList [PStr "autoscaling"]) (PDict Fake.web_target) (PStr "status"))
         (Fake.world Fake.lambda_env Fake.vanished_cloud))
  = Raise IndexError.
Proof. vm_compute. reflexivity. Qed.

Example scenario_unknown_kind_raises :
  lambda_handler
    (Fake.request (PList [PStr "ec2"; PStr "lambda-x"]) (PDict Fake.web_target) (PStr "stop"))
    Fake.web_world
  = (Raise (ClientFailure UnknownServiceError), Fake.web_world).
Proof. vm_compute. reflexivity. Qed.

Example scenario_kind_not_a_string_raises :
  lambda_handler
    (Fake.request (PList [PInt 1]) (PDict Fake.web_target) (PStr "status")) Fake.web_world
  = (Raise (ClientFailure AttributeError), Fake.web_world).
Proof. vm_compute. reflexivity. Qed.

Example scenario_empty_region_raises :
  lambda_handler
    (Fake.request (PList [PStr "ec2"]) (PDict Fake.web_target) (PStr "status"))
    (Fake.world [("AWS_REGION", "")] Fake.web_cloud)
  = (Raise (ClientFailure ValueError), Fake.world [("AWS_REGION", "")] Fake.web_cloud).
Proof. vm_compute. reflexivity. Qed.

Example scenario_untagged_instance_stop :
  lambda_handler (Fake.request (PList [PStr "ec2"]) (PDict Fake.web_target) (PStr "stop"))
    Fake.mixed_world
  = (Raise (KeyError "Tags"), log DescribeInstances Fake.mixed_world).
Proof. vm_compute. reflexivity. Qed.

Example scenario_untagged_instance_start :
  lambda_handler (Fake.request (PList [PStr "ec2"]) (PDict Fake.web_target) (PStr "start"))
    Fake.mixed_world
  = (Raise (KeyError "Tags"), log DescribeInstances Fake.mixed_world).
Proof. vm_compute. reflexivity. Qed.

Example scenario_untagged_instance_status :
  lambda_handler (Fake.request (PList [PStr "ec2"]) (PDict Fake.web_target) (PStr "status"))
    Fake.mixed_world
  = (Raise (KeyError "Tags"), log DescribeInstances Fake.mixed_world).
Proof. vm_compute. reflexivity. Qed.

Example scenario_empty_field_is_required :
  fst (lambda_handler
         (Fake.request (PList [PStr "ec2"]) (PDict []) (PStr "status")) Fake.web_world)
  = Ret (bad_request "target_service is required!").
Proof. vm_compute. reflexivity. Qed.

(** * The further properties on concrete inputs *)

(** An empty target dict. *)
Lemma empty_field_is_required_witness :
  lambda_handler (Fake.request (PList [PStr "ec2"]) (PDict []) (PStr "status")) Fake.web_world
  = (Ret (bad_request "target_service is required!"), Fake.web_world).
Proof.
  refine (proj1 (proj2 (empty_field_is_required
            (Fake.request (PList [PStr "ec2"]) (PDict []) (PStr "status"))
            (PList [PStr "ec2"]) (PDict []) (PStr "status") Fake.web_world
            eq_refl eq_refl eq_refl)) eq_refl eq_refl eq_refl).
Defined.

(** A valid request in an environment without [AWS_REGION]. *)
Lemma missing_region_raises_witness :
  lambda_handler (Fake.request (PList [PStr "ec2"]) (PDict Fake.web_target) (PStr "stop"))
    (Fake.world [] Fake.web_cloud)
  = (Raise (KeyError "AWS_REGION"), Fake.world [] Fake.web_cloud).
Proof.
  refine (missing_region_raises
            (Fake.request (PList [PStr "ec2"]) (PDict Fake.web_target) (PStr "stop"))
            [PStr "ec2"] Fake.web_target "stop" (Fake.world [] Fake.web_cloud) _ eq_refl).
  unfold valid_request. cbn. repeat split; try reflexivity; discriminate.
Defined.

(** Stopping service [web] in the staging environment. *)
Lemma start_stop_acknowledged_witness :
  exists w',
    lambda_handler
      (Fake.request (PList [PStr "ec2"]) (PDict Fake.web_target) (PStr "stop"))
      (Fake.world Fake.staging_env Fake.web_cloud)
    = (Ret {| statusCode := 200;
              body := "実行環境: staging" ++ String newline "停止リクエストの受付を開始しました" |},
       w').
Proof.
  refine (start_stop_acknowledged
            (Fake.request (PList [PStr "ec2"]) (PDict Fake.web_target) (PStr "stop"))
            [PStr "ec2"] Fake.web_target "stop" (PStr "web")
            "ap-northeast-1" (Fake.world Fake.staging_env Fake.web_cloud)
            _ eq_refl _ eq_refl _ _).
  - unfold valid_request. cbn. repeat split; try reflexivity; discriminate.
  - repeat constructor.
  - right. reflexivity.
  - right. split; reflexivity.
Defined.

(** A stop request over ["s3"]. *)
Lemma other_kinds_are_ignored_witness :
  lambda_handler (Fake.request (PList [PStr "s3"]) (PDict Fake.web_target) (PStr "stop"))
    Fake.web_world
  = (Ret {| statusCode := 200; body := "停止リクエストの受付を開始しました" |},
     Fake.web_world).
Proof.
  refine (proj1 (other_kinds_are_ignored
            (Fake.request (PList [PStr "s3"]) (PDict Fake.web_target) (PStr "stop"))
            [PStr "s3"] Fake.web_target "stop" "ap-northeast-1" Fake.web_world
            _ eq_refl _ _) _).
  - unfold valid_request. cbn. repeat split; try reflexivity; discriminate.
  - repeat constructor.
  - repeat constructor.
  - right. reflexivity.
Defined.

(** Starting service [web] over both kinds. *)
Lemma start_request_calls_witness :
  exists l,
    calls (snd (lambda_handler
                  (Fake.request (PList [PStr "ec2"; PStr "autoscaling"])
                     (PDict Fake.web_target) (PStr "start"))
                  Fake.web_world))
    = (calls Fake.web_world ++ l)%list
    /\ forall c, In c l ->
         c = DescribeInstances \/ c = DescribeAutoScalingGroups None
         \/ (exists id, c = StartInstances [id])
         \/ (exists name, c = UpdateAutoScalingGroup name 1 1 1).
Proof.
  refine (start_request_calls
            (Fake.request (PList [PStr "ec2"; PStr "autoscaling"]) (PDict Fake.web_target)
               (PStr "start"))
            Fake.web_world eq_refl).
Defined.

(** Stopping service [web] over both kinds. *)
Lemma stop_request_calls_witness :
  exists l,
    calls (snd (lambda_handler
                  (Fake.request (PList [PStr "ec2"; PStr "autoscaling"])
                     (PDict Fake.web_target) (PStr "stop"))
                  Fake.web_world))
    = (calls Fake.web_world ++ l)%list
    /\ forall c, In c l ->
         c = DescribeInstances \/ c = DescribeAutoScalingGroups None
         \/ (exists id, c = StopInstances [id])
         \/ (exists name, c = UpdateAutoScalingGroup name 0 0 0).
Proof.
  refine (stop_request_calls
            (Fake.request (PList [PStr "ec2"; PStr "autoscaling"]) (PDict Fake.web_target)
               (PStr "stop"))
            Fake.web_world eq_refl).
Defined.

(** Stopping service [web]: only [i-1] is stopped. *)
Lemma stop_commands_exact_witness :
  exists w',
    update_ec2 Fake.ec2 (Fake.control "stop") Fake.web_world = (Ret tt, w')
    /\ calls w' = [DescribeInstances; StopInstances ["i-1"]].
Proof.
  refine (stop_commands_exact Fake.ec2 (Fake.control "stop") Fake.web_target (PStr "web")
            Fake.web_world eq_refl eq_refl eq_refl eq_refl _).
  intros i Hi. cbn in Hi.
  repeat (destruct Hi as [<- | Hi]; [cbn; nodup_strings|]). destruct Hi.
Defined.

(** Starting service [web]: only the stopped instance [i-2] is started. *)
Lemma start_commands_exact_witness :
  exists w',
    update_ec2 Fake.ec2 (Fake.control "start") Fake.web_world = (Ret tt, w')
    /\ calls w' = [DescribeInstances; StartInstances ["i-2"]]
    /\ length (filter is_start (calls w')) = 1%nat.
Proof.
  refine (start_commands_exact Fake.ec2 (Fake.control "start") Fake.web_target (PStr "web")
            Fake.web_world eq_refl eq_refl eq_refl eq_refl _).
  intros i Hi. cbn in Hi.
  repeat (destruct Hi as [<- | Hi]; [cbn; nodup_strings|]). destruct Hi.
Defined.

(** Stopping service [web]: the spot instance [i-3] is sent no stop. *)
Lemma spot_never_stopped_witness :
  exists issued,
    calls (snd (update_ec2 Fake.ec2 (Fake.control "stop") Fake.web_world))
    = (calls Fake.web_world ++ DescribeInstances :: issued)%list
    /\ (forall ids, In (StopInstances ids) issued ->
          exists i, In i (all_instances (Fake.reservations Fake.web_cloud))
                    /\ ids = [EC2.InstanceId i]
                    /\ has_service_tag (PStr "web") (tags_of i) = true
                    /\ EC2.State_Name i = "running"
                    /\ EC2.InstanceLifecycle i <> Some "spot")
    /\ (forall i, In i (all_instances (Fake.reservations Fake.web_cloud)) ->
          EC2.InstanceLifecycle i = Some "spot" ->
          ~ In (StopInstances [EC2.InstanceId i]) issued).
Proof.
  refine (spot_never_stopped Fake.ec2 (Fake.control "stop") Fake.web_target (PStr "web")
            Fake.web_world eq_refl eq_refl _).
  cbn. nodup_strings.
Defined.

(** Stopping service [web]: only [asg-web] is set to 0. *)
Lemma capacity_updates_exact_witness :
  exists w',
    update_auto_scaling_group Fake.autoscaling (Fake.control "stop") Fake.web_world
    = (Ret tt, w')
    /\ calls w' = [DescribeAutoScalingGroups None; UpdateAutoScalingGroup "asg-web" 0 0 0].
Proof.
  refine (capacity_updates_exact Fake.autoscaling (Fake.control "stop") Fake.web_target
            (PStr "web") "stop" 0 Fake.web_world eq_refl eq_refl eq_refl _ _).
  - right. split; reflexivity.
  - intros g Hg. cbn in Hg.
    repeat (destruct Hg as [<- | Hg]; [cbn; nodup_strings|]). destruct Hg.
Defined.

(** The target of the docstring's sample event has no ["service"] key. *)
Lemma update_ec2_without_service_key_witness :
  update_ec2 Fake.ec2 (Fake.sample_control "stop") Fake.web_world
  = (Raise (KeyError "service"), log DescribeInstances Fake.web_world).
Proof.
  refine (update_ec2_without_service_key Fake.ec2 (Fake.sample_control "stop")
            Fake.sample_target Fake.web_world eq_refl eq_refl).
Defined.

Lemma update_auto_scaling_group_without_service_key_witness :
  update_auto_scaling_group Fake.autoscaling (Fake.sample_control "start") Fake.web_world
  = (Raise (KeyError "service"), log (DescribeAutoScalingGroups None) Fake.web_world).
Proof.
  refine (update_auto_scaling_group_without_service_key Fake.autoscaling
            (Fake.sample_control "start") Fake.sample_target Fake.web_world eq_refl eq_refl).
Defined.

(** The status of the groups of service [web]. *)
Lemma asg_status_entries_witness :
  exists w',
    get_auto_scaling_group_status Fake.autoscaling (Fake.control "status") Fake.web_world
    = (Ret [[("AutoScalingGroupName", JStr "asg-web"); ("Size", JInt 3)]], w')
    /\ provider w' = provider Fake.web_world.
Proof.
  refine (asg_status_entries Fake.autoscaling (Fake.control "status") Fake.web_target
            (PStr "web") Fake.web_world eq_refl eq_refl _ _).
  - intros g Hg. cbn in Hg.
    repeat (destruct Hg as [<- | Hg]; [cbn; nodup_strings|]). destruct Hg.
  - intros g Hg. cbn in Hg.
    repeat (destruct Hg as [<- | Hg]; [intros Hm E; vm_compute in Hm, E; discriminate|]).
    destruct Hg.
Defined.

(** The status of the instances of service [web]. *)
Lemma ec2_status_entries_witness :
  exists result,
    get_ec2_status Fake.ec2 (Fake.control "status") Fake.web_world
    = (Ret result, log DescribeInstances Fake.web_world)
    /\ Forall2 ec2_entry_of
         (filter (matching_running (PStr "web"))
            (all_instances (Fake.reservations Fake.web_cloud)))
         result.
Proof.
  refine (ec2_status_entries Fake.ec2 (Fake.control "status") Fake.web_target (PStr "web")
            Fake.web_world eq_refl eq_refl).
Defined.

Lemma ec2_status_response_witness :
  exists result,
    lambda_handler
      (Fake.request (PList [PStr "ec2"]) (PDict Fake.web_target) (PStr "status"))
      Fake.web_world
    = (Ret {| statusCode := 200;
              body := running_header
                        ++ String newline (json_dumps (JList [JList (map JDict result)])) |},
       log DescribeInstances Fake.web_world)
    /\ Forall2 ec2_entry_of
         (filter (matching_running (PStr "web"))
            (all_instances (Fake.reservations Fake.web_cloud)))
         result.
Proof.
  refine (ec2_status_response
            (Fake.request (PList [PStr "ec2"]) (PDict Fake.web_target) (PStr "status"))
            Fake.web_target (PStr "web") "ap-northeast-1" Fake.web_world _ eq_refl eq_refl
            eq_refl).
  unfold valid_request. cbn. repeat split; try reflexivity; discriminate.
Defined.

(** The response to the action ["restart"] is the 404 one. *)
Lemma lambda_handler_responses_witness :
  (exists msg, In msg bad_request_messages
               /\ {| statusCode := 404; body := "Not Found!" |} = bad_request msg)
  \/ {| statusCode := 404; body := "Not Found!" |}
     = {| statusCode := 404; body := "Not Found!" |}
  \/ (exists act,
        (act = "start" \/ act = "stop")
        /\ dict_get (Fake.request (PList [PStr "ec2"]) (PDict Fake.web_target)
                       (PStr "restart")) "action" = Some (PStr act)
        /\ {| statusCode := 404; body := "Not Found!" |}
           = {| statusCode := 200;
                body := exec_env_line (environ Fake.web_world) ++ accepted_msg act |})
  \/ (exists res,
        dict_get (Fake.request (PList [PStr "ec2"]) (PDict Fake.web_target)
                    (PStr "restart")) "action" = Some (PStr "status")
        /\ {| statusCode := 404; body := "Not Found!" |}
           = {| statusCode := 200;
                body := exec_env_line (environ Fake.web_world) ++ running_header
                          ++ String newline (json_dumps (status_json res)) |}).
Proof.
  refine (lambda_handler_responses
            (Fake.request (PList [PStr "ec2"]) (PDict Fake.web_target) (PStr "restart"))
            {| statusCode := 404; body := "Not Found!" |} Fake.web_world Fake.web_world
            eq_refl).
Defined.

(** The status of service [web], asked twice. *)
Lemma status_twice_same_witness :
  let event := Fake.request (PList [PStr "ec2"; PStr "autoscaling"]) (PDict Fake.web_target)
                 (PStr "status") in
  let w1 := snd (lambda_handler event Fake.web_world) in
  fst (lambda_handler event w1) = fst (lambda_handler event Fake.web_world)
  /\ provider (snd (lambda_handler event w1)) = provider Fake.web_world.
Proof.
  refine (status_twice_same
            (Fake.request (PList [PStr "ec2"; PStr "autoscaling"]) (PDict Fake.web_target)
               (PStr "status"))
            Fake.web_world eq_refl).
Defined.
